(** * mesh2inp: a mesh file converted to CalculiX/Abaqus input decks

    Shallow embedding of [mesh2inp.py] and the properties of its reader
    ([read_mesh]), its chunking helper ([chunks]) and its two deck writers
    ([write_nodes], [write_elements]).

    Conventions of the embedding:
    - Python [int] is [Z]; a tuple or list of ints is [list Z].
    - Python [str] is [string]; a character is a code point below 256.
    - Python [float] is an IEEE 754 binary64 value, [spec_float].
    - Python [set] of ints is [gset Z]; [defaultdict(set)] is an association
      list in insertion order, because [write_nodes] iterates over its keys.
    - An exception is a value of [exn]; code that can raise returns
      [result A = exn + A]; code that writes to a file returns the strings
      passed to [write], in order, together with its outcome ([io A]).
    - Calls to [logging] do not touch the decks and are left out.
    - Opening, reading and writing a file succeed; [read_mesh] is given the
      text of the mesh file, decoded.
    - The limit that recent interpreters put on the number of digits of an
      [int] read or written is left out. *)

From Stdlib Require Import ZArith String Ascii DecimalString DecimalPos.
From Stdlib Require Import Floats.SpecFloat.
From stdpp Require Import gmap strings list sorting.

Open Scope Z_scope.

(** ** Exceptions and the two effect monads *)

Inductive value_error : Type :=
| NotInList (x : string)          (* list.index(x): x is not in the list *)
| InvalidInt (s : string)         (* int(s): invalid literal *)
| InvalidFloat (s : string)       (* float(s): could not convert *)
| Unpack (expected got : nat)     (* tuple unpacking with the wrong arity *)
| BadCount.                       (* chunks: count must be > 0 *)

Inductive exn : Type :=
| ValueError (why : value_error)
| IndexError
| SystemExit (status : Z).

Definition result (A : Type) : Type := (exn + A)%type.

Definition Ok {A} (a : A) : result A := inr a.
Definition raise {A} (e : exn) : result A := inl e.

#[global] Instance result_ret : MRet result := fun A a => inr a.
#[global] Instance result_bind : MBind result := fun A B f m =>
  match m with
  | inl e => inl e
  | inr a => f a
  end.

Definition is_ok {A} (r : result A) : bool :=
  match r with inr _ => true | inl _ => false end.

(** [[f(x) for x in l]] where [f] may raise: the first failure wins. *)
Fixpoint traverse {A B} (f : A → result B) (l : list A) : result (list B) :=
  match l with
  | [] => Ok []
  | x :: l' => y ← f x; ys ← traverse f l'; Ok (y :: ys)
  end.

(** A loop that updates one variable and may raise. *)
Fixpoint foldM {A S} (f : S → A → result S) (s : S) (l : list A) : result S :=
  match l with
  | [] => Ok s
  | x :: l' => s' ← f s x; foldM f s' l'
  end.

(** Code that writes to an open file: the strings passed to [write] so far,
    and a value or the exception that ended it. *)
Definition io (A : Type) : Type := (list string * result A)%type.

#[global] Instance io_ret : MRet io := fun A a => ([], Ok a).
#[global] Instance io_bind : MBind io := fun A B f m =>
  match m with
  | (w, inl e) => (w, inl e)
  | (w, inr a) => let '(w', r) := f a in (w ++ w', r)
  end.

(** [f.write(s)] *)
Definition write (s : string) : io unit := ([s], Ok tt).

(** A computation that writes nothing. *)
Definition lift {A} (r : result A) : io A := ([], r).

(** [for x in l: body] *)
Fixpoint for_ {A} (l : list A) (body : A → io unit) : io unit :=
  match l with
  | [] => mret tt
  | x :: l' => body x;; for_ l' body
  end.

(** [with open(name, 'wt') as f: body]: the file that was opened, what was
    written to it, and how the block ended. *)
Record run : Type := Run {
  file : string;
  written : list string;
  outcome : result unit
}.

Definition with_open (name : string) (body : io unit) : run :=
  Run name body.1 body.2.

(** ** The Python builtins the program uses *)

Module Py.

(** *** Sequences: [len], indexing, slicing, [range], [enumerate], [index] *)

Definition len {A} (l : list A) : Z := Z.of_nat (length l).

(** [l[i]]: a negative index counts from the end; out of range raises. *)
Definition index {A} (l : list A) (i : Z) : result A :=
  let j := if i <? 0 then i + len l else i in
  if (0 <=? j) && (j <? len l)
  then match l !! Z.to_nat j with Some x => Ok x | None => raise IndexError end
  else raise IndexError.

(** A slice bound is clamped to [0 .. len]; a negative one first counts from
    the end. *)
Definition bound (n i : Z) : Z :=
  if i <? 0 then Z.max 0 (i + n) else Z.min i n.

(** [l[lo:hi]]: never raises. *)
Definition slice {A} (l : list A) (lo hi : Z) : list A :=
  let lo' := bound (len l) lo in
  let hi' := bound (len l) hi in
  take (Z.to_nat (hi' - lo')) (drop (Z.to_nat lo') l).

(** [range(start, stop, step)] for [step >= 1], as the loop
    [i = start; while i < stop: yield i; i += step].  [stop - start]
    iterations are always enough. *)
Fixpoint range_loop (fuel : nat) (i stop step : Z) : list Z :=
  match fuel with
  | O => []
  | S fuel' =>
      if i <? stop then i :: range_loop fuel' (i + step) stop step else []
  end.

Definition range (start stop step : Z) : list Z :=
  range_loop (Z.to_nat (stop - start)) start stop step.

(** [enumerate(l, start=n)] *)
Fixpoint enumerate {A} (l : list A) (start : Z) : list (Z * A) :=
  match l with
  | [] => []
  | x :: l' => (start, x) :: enumerate l' (start + 1)
  end.

(** [l.index(x)]: the position of the first item equal to [x]. *)
Definition list_index (l : list string) (x : string) : result Z :=
  match list_find (fun y => y = x) l with
  | Some (i, _) => Ok (Z.of_nat i)
  | None => raise (ValueError (NotInList x))
  end.

(** [sorted(list(s))] for a set of ints *)
Definition sorted (s : gset Z) : list Z := merge_sort Z.le (elements s).

(** [d[key].add(x)] on a [defaultdict(set)]: a new key goes last. *)
Fixpoint defaultdict_add (d : list (Z * gset Z)) (key x : Z)
  : list (Z * gset Z) :=
  match d with
  | [] => [(key, {[ x ]})]
  | (k, s) :: d' =>
      if decide (k = key) then (k, s ∪ {[ x ]}) :: d'
      else (k, s) :: defaultdict_add d' key x
  end.

(** *** Strings *)

Definition LF : ascii := "010"%char.
Definition CR : ascii := "013"%char.

(** [s + '\n'] *)
Definition nl (s : string) : string := s +:+ String LF "".

(** [str.isspace] on one character (code points below 256). *)
Definition isspace (c : ascii) : bool :=
  let n := N_of_ascii c in
  ((9 <=? n) && (n <=? 13) || (28 <=? n) && (n <=? 32)
   || (n =? 133) || (n =? 160))%N.

Fixpoint lstrip (s : string) : string :=
  match s with
  | String c s' => if isspace c then lstrip s' else s
  | EmptyString => EmptyString
  end.

Fixpoint rstrip (s : string) : string :=
  match s with
  | String c s' =>
      match rstrip s' with
      | EmptyString => if isspace c then EmptyString else String c EmptyString
      | r => String c r
      end
  | EmptyString => EmptyString
  end.

(** [s.strip()] *)
Definition strip (s : string) : string := rstrip (lstrip s).

(** [s.startswith(p)] *)
Definition startswith (s p : string) : bool := String.prefix p s.

(** [s.endswith(p)] *)
Definition endswith (s p : string) : bool :=
  String.prefix (String.rev p) (String.rev s).

(** [s.split()]: the maximal runs of characters that are not white space. *)
Fixpoint split (s : string) : list string :=
  match s with
  | EmptyString => []
  | String c s' =>
      let rest := split s' in
      if isspace c then rest
      else match s', rest with
           | String d _, w :: ws =>
               if isspace d then String c "" :: rest else String c w :: ws
           | _, _ => String c "" :: rest
           end
  end.

(** [sep.join(l)] *)
Definition join (sep : string) (l : list string) : string :=
  String.concat sep l.

(** [str(i)] for an int *)
Definition str (i : Z) : string := NilZero.string_of_int (Z.to_int i).

(** [mesh.readlines()] on a file opened in text mode: a line ends at LF,
    CR LF or CR, each read as one LF, which stays at the end of the line. *)
Fixpoint readlines (s : string) : list string :=
  match s with
  | EmptyString => []
  | String c s' =>
      if (c =? LF)%char then String LF "" :: readlines s'
      else if (c =? CR)%char then
        match s' with
        | String d _ =>
            if (d =? LF)%char then readlines s'
            else String LF "" :: readlines s'
        | EmptyString => [String LF ""]
        end
      else match readlines s' with
           | [] => [String c ""]
           | ln :: lns => String c ln :: lns
           end
  end.

(** *** [int(s)] *)

(** The white space that [int] and [float] skip around a number: tab to
    carriage return, the space, and the code points 133 and 160.  The
    separators 28 to 31, which [str.strip] removes, are not skipped. *)
Definition isspace_number (c : ascii) : bool :=
  let n := N_of_ascii c in
  ((9 <=? n) && (n <=? 13) || (n =? 32) || (n =? 133) || (n =? 160))%N.

Fixpoint lstrip_number (s : string) : string :=
  match s with
  | String c s' => if isspace_number c then lstrip_number s' else s
  | EmptyString => EmptyString
  end.

Fixpoint rstrip_number (s : string) : string :=
  match s with
  | String c s' =>
      match rstrip_number s' with
      | EmptyString =>
          if isspace_number c then EmptyString else String c EmptyString
      | r => String c r
      end
  | EmptyString => EmptyString
  end.

Definition strip_number (s : string) : string :=
  rstrip_number (lstrip_number s).

Definition digit (c : ascii) : option Z :=
  let n := N_of_ascii c in
  if ((48 <=? n) && (n <=? 57))%N then Some (Z.of_N n - 48) else None.

(** Digits with single underscores between them: [acc] is the value read so
    far, [after_digit] tells whether the previous character was a digit. *)
Fixpoint int_digits (acc : Z) (after_digit : bool) (s : string) : option Z :=
  match s with
  | EmptyString => if after_digit then Some acc else None
  | String c s' =>
      match digit c with
      | Some d => int_digits (10 * acc + d) true s'
      | None =>
          if (c =? "_")%char && after_digit then int_digits acc false s'
          else None
      end
  end.

(** [int(s)], base 10: white space around, a sign, digits. *)
Definition int (s : string) : result Z :=
  let r := match strip_number s with
           | String "-" t => Z.opp <$> int_digits 0 false t
           | String "+" t => int_digits 0 false t
           | t => int_digits 0 false t
           end in
  match r with
  | Some z => Ok z
  | None => raise (ValueError (InvalidInt s))
  end.

(** *** [float(s)] and [format(x, '.2f')] *)

(** [p / q] rounded to the nearest integer, ties to even ([0 < q]). *)
Definition round_half_even (p q : Z) : Z :=
  let d := p / q in
  let r := p mod q in
  if 2 * r <? q then d
  else if q <? 2 * r then d + 1
  else if Z.even d then d else d + 1.

(** The binary64 nearest to [num / den] (both positive), ties to even. *)
Definition binary64_of_ratio (neg : bool) (num den : Z) : spec_float :=
  let lg := Z.log2 num - Z.log2 den in
  let e0 := if num * 2 ^ Z.max 0 (- lg) <? den * 2 ^ Z.max 0 lg
            then lg - 1 else lg in
  let e := Z.max (e0 - 52) (-1074) in
  let m := round_half_even (num * 2 ^ Z.max 0 (- e)) (den * 2 ^ Z.max 0 e) in
  let '(m, e) := if m =? 2 ^ 53 then (2 ^ 52, e + 1) else (m, e) in
  if m =? 0 then S754_zero neg
  else if 971 <? e then S754_infinity neg
  else S754_finite neg (Z.to_pos m) e.

(** The binary64 nearest to [m * 10 ^ e10]. *)
Definition binary64_of_decimal (neg : bool) (m e10 : Z) : spec_float :=
  if m =? 0 then S754_zero neg
  else if 0 <=? e10 then binary64_of_ratio neg (m * 10 ^ e10) 1
  else binary64_of_ratio neg m (10 ^ (- e10)).

(** The longest [digit (["_"] digit)*] at the head of [s]: the digits
    appended to [acc], how many there are, and what follows. *)
Fixpoint digitpart (acc : Z) (n : nat) (s : string) : Z * nat * string :=
  match s with
  | EmptyString => (acc, n, s)
  | String c s' =>
      match digit c with
      | Some d => digitpart (10 * acc + d) (S n) s'
      | None =>
          match n, s' with
          | S _, String c' _ =>
              if (c =? "_")%char && bool_decide (is_Some (digit c'))
              then digitpart acc n s' else (acc, n, s)
          | _, _ => (acc, n, s)
          end
      end
  end.

Definition sign (s : string) : bool * string :=
  match s with
  | String "-" t => (true, t)
  | String "+" t => (false, t)
  | _ => (false, s)
  end.

(** [[digitpart] "." digitpart | digitpart ["."]], then an optional
    exponent: the digits as an integer and the power of ten to apply. *)
Definition floatnumber (s : string) : option (Z * Z) :=
  let '(i, ni, r1) := digitpart 0 0 s in
  let '(m, nf, r2) := match r1 with
                      | String "." r => digitpart i 0 r
                      | _ => (i, O, r1)
                      end in
  if bool_decide (ni + nf = 0)%nat then None
  else match r2 with
       | EmptyString => Some (m, - Z.of_nat nf)
       | String c r3 =>
           if (c =? "e")%char || (c =? "E")%char then
             let '(xneg, r4) := sign r3 in
             let '(x, nx, r5) := digitpart 0 0 r4 in
             if bool_decide (nx = O) || negb (r5 =? "")%string then None
             else Some (m, (if xneg then - x else x) - Z.of_nat nf)
           else None
       end.

Definition lower (c : ascii) : ascii :=
  let n := N_of_ascii c in
  if ((65 <=? n) && (n <=? 90))%N then ascii_of_N (n + 32) else c.

Fixpoint lowercase (s : string) : string :=
  match s with
  | EmptyString => EmptyString
  | String c s' => String (lower c) (lowercase s')
  end.

(** [float(s)]: white space around, a sign, then [inf], [infinity], [nan]
    (in any case) or a decimal number, rounded to the nearest binary64. *)
Definition float (s : string) : result spec_float :=
  let '(neg, t) := sign (strip_number s) in
  let low := lowercase t in
  if (low =? "inf")%string || (low =? "infinity")%string
  then Ok (S754_infinity neg)
  else if (low =? "nan")%string then Ok S754_nan
  else match floatnumber t with
       | Some (m, e10) => Ok (binary64_of_decimal neg m e10)
       | None => raise (ValueError (InvalidFloat s))
       end.

Definition two_digits (n : Z) : string :=
  str (n / 10) +:+ str (n mod 10).

(** [f'{x:.2f}']: the value rounded to two decimals, ties to even, written
    with a sign when the sign bit is set; [inf], [-inf] and [nan] are
    written as such. *)
Definition format_2f (x : spec_float) : string :=
  let minus (s : bool) : string := if s then "-" else "" in
  match x with
  | S754_zero s => minus s +:+ "0.00"
  | S754_infinity s => minus s +:+ "inf"
  | S754_nan => "nan"
  | S754_finite s m e =>
      let n := round_half_even (Z.pos m * 100 * 2 ^ Z.max 0 e)
                               (2 ^ Z.max 0 (- e)) in
      minus s +:+ str (n / 100) +:+ "." +:+ two_digits (n mod 100)
  end.

End Py.

(** ** The program *)

Abbreviation points_t := (list (list spec_float)) (only parsing).
Abbreviation elements_t := (list (list Z)) (only parsing).
Abbreviation materials_t := (list (Z * string)) (only parsing).
Abbreviation edgeboundaries_t := (list (Z * gset Z)) (only parsing).

(** The first lines of [read_mesh]: the lines of the file, stripped, without
    those that start with [#]. *)
Definition mesh_lines (mesh : string) : list string :=
  let lines := Py.strip <$> Py.readlines mesh in
  filter (fun ln => Py.startswith ln "#" = false) lines.

(** The body of the loop over [edges]. *)
Definition add_edge (edgeboundaries : edgeboundaries_t) (e : list string)
  : result edgeboundaries_t :=
  e0 ← Py.index e 0;
  key ← Py.int e0;
  if 100 <? key then
    e2 ← Py.index e 2;
    a ← Py.int e2;
    let edgeboundaries := Py.defaultdict_add edgeboundaries key a in
    e3 ← Py.index e 3;
    b ← Py.int e3;
    Ok (Py.defaultdict_add edgeboundaries key b)
  else Ok edgeboundaries.

(** One section of the file, as [read_mesh] reads each of the four:
    [i = lines.index(keyword) + 2], [num = int(lines[i-1])],
    [lines[i:i+num]]. *)
Definition section_lines (lines : list string) (keyword : string)
  : result (list string) :=
  i ← Py.list_index lines keyword;
  let i := i + 2 in
  ln ← Py.index lines (i - 1);
  num ← Py.int ln;
  Ok (Py.slice lines i (i + num)).

(** [read_mesh(name)], on the text [mesh] of the file called [name]. *)
Definition read_mesh (mesh : string)
  : result (points_t * elements_t * materials_t * edgeboundaries_t) :=
  let lines := mesh_lines mesh in
  (* Get the points *)
  i ← Py.list_index lines "points";
  let pi := i + 2 in
  ln ← Py.index lines (pi - 1);
  numpoints ← Py.int ln;
  points ← traverse (fun ln => traverse Py.float (Py.split ln))
                    (Py.slice lines pi (pi + numpoints));
  (* Get the surface elements *)
  i ← Py.list_index lines "surfaceelements";
  let si := i + 2 in
  ln ← Py.index lines (si - 1);
  numelements ← Py.int ln;
  elements ← traverse (fun ln => traverse Py.int (Py.split ln))
                      (Py.slice lines si (si + numelements));
  (* Get the materials *)
  i ← Py.list_index lines "materials";
  let mi := i + 2 in
  ln ← Py.index lines (mi - 1);
  nummaterials ← Py.int ln;
  let materials := Py.split <$> Py.slice lines mi (mi + nummaterials) in
  materials ← traverse (fun m => m0 ← Py.index m 0;
                                 matnum ← Py.int m0;
                                 m1 ← Py.index m 1;
                                 Ok (matnum, m1)) materials;
  (* Get the edge boundaries *)
  i ← Py.list_index lines "edgesegmentsgi2";
  let ei := i + 2 in
  ln ← Py.index lines (ei - 1);
  numedges ← Py.int ln;
  let edges := Py.split <$> Py.slice lines ei (ei + numedges) in
  edgeboundaries ← foldM add_edge [] edges;
  Ok (points, elements, materials, edgeboundaries).

(** [chunks(sequence, count)].  Each caller consumes the generator at once,
    so the result is the list of the chunks it yields. *)
Definition chunks {A} (sequence : list A) (count : Z)
  : result (list (list A)) :=
  if count <? 1 then raise (ValueError BadCount)
  else Ok ((fun i => Py.slice sequence i (i + count))
             <$> Py.range 0 (Py.len sequence) count).

(** [[el for el in elements if el[1] == matnum]] *)
Fixpoint with_material (elements : elements_t) (matnum : Z)
  : result elements_t :=
  match elements with
  | [] => Ok []
  | el :: elements' =>
      el1 ← Py.index el 1;
      rest ← with_material elements' matnum;
      Ok (if el1 =? matnum then el :: rest else rest)
  end.

(** [nset.update(set(e[5:5+e[4]]))] *)
Definition update_nset (nset : gset Z) (e : list Z) : result (gset Z) :=
  e4 ← Py.index e 4;
  Ok (nset ∪ list_to_set (Py.slice e 5 (5 + e4))).

(** [write_nodes(name, points, elements, materials, edge_boundaries)] *)
Definition write_nodes (name : string) (points : points_t)
    (elements : elements_t) (materials : materials_t)
    (edge_boundaries : edgeboundaries_t) : run :=
  let name := if Py.endswith name ".inp" then name else name +:+ ".inp" in
  with_open name (
    write (Py.nl "**");;
    write (Py.nl ("** " +:+ name));;
    write (Py.nl "** Gegenereerd door mesh2inp.py.");;
    write (Py.nl "**");;
    write (Py.nl "*NODE,NSET=Nall");;
    for_ (Py.enumerate points 1) (fun '(n, p) =>
      match p with
      | [x; y; z] =>
          write (Py.nl (Py.str n +:+ ", " +:+ Py.format_2f x +:+ ", "
                        +:+ Py.format_2f y +:+ ", " +:+ Py.format_2f z))
      | _ => lift (raise (ValueError (Unpack 3 (length p))))
      end);;
    for_ materials (fun '(matnum, matname) =>
      sel ← lift (with_material elements matnum);
      nset ← lift (foldM update_nset ∅ sel);
      write (Py.nl ("*NSET,NSET=N" +:+ matname));;
      subs ← lift (chunks (Py.sorted nset) 16);
      for_ subs (fun sub =>
        write (Py.nl ("  " +:+ Py.join ", " (Py.str <$> sub)))));;
    for_ edge_boundaries (fun '(k, s) =>
      let nodes := Py.sorted s in
      write (Py.nl ("*NSET,NSET=Nedge" +:+ Py.str k));;
      subs ← lift (chunks nodes 16);
      for_ subs (fun sub =>
        write (Py.nl ("  " +:+ Py.join ", " (Py.str <$> sub)))))).

(** [[n for n, el in enumerate(elements, start=1) if el[1] == matnum]],
    with [start] for the 1. *)
Fixpoint elnums_from (elements : elements_t) (start matnum : Z)
  : result (list Z) :=
  match elements with
  | [] => Ok []
  | el :: elements' =>
      el1 ← Py.index el 1;
      rest ← elnums_from elements' (start + 1) matnum;
      Ok (if el1 =? matnum then start :: rest else rest)
  end.

(** [write_elements(name, elements, materials)] *)
Definition write_elements (name : string) (elements : elements_t)
    (materials : materials_t) : run :=
  with_open name (
    write (Py.nl "**");;
    write (Py.nl ("** " +:+ name));;
    write (Py.nl "** Gegenereerd door mesh2inp.py.");;
    write (Py.nl "**");;
    write (Py.nl "*ELEMENT, TYPE=S6, ELSET=Eall");;
    for_ (Py.enumerate elements 1) (fun '(n, e) =>
      cnt ← lift (Py.index e 4);
      let nodes := Py.slice e 5 (5 + cnt) in
      if cnt =? 6 then
        n0 ← lift (Py.index nodes 0);
        n1 ← lift (Py.index nodes 1);
        n2 ← lift (Py.index nodes 2);
        n5 ← lift (Py.index nodes 5);
        n3 ← lift (Py.index nodes 3);
        n4 ← lift (Py.index nodes 4);
        let nodes := [n; n0; n1; n2; n5; n3; n4] in
        write (Py.nl (Py.join ", " (Py.str <$> nodes)))
      else mret tt);;
    for_ materials (fun '(matnum, matname) =>
      write (Py.nl ("*ELSET,ELSET=E" +:+ matname));;
      elnums ← lift (elnums_from elements 1 matnum);
      subs ← lift (chunks elnums 16);
      for_ subs (fun sub =>
        write (Py.nl (Py.join ", " (Py.str <$> sub) +:+ ","))))).

(** [main(argv)], with [fs] giving the text of the file of a given name. *)
Definition main (fs : string → string) (argv : list string)
  : list run * result unit :=
  if Py.len argv <? 3 then ([], raise (SystemExit 1))
  else
    match Py.index argv 0, Py.index argv 1, Py.index argv 2 with
    | inr argv0, inr argv1, inr argv2 =>
        match read_mesh (fs argv0) with
        | inl e => ([], inl e)
        | inr (points, elements, materials, edge_boundaries) =>
            let nodes :=
              write_nodes argv1 points elements materials edge_boundaries in
            match outcome nodes with
            | inl e => ([nodes], inl e)
            | inr _ =>
                let elems := write_elements argv2 elements materials in
                ([nodes; elems], outcome elems)
            end
        end
    | _, _, _ => ([], raise IndexError)
    end.

(** ** The vocabulary of the statements *)

(** The four comment lines at the top of a deck. *)
Definition header (name : string) : list string :=
  [Py.nl "**"; Py.nl ("** " +:+ name);
   Py.nl "** Gegenereerd door mesh2inp.py."; Py.nl "**"].

(** [cs] wraps [l] at [width] items per line: the chunks give back [l], none
    is empty or longer than [width], and all but the last are full. *)
Definition wrapped {A} (width : nat) (l : list A) (cs : list (list A))
  : Prop :=
  concat cs = l ∧
  ∀ (j : nat) ch, cs !! j = Some ch →
    (0 < length ch ≤ width)%nat ∧
    ((S j < length cs)%nat → length ch = width).

(** The fields of a record at the positions [first] to [last], counted
    from 1. *)
Definition fields_between (e : list Z) (first last : Z) : list Z :=
  (fun px => px.2)
    <$> filter (fun px => first ≤ px.1 ≤ last) (Py.enumerate e 1).

(** One line of a node set and one line of an element set. *)
Definition nset_line (sub : list Z) : string :=
  Py.nl ("  " +:+ Py.join ", " (Py.str <$> sub)).

Definition elset_line (sub : list Z) : string :=
  Py.nl (Py.join ", " (Py.str <$> sub) +:+ ",").

(** A node set in the node deck: its label line, then the members [s] in
    ascending order, 16 to a line. *)
Definition nset_block (label : string) (s : gset Z) (blk : list string)
  : Prop :=
  ∃ ids cs,
    blk = Py.nl ("*NSET,NSET=N" +:+ label) :: (nset_line <$> cs)
    ∧ wrapped 16 ids cs
    ∧ StronglySorted Z.lt ids
    ∧ ∀ x, x ∈ ids ↔ x ∈ s.

(** An element set in the element deck, for the element numbers [nums]. *)
Definition elset_block (label : string) (nums : list Z) (blk : list string)
  : Prop :=
  ∃ cs,
    blk = Py.nl ("*ELSET,ELSET=E" +:+ label) :: (elset_line <$> cs)
    ∧ wrapped 16 nums cs.

(** The coordinate record of node [n]. *)
Definition node_record (n : Z) (x y z : spec_float) : string :=
  Py.nl (Py.str n +:+ ", " +:+ Py.format_2f x +:+ ", "
         +:+ Py.format_2f y +:+ ", " +:+ Py.format_2f z).

(** The connectivity record of element [n] with the nodes [a] to [f] in the
    order of the mesh file. *)
Definition s6_record (n a b c d e f : Z) : string :=
  Py.nl (Py.join ", " (Py.str <$> [n; a; b; c; f; d; e])).

(** What the element numbered [n] adds to the element block. *)
Definition connectivity (n : Z) (el : list Z) : list string :=
  match el with
  | _ :: _ :: _ :: _ :: 6 :: a :: b :: c :: d :: e :: f :: _ =>
      [s6_record n a b c d e f]
  | _ => []
  end.

(** A record that [write_elements] can handle: it has its five leading
    fields and, when the fifth is 6, six node ids after them. *)
Definition element_ok (el : list Z) : Prop :=
  (5 ≤ length el)%nat ∧ (el !! 4%nat = Some 6 → (11 ≤ length el)%nat).

(** The numbers, counted from 1, of the records whose second field is
    [matnum]. *)
Definition elnums (elements : elements_t) (matnum : Z) : list Z :=
  (fun ne => ne.1)
    <$> filter (fun ne => ne.2 !! 1%nat = Some matnum)
               (Py.enumerate elements 1).

(** The node ids [write_nodes] collects for a material. *)
Definition material_nodes (elements : elements_t) (matnum : Z) : gset Z :=
  ⋃ ((fun el => match el !! 4%nat with
                | Some cnt => list_to_set (Py.slice el 5 (5 + cnt))
                | None => ∅
                end)
       <$> filter (fun el => el !! 1%nat = Some matnum) elements).

(** The two last loops of [write_nodes]: the node sets of the materials,
    then those of the edge boundaries. *)
Definition node_sets (elements : elements_t) (materials : materials_t)
    (edge_boundaries : edgeboundaries_t) : io unit :=
  for_ materials (fun '(matnum, matname) =>
    sel ← lift (with_material elements matnum);
    nset ← lift (foldM update_nset ∅ sel);
    write (Py.nl ("*NSET,NSET=N" +:+ matname));;
    subs ← lift (chunks (Py.sorted nset) 16);
    for_ subs (fun sub =>
      write (Py.nl ("  " +:+ Py.join ", " (Py.str <$> sub)))));;
  for_ edge_boundaries (fun '(k, s) =>
    let nodes := Py.sorted s in
    write (Py.nl ("*NSET,NSET=Nedge" +:+ Py.str k));;
    subs ← lift (chunks nodes 16);
    for_ subs (fun sub =>
      write (Py.nl ("  " +:+ Py.join ", " (Py.str <$> sub))))).

(** The name of the file that [write_nodes] opens. *)
Definition nodes_file (name : string) : string :=
  if Py.endswith name ".inp" then name else name +:+ ".inp".

Definition is_finite (x : spec_float) : bool :=
  match x with
  | S754_zero _ | S754_finite _ _ _ => true
  | S754_infinity _ | S754_nan => false
  end.

Definition isdigit (c : ascii) : bool := bool_decide (is_Some (Py.digit c)).

(** Digits, a point, two digits. *)
Fixpoint fixed2 (seen_digit : bool) (s : string) : bool :=
  match s with
  | EmptyString => false
  | String c s' =>
      if isdigit c then fixed2 true s'
      else (c =? ".")%char && seen_digit &&
           match s' with
           | String d1 (String d2 EmptyString) => isdigit d1 && isdigit d2
           | _ => false
           end
  end.

(** A number written with exactly two decimal digits. *)
Definition has_two_decimals (s : string) : bool :=
  match s with
  | String "-" t => fixed2 false t
  | _ => fixed2 false s
  end.

(** A stripped line: no white space at either end. *)
Definition trimmed (s : string) : Prop :=
  ∀ c t, (s = String c t → Py.isspace c = false)
         ∧ (s = t +:+ String c "" → Py.isspace c = false).

Definition keywords : list string :=
  ["points"; "surfaceelements"; "materials"; "edgesegmentsgi2"].

(** [data] is the section of [keyword] in [lines]: the first line equal to
    the keyword, a count line, and that many lines. *)
Definition block (lines : list string) (keyword : string)
    (data : list string) : Prop :=
  ∃ pre cnt post,
    lines = pre ++ keyword :: cnt :: data ++ post
    ∧ (keyword ∉ pre)
    ∧ Py.int cnt = Ok (Py.len data).

(** The four tables, from the data lines of the four sections. *)
Definition parse_mesh (pts els mats eds : list string)
  : result (points_t * elements_t * materials_t * edgeboundaries_t) :=
  points ← traverse (fun ln => traverse Py.float (Py.split ln)) pts;
  elements ← traverse (fun ln => traverse Py.int (Py.split ln)) els;
  materials ← traverse (fun m => m0 ← Py.index m 0;
                                 matnum ← Py.int m0;
                                 m1 ← Py.index m 1;
                                 Ok (matnum, m1)) (Py.split <$> mats);
  edgeboundaries ← foldM add_edge [] (Py.split <$> eds);
  Ok (points, elements, materials, edgeboundaries).

(** The tag of an edge record and its two node references. *)
Definition edge_tag (e : list string) : result Z :=
  e0 ← Py.index e 0; Py.int e0.

Definition edge_nodes (e : list string) : result (Z * Z) :=
  e2 ← Py.index e 2;
  a ← Py.int e2;
  e3 ← Py.index e 3;
  b ← Py.int e3;
  Ok (a, b).

(** The node [x] is referred to by a record of [edges] with the tag
    [tag]. *)
Definition edge_refers (edges : list (list string)) (tag x : Z) : Prop :=
  ∃ e a b,
    e ∈ edges ∧ edge_tag e = Ok tag ∧ edge_nodes e = Ok (a, b)
    ∧ (x = a ∨ x = b).

(** [d] is the dictionary of the edge boundaries of the records [edges]:
    one key for each tag over 100 that a record carries and no other, with
    the nodes that the records with this tag refer to; and every record has
    a tag, and two node references when its tag is over 100. *)
Definition edges_held (edges : list (list string)) (d : list (Z * gset Z))
  : Prop :=
  NoDup d.*1
  ∧ (∀ tag, tag ∈ d.*1 ↔ 100 < tag ∧ ∃ e, e ∈ edges ∧ edge_tag e = Ok tag)
  ∧ (∀ tag s, (tag, s) ∈ d → ∀ x, x ∈ s ↔ edge_refers edges tag x)
  ∧ (∀ e, e ∈ edges →
       ∃ tag, edge_tag e = Ok tag
              ∧ (100 < tag → ∃ a b, edge_nodes e = Ok (a, b))).

(** ** Meshes for the examples *)

(** The example of the specification, with a six-node element and three
    edge records added. *)
Definition demo_mesh : string :=
"# demo
points
3
0 0 0
1 0 0
0 1 0
surfaceelements
2
1 1 0 0 3 1 2 3
2 1 0 0 6 1 2 3 4 5 6
materials
1
1 steel
edgesegmentsgi2
3
101 0 1 2
5 0 2 3
101 0 2 3
".

Definition demo_points : list (list spec_float) :=
  [[S754_zero false; S754_zero false; S754_zero false];
   [S754_finite false 4503599627370496 (-52); S754_zero false;
    S754_zero false];
   [S754_zero false; S754_finite false 4503599627370496 (-52);
    S754_zero false]].

Definition demo_elements : list (list Z) :=
  [[1; 1; 0; 0; 3; 1; 2; 3]; [2; 1; 0; 0; 6; 1; 2; 3; 4; 5; 6]].

Definition demo_materials : list (Z * string) := [(1, "steel")].

Definition demo_edge_boundaries : list (Z * gset Z) :=
  [(101, {[ 1; 2; 3 ]})].

(** The same sections in the opposite order, with the keyword [points]
    once more at the end. *)
Definition shuffled_mesh : string :=
"edgesegmentsgi2
3
101 0 1 2
5 0 2 3
101 0 2 3
materials
1
1 steel
surfaceelements
2
1 1 0 0 3 1 2 3
2 1 0 0 6 1 2 3 4 5 6
points
3
0 0 0
1 0 0
0 1 0
points
".

(** A mesh whose element line announces three node ids and holds two. *)
Definition short_element_mesh : string :=
"points
1
0 0 0
surfaceelements
1
1 1 0 0 3 1 2
materials
1
1 steel
edgesegmentsgi2
0
".

(** A mesh whose second points line holds two values. *)
Definition short_point_mesh : string :=
"points
2
0 0 0
1 0
surfaceelements
0
materials
0
edgesegmentsgi2
0
".
(** ** The vocabulary of the further properties *)

(** The exceptions that [read_mesh] can raise: [IndexError], or a
    [ValueError] for a keyword that is not a line of the file, for a token
    that [int] does not accept, or for one that [float] does not accept. *)
Definition read_error (e : exn) : Prop :=
  e = IndexError
  ∨ (∃ keyword, keyword ∈ keywords ∧ e = ValueError (NotInList keyword))
  ∨ (∃ s, e = ValueError (InvalidInt s))
  ∨ (∃ s, e = ValueError (InvalidFloat s)).

(** The items of [l] that are not in [seen], each of them once, in the
    order in which they first occur in [l]. *)
Fixpoint first_seen (seen l : list Z) : list Z :=
  match l with
  | [] => []
  | x :: l' =>
      if decide (x ∈ seen) then first_seen seen l'
      else x :: first_seen (x :: seen) l'
  end.

(** The text [s] with every line feed written as carriage return, line
    feed. *)
Fixpoint crlf (s : string) : string :=
  match s with
  | EmptyString => EmptyString
  | String c s' =>
      if (c =? Py.LF)%char then String Py.CR (String Py.LF (crlf s'))
      else String c (crlf s')
  end.

(** The number that the digits of [d] denote after the digits read so far,
    whose value is [acc]. *)
Fixpoint uint_value (acc : Z) (d : Decimal.uint) : Z :=
  match d with
  | Decimal.Nil => acc
  | Decimal.D0 d => uint_value (10 * acc) d
  | Decimal.D1 d => uint_value (10 * acc + 1) d
  | Decimal.D2 d => uint_value (10 * acc + 2) d
  | Decimal.D3 d => uint_value (10 * acc + 3) d
  | Decimal.D4 d => uint_value (10 * acc + 4) d
  | Decimal.D5 d => uint_value (10 * acc + 5) d
  | Decimal.D6 d => uint_value (10 * acc + 6) d
  | Decimal.D7 d => uint_value (10 * acc + 7) d
  | Decimal.D8 d => uint_value (10 * acc + 8) d
  | Decimal.D9 d => uint_value (10 * acc + 9) d
  end.



(** * Properties *)

(** ** The effect monads *)

Section monad_facts.
Context {A B : Type}.

Lemma bind_written (m : io A) (f : A → io B) w a :
  m = (w, Ok a) → (m ≫= f) = (w ++ (f a).1, (f a).2).
Proof. intros ->. unfold mbind, io_bind. simpl. by destruct (f a). Qed.

Lemma bind_raised (m : io A) (f : A → io B) w e :
  m = (w, raise e) → (m ≫= f) = (w, raise e).
Proof. by intros ->. Qed.

Lemma lift_bind (r : result A) (f : A → io B) :
  (lift r ≫= f) = match r with inl e => ([], inl e) | inr a => f a end.
Proof.
  destruct r as [e|a]; [done|]. unfold lift, mbind, io_bind.
  by destruct (f a).
Qed.

Lemma lift_ok_bind (a : A) (f : A → io B) : (lift (Ok a) ≫= f) = f a.
Proof. unfold lift, mbind, io_bind. simpl. by destruct (f a). Qed.

Lemma write_bind (s : string) (k : io B) :
  (write s ;; k) = (s :: k.1, k.2).
Proof. unfold write, mbind, io_bind. by destruct k. Qed.

Lemma ok_bind (a : A) (f : A → result B) : (Ok a ≫= f) = f a.
Proof. reflexivity. Qed.

Lemma traverse_ok (f : A → result B) l l' :
  traverse f l = Ok l' ↔ Forall2 (fun x y => f x = Ok y) l l'.
Proof.
  unfold Ok. revert l'. induction l as [|x l IH]; intros l'; simpl.
  - split; [intros [= <-]; constructor | by inversion 1].
  - split.
    + destruct (f x) as [e|y] eqn:Hx; simpl; [done|].
      destruct (traverse f l) as [e|ys] eqn:Hl; simpl; [done|].
      intros [= <-]. constructor; [done|]. by apply IH.
    + inversion 1 as [|? y ? ys Hx Hl]; simplify_eq. rewrite Hx. simpl.
      apply IH in Hl. by rewrite Hl.
Qed.

Lemma traverse_raises (f : A → result B) l x :
  x ∈ l → is_ok (f x) = false → is_ok (traverse f l) = false.
Proof.
  induction 1 as [x l|x y l Hin IH]; intros Hx; simpl.
  - by destruct (f x).
  - destruct (f y); [done|]. simpl.
    specialize (IH Hx). by destruct (traverse f l).
Qed.
End monad_facts.

Lemma ret_bind {A B} (a : A) (f : A → io B) : (mret a ≫= f) = f a.
Proof. apply lift_ok_bind. Qed.

(** What is written first stays first. *)
Lemma bind_head {A B} (m : io A) (f : A → io B) x w :
  m.1 = x :: w → ∃ w', (m ≫= f).1 = x :: w'.
Proof.
  destruct m as [w0 [e|a]]; simpl; intros ->; [by eexists|].
  unfold mbind, io_bind. destruct (f a). by eexists.
Qed.

Lemma seq_ok {A B} (m : io A) (k : io B) w1 a w2 r :
  m = (w1, Ok a) → k = (w2, r) → (m ;; k) = (w1 ++ w2, r).
Proof. intros Hm ->. by rewrite (bind_written _ _ w1 a Hm). Qed.

Lemma for_cons {A} (x : A) (l : list A) (body : A → io unit) :
  for_ (x :: l) body = (body x ;; for_ l body).
Proof. reflexivity. Qed.

Lemma for_ok {A} (l : list A) (body : A → io unit) (g : A → list string) :
  (∀ x, x ∈ l → body x = (g x, Ok tt)) →
  for_ l body = (concat (g <$> l), Ok tt).
Proof.
  induction l as [|x l IH]; intros H; [done|].
  simpl. rewrite (bind_written _ _ (g x) tt) by (apply H; left).
  rewrite IH; [done|]. intros y Hy. apply H. by right.
Qed.

Lemma for_raised {A} (l1 l2 : list A) x (body : A → io unit)
    (g : A → list string) w e :
  (∀ y, y ∈ l1 → body y = (g y, Ok tt)) →
  body x = (w, raise e) →
  for_ (l1 ++ x :: l2) body = (concat (g <$> l1) ++ w, raise e).
Proof.
  induction l1 as [|y l1 IH]; intros H Hx.
  - simpl. by rewrite (bind_raised _ _ w e).
  - simpl. rewrite (bind_written _ _ (g y) tt) by (apply H; left).
    rewrite IH; [|intros; apply H; by right|done].
    simpl. by rewrite app_assoc.
Qed.

(** A loop whose body can only raise [IndexError] ends normally or with
    [IndexError]. *)
Lemma for_index_error {A} (l : list A) (body : A → io unit) :
  (∀ x, x ∈ l → (body x).2 = Ok tt ∨ (body x).2 = raise IndexError) →
  (for_ l body).2 = Ok tt ∨ (for_ l body).2 = raise IndexError.
Proof.
  induction l as [|x l IH]; intros H; [by left|].
  simpl. destruct (body x) as [w [e|[]]] eqn:Hx.
  - right. destruct (H x) as [H'|H']; [left| |]; rewrite Hx in H'; simplify_eq.
    done.
  - rewrite (bind_written _ _ w tt) by done. simpl.
    apply IH. intros y Hy. apply H. by right.
Qed.

(** ** Sequences *)

Module PyFacts.

Lemma slice_from {A} (l : list A) (i c : Z) :
  0 ≤ i → 0 ≤ c →
  Py.slice l i (i + c) = take (Z.to_nat c) (drop (Z.to_nat i) l).
Proof.
  intros Hi Hc. unfold Py.slice, Py.bound, Py.len.
  destruct (Z.ltb_spec i 0); [lia|].
  destruct (Z.ltb_spec (i + c) 0); [lia|].
  destruct (Z.le_gt_cases (Z.of_nat (length l)) i) as [Hge|Hlt].
  - rewrite (drop_ge l (Z.to_nat i)) by lia.
    rewrite drop_ge by lia. by rewrite !take_nil.
  - rewrite (Z.min_l i) by lia.
    destruct (Z.le_gt_cases (i + c) (Z.of_nat (length l))).
    + rewrite Z.min_l by lia. f_equal. lia.
    + rewrite Z.min_r by lia.
      rewrite !take_ge; [done| |]; rewrite length_drop; lia.
Qed.

(** A slice whose end lies before its start is empty. *)
Lemma slice_empty {A} (l : list A) (i j : Z) :
  0 ≤ j ≤ i → Py.slice l i j = [].
Proof.
  intros H. unfold Py.slice, Py.bound.
  destruct (Z.ltb_spec i 0); [lia|]. destruct (Z.ltb_spec j 0); [lia|].
  replace (Z.to_nat _) with 0%nat by lia. done.
Qed.

Lemma index_nat {A} (l : list A) (i : nat) :
  Py.index l (Z.of_nat i)
  = match l !! i with Some x => Ok x | None => raise IndexError end.
Proof.
  unfold Py.index, Py.len. destruct (Z.ltb_spec (Z.of_nat i) 0); [lia|].
  rewrite Nat2Z.id. destruct (l !! i) as [x|] eqn:Hi.
  - apply lookup_lt_Some in Hi.
    destruct (Z.leb_spec 0 (Z.of_nat i)); [|lia].
    by destruct (Z.ltb_spec (Z.of_nat i) (Z.of_nat (length l))); [|lia].
  - by destruct (_ && _).
Qed.

Lemma index_lookup {A} (l : list A) (i : Z) :
  0 ≤ i →
  Py.index l i
  = match l !! Z.to_nat i with Some x => Ok x | None => raise IndexError end.
Proof. intros Hi. by rewrite <- (Z2Nat.id i), index_nat, Z2Nat.id. Qed.

Lemma index_ok_or_index_error {A} (l : list A) (i : Z) :
  (∃ x, Py.index l i = Ok x) ∨ Py.index l i = raise IndexError.
Proof.
  unfold Py.index. destruct (_ && _); [|by right].
  destruct (l !! _); [left; eauto | by right].
Qed.

Lemma enumerate_lookup {A} (l : list A) (start : Z) (i : nat) :
  Py.enumerate l start !! i = (fun x => (start + Z.of_nat i, x)) <$> l !! i.
Proof.
  revert start i. induction l as [|x l IH]; intros start [|i]; simpl;
    try done.
  - by rewrite Z.add_0_r.
  - rewrite IH. destruct (l !! i); simpl; [|done]. do 2 f_equal. lia.
Qed.

Lemma enumerate_length {A} (l : list A) (start : Z) :
  length (Py.enumerate l start) = length l.
Proof. revert start. induction l; intros; simpl; [done|]. by f_equal. Qed.

Lemma enumerate_fmap {A} (l : list A) (start : Z) :
  (fun ne => ne.2) <$> Py.enumerate l start = l.
Proof. revert start. induction l; intros; simpl; [done|]. by f_equal. Qed.

Lemma elem_of_enumerate {A} (l : list A) (start n : Z) (x : A) :
  (n, x) ∈ Py.enumerate l start
  ↔ ∃ i : nat, n = start + Z.of_nat i ∧ l !! i = Some x.
Proof.
  rewrite list_elem_of_lookup. split.
  - intros [i Hi]. rewrite enumerate_lookup in Hi. exists i.
    destruct (l !! i); simplify_eq/=. done.
  - intros [i [-> Hi]]. exists i. by rewrite enumerate_lookup, Hi.
Qed.

End PyFacts.

(** ** [chunks] *)

Section chunks_facts.
Context {A : Type}.
Implicit Types (l : list A) (cs : list (list A)).

(** The loop of [chunks], started at position [i], wraps what is left of
    the sequence. *)
Lemma chunks_loop l (c fuel i : nat) :
  (0 < c)%nat → (length l - i ≤ fuel)%nat →
  wrapped c (drop i l)
    ((fun j => Py.slice l j (j + Z.of_nat c))
       <$> Py.range_loop fuel (Z.of_nat i) (Py.len l) (Z.of_nat c)).
Proof.
  intros Hc. revert i. induction fuel as [|fuel IH]; intros i Hfuel.
  - simpl. rewrite drop_ge by lia. split; [done|].
    intros j ch Hj. by destruct j.
  - simpl. unfold Py.len at 1.
    destruct (Z.ltb_spec (Z.of_nat i) (Z.of_nat (length l))) as [Hlt|Hge].
    + rewrite fmap_cons. rewrite PyFacts.slice_from by lia.
      replace (Z.of_nat i + Z.of_nat c) with (Z.of_nat (i + c)) by lia.
      destruct (IH (i + c)%nat) as [Hcat Hlen]; [lia|].
      rewrite !Nat2Z.id. split.
      * simpl. rewrite Hcat. rewrite <- drop_drop. apply take_drop.
      * intros [|j] ch Hj; simpl in Hj.
        -- injection Hj as <-. rewrite length_take, length_drop.
           split; [lia|]. simpl. rewrite length_fmap. intros Hnext.
           destruct (Py.range_loop fuel (Z.of_nat (i + c)) (Py.len l)
                       (Z.of_nat c)) as [|x xs] eqn:E;
             [simpl in Hnext; lia|].
           destruct fuel as [|fuel']; [done|]. simpl in E.
           destruct (Z.ltb_spec (Z.of_nat (i + c)) (Py.len l)); [|done].
           unfold Py.len in *. lia.
        -- destruct (Hlen j ch Hj) as [H1 H2]. split; [done|].
           simpl. intros ?. apply H2. lia.
    + rewrite drop_ge by lia. split; [done|]. intros j ch Hj.
      by destruct j.
Qed.

Lemma chunks_wrapped l (count : Z) :
  1 ≤ count → ∃ cs, chunks l count = Ok cs ∧ wrapped (Z.to_nat count) l cs.
Proof.
  intros Hc. unfold chunks. destruct (Z.ltb_spec count 1); [lia|].
  eexists; split; [done|].
  unfold Py.range. rewrite Z.sub_0_r.
  pose proof (chunks_loop l (Z.to_nat count) (Z.to_nat (Py.len l)) 0) as H'.
  rewrite Z2Nat.id in H' by lia. simpl in H'. apply H'; [lia|].
  unfold Py.len. lia.
Qed.

(** The number of chunks is the length divided by the width, rounded
    up. *)
Lemma wrapped_length (c : nat) l cs :
  wrapped c l cs →
  (length l ≤ c * length cs ∧ c * length cs < length l + c ∨
   cs = [] ∧ l = [])%nat.
Proof.
  revert l. induction cs as [|ch cs IH]; intros l [Hcat Hlen].
  - right. by simpl in Hcat.
  - left. simpl in Hcat. subst l. rewrite length_app. simpl.
    destruct (Hlen 0%nat ch eq_refl) as [Hch Hfull].
    destruct cs as [|ch2 cs]; [simpl; lia|].
    assert (length ch = c) as -> by (apply Hfull; simpl; lia).
    destruct (IH (concat (ch2 :: cs))) as [[H1 H2]|[[=] _]]; [|lia].
    split; [done|]. intros j ch' Hj.
    destruct (Hlen (S j) ch' Hj) as [? Hf]. split; [done|].
    intros ?. apply Hf. simpl in *. lia.
Qed.
End chunks_facts.

(** C8.  A list of length [L] chunked at width 16 gives [ceil(L/16)]
    chunks (the quotient of [L + 15] by 16, that is the only [n] with
    [16 * (n - 1) < L <= 16 * n]); every chunk but the last has exactly 16
    items; the chunks concatenated in order are the list. *)
Theorem chunks_16 {A} (sequence : list A) :
  ∃ cs,
    chunks sequence 16 = Ok cs
    ∧ Py.len cs = (Py.len sequence + 15) / 16
    ∧ 16 * (Py.len cs - 1) < Py.len sequence ≤ 16 * Py.len cs
    ∧ (∀ (j : nat) ch,
         cs !! j = Some ch → (S j < length cs)%nat → length ch = 16%nat)
    ∧ concat cs = sequence.
Proof.
  destruct (chunks_wrapped sequence 16) as [cs [Hcs Hw]]; [lia|].
  exists cs. split; [done|].
  change (Z.to_nat 16) with 16%nat in Hw.
  pose proof (wrapped_length _ _ _ Hw) as Hlen.
  destruct Hw as [Hcat Hall]. unfold Py.len.
  assert (16 * (Z.of_nat (length cs) - 1) < Z.of_nat (length sequence)
          ≤ 16 * Z.of_nat (length cs)) as Hceil.
  { destruct Hlen as [[? ?]|[-> ->]]; simpl; lia. }
  split; [|split; [done|split; [|done]]].
  - apply (Z.div_unique _ 16 _
      (Z.of_nat (length sequence) + 15 - 16 * Z.of_nat (length cs))); lia.
  - intros j ch Hj Hnext. by apply (Hall j ch Hj).
Qed.

(** ** The element deck *)

Lemma connectivity_s6 n f0 mat f2 f3 a b c d e f rest :
  connectivity n (f0 :: mat :: f2 :: f3 :: 6 :: a :: b :: c :: d :: e :: f
                     :: rest)
  = [Py.nl (Py.join ", " (Py.str <$> [n; a; b; c; f; d; e]))].
Proof. reflexivity. Qed.

Lemma connectivity_other n el cnt :
  el !! 4%nat = Some cnt → cnt ≠ 6 → connectivity n el = [].
Proof.
  intros Hcnt Hne. unfold connectivity.
  destruct el as [|? [|? [|? [|? [|cnt' el]]]]]; try done.
  simpl in Hcnt. injection Hcnt as ->.
  destruct cnt as [|[[?|?|]|[[?|?|]|[?|?|]|]|]|?]; done.
Qed.

(** The body of the first loop of [write_elements], on a record it can
    handle. *)
Lemma connectivity_body (n : Z) (el : list Z) :
  element_ok el →
  (cnt ← lift (Py.index el 4);
   let nodes := Py.slice el 5 (5 + cnt) in
   if cnt =? 6 then
     n0 ← lift (Py.index nodes 0);
     n1 ← lift (Py.index nodes 1);
     n2 ← lift (Py.index nodes 2);
     n5 ← lift (Py.index nodes 5);
     n3 ← lift (Py.index nodes 3);
     n4 ← lift (Py.index nodes 4);
     let nodes := [n; n0; n1; n2; n5; n3; n4] in
     write (Py.nl (Py.join ", " (Py.str <$> nodes)))
   else mret tt) = (connectivity n el, Ok tt).
Proof.
  intros [Hlen H6].
  destruct el as [|f0 [|mat [|f2 [|f3 [|cnt rest]]]]]; simpl in Hlen; try lia.
  change 4 with (Z.of_nat 4). rewrite PyFacts.index_nat.
  change ((f0 :: mat :: f2 :: f3 :: cnt :: rest) !! 4%nat) with (Some cnt).
  cbv beta iota. rewrite lift_ok_bind. cbv zeta. destruct (Z.eqb_spec cnt 6) as [->|Hne].
  - specialize (H6 eq_refl). simpl in H6.
    destruct rest as [|a [|b [|c [|d [|e [|f rest]]]]]]; simpl in H6; try lia.
    rewrite (PyFacts.slice_from _ 5 6) by lia.
    change (take _ (drop _ _)) with [a; b; c; d; e; f].
    change (Py.index [a; b; c; d; e; f] 0) with (Ok a).
    change (Py.index [a; b; c; d; e; f] 1) with (Ok b).
    change (Py.index [a; b; c; d; e; f] 2) with (Ok c).
    change (Py.index [a; b; c; d; e; f] 3) with (Ok d).
    change (Py.index [a; b; c; d; e; f] 4) with (Ok e).
    change (Py.index [a; b; c; d; e; f] 5) with (Ok f).
    by rewrite !lift_ok_bind.
  - by rewrite (connectivity_other n _ cnt).
Qed.

Lemma elnums_from_ok (elements : elements_t) (start matnum : Z) :
  Forall (fun el => 2 ≤ length el)%nat elements →
  elnums_from elements start matnum
  = Ok ((fun ne => ne.1)
          <$> filter (fun ne => ne.2 !! 1%nat = Some matnum)
                     (Py.enumerate elements start)).
Proof.
  intros H. revert start. induction H as [|el elements Hel _ IH]; intros start;
    [done|].
  cbn [elnums_from Py.enumerate]. rewrite PyFacts.index_lookup by lia.
  change (Z.to_nat 1) with 1%nat.
  destruct (el !! 1%nat) as [el1|] eqn:H1.
  2:{ apply lookup_ge_None in H1. lia. }
  rewrite IH. rewrite filter_cons. simpl. rewrite H1.
  destruct (Z.eqb_spec el1 matnum) as [->|Hne].
  - by rewrite decide_True.
  - rewrite decide_False; [done|]. by intros [=].
Qed.

Lemma elem_of_elnums (elements : elements_t) (matnum n : Z) :
  n ∈ elnums elements matnum
  ↔ ∃ (i : nat) el,
      n = Z.of_nat i + 1 ∧ elements !! i = Some el
      ∧ el !! 1%nat = Some matnum.
Proof.
  unfold elnums. rewrite list_elem_of_fmap. split.
  - intros [[n' el] [-> [Hm Hin]%list_elem_of_filter]].
    apply PyFacts.elem_of_enumerate in Hin as [i [-> Hi]].
    exists i, el. simpl in *. split; [lia|done].
  - intros [i [el [-> [Hi Hm]]]]. exists (Z.of_nat i + 1, el). split; [done|].
    apply list_elem_of_filter. split; [done|].
    apply PyFacts.elem_of_enumerate. exists i. split; [lia|done].
Qed.

Lemma enumerate_sorted {A} (l : list A) (start : Z) :
  StronglySorted (fun a b => a.1 < b.1) (Py.enumerate l start).
Proof.
  revert start. induction l as [|x l IH]; intros start; simpl; constructor.
  - apply IH.
  - apply Forall_forall. intros [n y] [i [-> _]]%PyFacts.elem_of_enumerate.
    simpl. lia.
Qed.

Lemma StronglySorted_filter {A} (R : relation A) (P : A → Prop)
    `{∀ x, Decision (P x)} (l : list A) :
  StronglySorted R l → StronglySorted R (filter P l).
Proof.
  induction 1 as [|x l Hl IH Hx]; [constructor|].
  rewrite filter_cons. destruct (decide (P x)); [|done].
  constructor; [done|].
  apply Forall_forall. intros y [_ Hy]%list_elem_of_filter.
  by eapply Forall_forall in Hx.
Qed.

Lemma elnums_sorted (elements : elements_t) (matnum : Z) :
  StronglySorted Z.lt (elnums elements matnum).
Proof.
  unfold elnums.
  apply (StronglySorted_fmap _ (fun a b : Z * list Z => a.1 < b.1) Z.lt).
  { by intros ??. }
  apply StronglySorted_filter, enumerate_sorted.
Qed.

(** What [write_elements] does on records it can handle. *)
Lemma write_elements_deck name elements materials :
  Forall element_ok elements →
  ∃ sets,
    write_elements name elements materials
    = Run name
        (header name
           ++ Py.nl "*ELEMENT, TYPE=S6, ELSET=Eall"
           :: concat ((fun ne => connectivity ne.1 ne.2)
                        <$> Py.enumerate elements 1)
           ++ concat sets)
        (Ok tt)
    ∧ Forall2 (fun m blk => elset_block m.2 (elnums elements m.1) blk)
              materials sets.
Proof.
  intros Hok.
  assert (∃ sets,
    for_ materials (fun '(matnum, matname) =>
      write (Py.nl ("*ELSET,ELSET=E" +:+ matname));;
      elnums ← lift (elnums_from elements 1 matnum);
      subs ← lift (chunks elnums 16);
      for_ subs (fun sub =>
        write (Py.nl (Py.join ", " (Py.str <$> sub) +:+ ","))))
    = (concat sets, Ok tt)
    ∧ Forall2 (fun m blk => elset_block m.2 (elnums elements m.1) blk)
              materials sets) as [sets [Hsets Hblocks]].
  { induction materials as [|[matnum matname] materials [sets [IH1 IH2]]].
    - exists []. by split; [|constructor].
    - destruct (chunks_wrapped (elnums elements matnum) 16) as [cs [Hcs Hw]];
        [lia|].
      exists ((Py.nl ("*ELSET,ELSET=E" +:+ matname) :: (elset_line <$> cs))
                :: sets).
      split; [|constructor; [by exists cs|done]].
      cbn [for_]. rewrite IH1.
      erewrite bind_written; [reflexivity|].
      rewrite write_bind. rewrite elnums_from_ok.
      2:{ eapply Forall_impl; [exact Hok|]. intros el [? _]. lia. }
      unfold elnums in Hcs. rewrite lift_ok_bind, Hcs, lift_ok_bind.
      rewrite (for_ok _ _ (fun sub => [elset_line sub])) by done.
      simpl. do 2 f_equal. clear. induction cs; simpl; [done|]. by f_equal. }
  exists sets. split; [|done].
  unfold write_elements, with_open. rewrite !write_bind. cbn [fst snd].
  erewrite bind_written.
  2:{ apply (for_ok _ _ (fun ne => connectivity ne.1 ne.2)).
      intros [n el] Hin. apply connectivity_body.
      apply PyFacts.elem_of_enumerate in Hin as [i [_ Hi]].
      eapply Forall_lookup_1; eauto. }
  by rewrite Hsets.
Qed.

(** C1.  On records that [write_elements] can handle (each has its five
    leading fields and, when the fifth is 6, six node ids after them), the
    element block holds, in the order of the records, what each record
    adds: a record numbered [n] (from 1) whose fifth field is 6 and whose
    node ids are [a, b, c, d, e, f] adds the one line [n, a, b, c, f, d, e];
    a record whose fifth field is not 6 adds nothing.  The element sets
    follow the block. *)
Theorem write_elements_connectivity name elements materials :
  Forall element_ok elements →
  ∃ sets,
    write_elements name elements materials
    = Run name
        (header name
           ++ Py.nl "*ELEMENT, TYPE=S6, ELSET=Eall"
           :: concat ((fun ne => connectivity ne.1 ne.2)
                        <$> Py.enumerate elements 1)
           ++ concat sets)
        (Ok tt)
    ∧ Forall2 (fun m blk => elset_block m.2 (elnums elements m.1) blk)
              materials sets
    ∧ (∀ n f0 mat f2 f3 a b c d e f rest,
         connectivity n (f0 :: mat :: f2 :: f3 :: 6 :: a :: b :: c :: d :: e
                            :: f :: rest)
         = [Py.nl (Py.join ", " (Py.str <$> [n; a; b; c; f; d; e]))])
    ∧ (∀ n el cnt,
         el !! 4%nat = Some cnt → cnt ≠ 6 → connectivity n el = []).
Proof.
  intros Hok.
  destruct (write_elements_deck name elements materials Hok)
    as [sets [Hrun Hsets]].
  exists sets. split; [done|]. split; [done|]. split.
  - intros. apply connectivity_s6.
  - apply connectivity_other.
Qed.

(** C3.  On records that [write_elements] can handle, the element deck ends
    with one element set per material, in the order of the materials: the
    line [*ELSET,ELSET=E<name>], then the numbers (from 1) of exactly the
    records whose second field is the material id, whatever their node
    count, in ascending order, 16 to a line, each line ending with a
    comma. *)
Theorem write_elements_material_sets name elements materials :
  Forall element_ok elements →
  ∃ block sets,
    write_elements name elements materials
    = Run name
        (header name ++ Py.nl "*ELEMENT, TYPE=S6, ELSET=Eall"
           :: block ++ concat sets)
        (Ok tt)
    ∧ Forall2 (fun m blk => ∃ nums cs,
         blk = Py.nl ("*ELSET,ELSET=E" +:+ m.2)
               :: ((fun sub => Py.nl (Py.join ", " (Py.str <$> sub) +:+ ","))
                     <$> cs)
         ∧ wrapped 16 nums cs
         ∧ StronglySorted Z.lt nums
         ∧ ∀ n, n ∈ nums
                ↔ ∃ (i : nat) el,
                    n = Z.of_nat i + 1 ∧ elements !! i = Some el
                    ∧ el !! 1%nat = Some m.1)
       materials sets.
Proof.
  intros Hok.
  destruct (write_elements_deck name elements materials Hok)
    as [sets [Hrun Hsets]].
  eexists _, sets. split; [exact Hrun|].
  eapply Forall2_impl; [exact Hsets|].
  intros [matnum matname] blk [cs [-> Hw]]. simpl.
  exists (elnums elements matnum), cs.
  split; [done|]. split; [done|]. split; [apply elnums_sorted|].
  apply elem_of_elnums.
Qed.

(** ** The node deck *)

Lemma sorted_elem_of (s : gset Z) (x : Z) : x ∈ Py.sorted s ↔ x ∈ s.
Proof.
  unfold Py.sorted. rewrite merge_sort_Permutation. apply elem_of_elements.
Qed.

Lemma sorted_strict (s : gset Z) : StronglySorted Z.lt (Py.sorted s).
Proof.
  unfold Py.sorted.
  assert (NoDup (merge_sort Z.le (elements s))) as Hnd.
  { rewrite merge_sort_Permutation. apply NoDup_elements. }
  assert (StronglySorted Z.le (merge_sort Z.le (elements s))) as Hs.
  { apply StronglySorted_merge_sort; apply _. }
  induction Hs as [|x l Hl IH Hx]; [constructor|].
  apply NoDup_cons in Hnd as [Hx' Hnd]. constructor; [by apply IH|].
  apply Forall_forall. intros y Hy.
  eapply Forall_forall in Hx; [|done].
  assert (x ≠ y) by (by intros ->). lia.
Qed.

(** A set written by [write_nodes] under the label [N<label>]. *)
Lemma nset_written (label : string) (s : gset Z) :
  ∃ blk,
    (write (Py.nl ("*NSET,NSET=N" +:+ label));;
     subs ← lift (chunks (Py.sorted s) 16);
     for_ subs (fun sub =>
       write (Py.nl ("  " +:+ Py.join ", " (Py.str <$> sub)))))
    = (blk, Ok tt)
    ∧ nset_block label s blk.
Proof.
  destruct (chunks_wrapped (Py.sorted s) 16) as [cs [Hcs Hw]]; [lia|].
  exists (Py.nl ("*NSET,NSET=N" +:+ label) :: (nset_line <$> cs)). split.
  - rewrite write_bind, Hcs, lift_ok_bind.
    rewrite (for_ok _ _ (fun sub => [nset_line sub])) by done.
    simpl. do 2 f_equal. clear. induction cs; simpl; [done|]. by f_equal.
  - exists (Py.sorted s), cs. split; [done|]. split; [done|].
    split; [apply sorted_strict|]. apply sorted_elem_of.
Qed.

Lemma with_material_ok (elements : elements_t) (matnum : Z) :
  Forall (fun el => 2 ≤ length el)%nat elements →
  with_material elements matnum
  = Ok (filter (fun el => el !! 1%nat = Some matnum) elements).
Proof.
  induction 1 as [|el elements Hel _ IH]; [done|].
  cbn [with_material]. rewrite PyFacts.index_lookup by lia.
  change (Z.to_nat 1) with 1%nat.
  destruct (el !! 1%nat) as [el1|] eqn:H1.
  2:{ apply lookup_ge_None in H1. lia. }
  rewrite IH. rewrite filter_cons. simpl.
  destruct (Z.eqb_spec el1 matnum) as [->|Hne].
  - by rewrite decide_True.
  - rewrite decide_False; [done|]. congruence.
Qed.

Lemma update_nset_ok (sel : elements_t) (nset : gset Z) :
  Forall (fun el => 5 ≤ length el)%nat sel →
  foldM update_nset nset sel
  = Ok (nset ∪ ⋃ ((fun el => match el !! 4%nat with
                             | Some cnt =>
                                 list_to_set (Py.slice el 5 (5 + cnt))
                             | None => ∅
                             end) <$> sel)).
Proof.
  unfold update_nset. intros H. revert nset.
  induction H as [|el sel Hel ? IH]; intros nset.
  - cbn [foldM fmap list_fmap]. by rewrite union_list_nil, (right_id_L ∅ (∪)).
  - cbn [foldM].
    rewrite PyFacts.index_lookup by lia. change (Z.to_nat 4) with 4%nat.
    destruct (el !! 4%nat) as [cnt|] eqn:H4.
    2:{ apply lookup_ge_None in H4. lia. }
    rewrite !ok_bind, IH. rewrite fmap_cons, union_list_cons, H4.
    by rewrite (assoc_L (∪)).
Qed.

(** The node sets, on records that have their five leading fields. *)
Lemma node_sets_ok elements materials edge_boundaries :
  Forall (fun el => 5 ≤ length el)%nat elements →
  ∃ msets esets,
    node_sets elements materials edge_boundaries
    = (concat msets ++ concat esets, Ok tt)
    ∧ Forall2 (fun m blk => nset_block m.2 (material_nodes elements m.1) blk)
              materials msets
    ∧ Forall2 (fun ks blk => nset_block ("edge" +:+ Py.str ks.1) ks.2 blk)
              edge_boundaries esets.
Proof.
  intros Hok. unfold node_sets.
  assert (∃ esets,
    for_ edge_boundaries (fun '(k, s) =>
      let nodes := Py.sorted s in
      write (Py.nl ("*NSET,NSET=Nedge" +:+ Py.str k));;
      subs ← lift (chunks nodes 16);
      for_ subs (fun sub =>
        write (Py.nl ("  " +:+ Py.join ", " (Py.str <$> sub)))))
    = (concat esets, Ok tt)
    ∧ Forall2 (fun ks blk => nset_block ("edge" +:+ Py.str ks.1) ks.2 blk)
              edge_boundaries esets) as [esets [He1 He2]].
  { induction edge_boundaries as [|[k s] eb [esets [IH1 IH2]]].
    - exists []. by split; [|constructor].
    - destruct (nset_written ("edge" +:+ Py.str k) s) as [blk [Hblk Hspec]].
      exists (blk :: esets). split; [|by constructor].
      rewrite for_cons, IH1. erewrite bind_written; [reflexivity|].
      exact Hblk. }
  assert (∃ msets,
    for_ materials (fun '(matnum, matname) =>
      sel ← lift (with_material elements matnum);
      nset ← lift (foldM update_nset ∅ sel);
      write (Py.nl ("*NSET,NSET=N" +:+ matname));;
      subs ← lift (chunks (Py.sorted nset) 16);
      for_ subs (fun sub =>
        write (Py.nl ("  " +:+ Py.join ", " (Py.str <$> sub)))))
    = (concat msets, Ok tt)
    ∧ Forall2 (fun m blk => nset_block m.2 (material_nodes elements m.1) blk)
              materials msets) as [msets [Hm1 Hm2]].
  { induction materials as [|[matnum matname] materials [msets [IH1 IH2]]].
    - exists []. by split; [|constructor].
    - destruct (nset_written matname (material_nodes elements matnum))
        as [blk [Hblk Hspec]].
      exists (blk :: msets). split; [|by constructor].
      rewrite for_cons, IH1. erewrite bind_written; [reflexivity|].
      rewrite with_material_ok.
      2:{ eapply Forall_impl; [exact Hok|]. intros; simpl in *; lia. }
      rewrite lift_ok_bind, update_nset_ok.
      2:{ apply Forall_forall. intros el [_ Hel]%list_elem_of_filter.
          eapply Forall_forall in Hok; eauto. }
      rewrite lift_ok_bind. rewrite <- Hblk. unfold material_nodes.
      by rewrite (left_id_L ∅ (∪)). }
  exists msets, esets. split; [|done].
  by apply (seq_ok _ _ _ tt).
Qed.

(** The first node set line, if any line follows the coordinates. *)
Lemma node_sets_head elements materials edge_boundaries :
  (node_sets elements materials edge_boundaries).1 = []
  ∨ ∃ label rest,
      (node_sets elements materials edge_boundaries).1
      = Py.nl ("*NSET,NSET=N" +:+ label) :: rest.
Proof.
  unfold node_sets. destruct materials as [|[matnum matname] materials].
  - cbn [for_]. rewrite ret_bind.
    destruct edge_boundaries as [|[k s] eb]; [by left|].
    right. exists ("edge" +:+ Py.str k). rewrite for_cons.
    eapply bind_head. cbv zeta. by rewrite write_bind.
  - rewrite for_cons.
    destruct (with_material elements matnum) as [e|sel]; [by left|].
    change (inr sel) with (Ok sel). rewrite lift_ok_bind.
    destruct (foldM update_nset ∅ sel) as [e|nset]; [by left|].
    change (inr nset) with (Ok nset). rewrite lift_ok_bind.
    right. exists matname.
    match goal with
    | |- context [(write ?s ;; ?k) ≫= ?f] =>
        destruct (bind_head (write s ;; k) f s k.1) as [w1 Hw1];
        [by rewrite write_bind|]
    end.
    eapply bind_head. exact Hw1.
Qed.

(** ** Numbers as text *)

Lemma round_half_even_nonneg (p q : Z) :
  0 ≤ p → 0 < q → 0 ≤ Py.round_half_even p q.
Proof.
  intros Hp Hq. unfold Py.round_half_even.
  assert (0 ≤ p / q) by (apply Z.div_pos; lia).
  repeat case_match; lia.
Qed.

Lemma uint_digits (d : Decimal.uint) :
  Forall (fun c => isdigit c = true)
         (list_ascii_of_string (NilEmpty.string_of_uint d)).
Proof. induction d; simpl; constructor; done. Qed.

(** [str] of a number that is not negative: digits, at least one. *)
Lemma str_digits (n : Z) :
  0 ≤ n →
  ∃ c ds,
    Py.str n = String c ds ∧ isdigit c = true
    ∧ Forall (fun c => isdigit c = true) (list_ascii_of_string ds).
Proof.
  intros Hn. unfold Py.str. destruct n as [|p|p]; [| |lia].
  - by exists "0"%char, ""%string.
  - simpl. pose proof (uint_digits (Pos.to_uint p)) as Hd.
    pose proof (DecimalPos.Unsigned.to_uint_nonnil p) as Hnil.
    unfold NilZero.string_of_uint.
    destruct (Pos.to_uint p) eqn:E; [done|..]; simpl in *;
      inversion Hd; subst; eauto.
Qed.

Lemma str_one_digit (n : Z) :
  0 ≤ n < 10 → ∃ c, Py.str n = String c "" ∧ isdigit c = true.
Proof.
  intros Hn.
  assert (n = 0 ∨ n = 1 ∨ n = 2 ∨ n = 3 ∨ n = 4 ∨ n = 5 ∨ n = 6 ∨ n = 7
          ∨ n = 8 ∨ n = 9) as Hcases by lia.
  repeat destruct Hcases as [->|Hcases]; try subst n;
    by eexists.
Qed.

Lemma fixed2_digits (ds rest : string) (seen : bool) :
  Forall (fun c => isdigit c = true) (list_ascii_of_string ds) →
  fixed2 seen (ds +:+ rest)
  = fixed2 (seen || negb (ds =? "")%string) rest.
Proof.
  revert seen. induction ds as [|c ds IH]; intros seen Hd.
  - by rewrite orb_false_r.
  - inversion Hd as [|? ? Hc Hds]; subst.
    change (String c ds +:+ rest) with (String c (ds +:+ rest)).
    cbn [fixed2]. rewrite Hc, IH by done. simpl. by rewrite orb_true_r.
Qed.

(** A finite number is written with exactly two decimal digits. *)
Lemma format_2f_finite (x : spec_float) :
  is_finite x = true → has_two_decimals (Py.format_2f x) = true.
Proof.
  destruct x as [s|s| |s m e]; try done; intros _.
  - by destruct s.
  - unfold Py.format_2f.
    set (n := Py.round_half_even _ _).
    assert (0 ≤ n) as Hn.
    { apply round_half_even_nonneg; [lia|]. apply Z.pow_pos_nonneg; lia. }
    assert (0 ≤ n / 100) as Hq by (apply Z.div_pos; lia).
    assert (0 ≤ n mod 100 < 100) as Hr by (apply Z.mod_pos_bound; lia).
    destruct (str_digits (n / 100) Hq) as [c [ds [-> [Hc Hds]]]].
    unfold Py.two_digits.
    destruct (str_one_digit (n mod 100 / 10)) as [d1 [-> Hd1]].
    { split; [apply Z.div_pos; lia|]. apply Z.div_lt_upper_bound; lia. }
    destruct (str_one_digit (n mod 100 mod 10)) as [d2 [-> Hd2]].
    { apply Z.mod_pos_bound; lia. }
    change (String c ds +:+ ?r) with (String c (ds +:+ r)).
    assert (fixed2 false
              (String c (ds +:+ "." +:+ String d1 "" +:+ String d2 "")) = true)
      as Hfixed.
    { cbn [fixed2]. rewrite Hc, fixed2_digits by done.
      change ("." +:+ String d1 "" +:+ String d2 "")
        with (String "." (String d1 (String d2 ""))).
      cbn [fixed2]. by rewrite Hd1, Hd2. }
    destruct s.
    + change ("-" +:+ ?r) with (String "-" r). exact Hfixed.
    + change ("" +:+ ?r) with r. etrans; [|exact Hfixed].
      unfold has_two_decimals.
      destruct c as [[] [] [] [] [] [] [] []];
        first [reflexivity | by vm_compute in Hc].
Qed.

(** ** [write_nodes] *)

(** The loop over the points, when each point has three coordinates. *)
Lemma points_loop (points : list (list spec_float)) (start : Z) :
  Forall (fun p => length p = 3%nat) points →
  ∃ records,
    for_ (Py.enumerate points start) (fun '(n, p) =>
      match p with
      | [x; y; z] =>
          write (Py.nl (Py.str n +:+ ", " +:+ Py.format_2f x +:+ ", "
                        +:+ Py.format_2f y +:+ ", " +:+ Py.format_2f z))
      | _ => lift (raise (ValueError (Unpack 3 (length p))))
      end) = (records, Ok tt)
    ∧ length records = length points
    ∧ ∀ (i : nat) x y z,
        points !! i = Some [x; y; z] →
        records !! i = Some (node_record (start + Z.of_nat i) x y z).
Proof.
  intros H. revert start.
  induction H as [|p points Hp _ IH]; intros start.
  - exists []. split; [done|]. split; [done|]. intros i ????. by destruct i.
  - destruct p as [|x [|y [|z [|]]]]; try done.
    destruct (IH (start + 1)) as [records [Hloop [Hlen Hrec]]].
    exists (node_record start x y z :: records).
    split; [|split].
    + cbn [Py.enumerate]. rewrite for_cons, Hloop.
      by apply (seq_ok _ _ [node_record start x y z] tt).
    + simpl. by rewrite Hlen.
    + intros [|i] x' y' z' Hi; simpl in Hi.
      * injection Hi as <- <- <-. simpl. by rewrite Z.add_0_r.
      * simpl. rewrite (Hrec i x' y' z' Hi). do 2 f_equal. lia.
Qed.

(** The loop over the points stops at the first point that does not have
    three coordinates. *)
Lemma points_loop_raises (points : list (list spec_float)) (start : Z) p :
  p ∈ points → length p ≠ 3%nat →
  ∃ w got,
    got ≠ 3%nat ∧
    for_ (Py.enumerate points start) (fun '(n, p) =>
      match p with
      | [x; y; z] =>
          write (Py.nl (Py.str n +:+ ", " +:+ Py.format_2f x +:+ ", "
                        +:+ Py.format_2f y +:+ ", " +:+ Py.format_2f z))
      | _ => lift (raise (ValueError (Unpack 3 (length p))))
      end) = (w, raise (ValueError (Unpack 3 got))).
Proof.
  intros Hin Hp. revert start.
  induction points as [|q points IH]; intros start; [by inversion Hin|].
  cbn [Py.enumerate]. rewrite for_cons.
  destruct (decide (length q = 3%nat)) as [Hq|Hq].
  - destruct q as [|x [|y [|z [|]]]]; try done.
    assert (p ∈ points) as Hin' by (inversion Hin; subst; done).
    destruct (IH Hin' (start + 1)) as [w [got [Hgot Hloop]]].
    exists (node_record start x y z :: w), got. split; [done|]. rewrite Hloop.
    by apply (seq_ok _ _ [node_record start x y z] tt).
  - exists [], (length q). split; [done|].
    erewrite bind_raised; [reflexivity|].
    destruct q as [|x [|y [|z [|]]]]; done.
Qed.

(** [write_nodes] writes the header and the coordinates, then the node
    sets. *)
Lemma write_nodes_points name points elements materials edge_boundaries :
  Forall (fun p => length p = 3%nat) points →
  ∃ records,
    write_nodes name points elements materials edge_boundaries
    = Run (nodes_file name)
        (header (nodes_file name)
           ++ Py.nl "*NODE,NSET=Nall" :: records
           ++ (node_sets elements materials edge_boundaries).1)
        (node_sets elements materials edge_boundaries).2
    ∧ length records = length points
    ∧ ∀ (i : nat) x y z,
        points !! i = Some [x; y; z] →
        records !! i = Some (node_record (Z.of_nat i + 1) x y z).
Proof.
  intros Hp. destruct (points_loop points 1 Hp) as [records [Hloop [Hlen Hrec]]].
  exists records. split; [|split; [done|]].
  - change (write_nodes name points elements materials edge_boundaries)
      with (with_open (nodes_file name) (
        write (Py.nl "**");;
        write (Py.nl ("** " +:+ nodes_file name));;
        write (Py.nl "** Gegenereerd door mesh2inp.py.");;
        write (Py.nl "**");;
        write (Py.nl "*NODE,NSET=Nall");;
        for_ (Py.enumerate points 1) (fun '(n, p) =>
          match p with
          | [x; y; z] =>
              write (Py.nl (Py.str n +:+ ", " +:+ Py.format_2f x +:+ ", "
                            +:+ Py.format_2f y +:+ ", " +:+ Py.format_2f z))
          | _ => lift (raise (ValueError (Unpack 3 (length p))))
          end);;
        node_sets elements materials edge_boundaries)).
    unfold with_open. rewrite !write_bind. cbn [fst snd].
    erewrite bind_written; [|exact Hloop]. done.
  - intros i x y z Hi. rewrite (Hrec i x y z Hi). do 2 f_equal. lia.
Qed.

(** C9, with the restriction to finite coordinates that
    [write_nodes_infinite_coordinate] forces.  When every point has three
    coordinates, [write_nodes] writes, right after the header and the line
    [*NODE,NSET=Nall], one record per point, in the order of the points, the
    record of the [i]-th point beginning with [i] (from 1); what follows the
    records is a node set or nothing.  Each finite coordinate is written
    with exactly two decimal digits. *)
Theorem write_nodes_coordinates name points elements materials
    edge_boundaries :
  Forall (fun p => length p = 3%nat) points →
  ∃ records rest,
    written (write_nodes name points elements materials edge_boundaries)
    = header (nodes_file name) ++ Py.nl "*NODE,NSET=Nall" :: records ++ rest
    ∧ length records = length points
    ∧ (∀ (i : nat) x y z,
         points !! i = Some [x; y; z] →
         records !! i
         = Some (Py.nl (Py.str (Z.of_nat i + 1) +:+ ", " +:+ Py.format_2f x
                        +:+ ", " +:+ Py.format_2f y
                        +:+ ", " +:+ Py.format_2f z)))
    ∧ (rest = []
       ∨ ∃ label rest', rest = Py.nl ("*NSET,NSET=N" +:+ label) :: rest')
    ∧ (∀ x, is_finite x = true → has_two_decimals (Py.format_2f x) = true).
Proof.
  intros Hp.
  destruct (write_nodes_points name points elements materials edge_boundaries
              Hp) as [records [Hrun [Hlen Hrec]]].
  exists records, (node_sets elements materials edge_boundaries).1.
  split; [by rewrite Hrun|]. split; [done|]. split; [exact Hrec|].
  split; [apply node_sets_head | apply format_2f_finite].
Qed.

(** *** The node ids of a material *)

Lemma elem_of_fields_between (e : list Z) (first last x : Z) :
  x ∈ fields_between e first last
  ↔ ∃ i : nat, e !! i = Some x ∧ first ≤ Z.of_nat i + 1 ≤ last.
Proof.
  unfold fields_between. rewrite list_elem_of_fmap. split.
  - intros [[p y] [-> [Hp Hin]%list_elem_of_filter]].
    apply PyFacts.elem_of_enumerate in Hin as [i [-> Hi]].
    exists i. simpl in *. split; [done|lia].
  - intros [i [Hi Hp]]. exists (1 + Z.of_nat i, x). split; [done|].
    apply list_elem_of_filter. split; [simpl; lia|].
    apply PyFacts.elem_of_enumerate. by exists i.
Qed.

(** [e[5:5+cnt]] holds the fields 6 to [5 + cnt], unless [cnt < -5]. *)
Lemma elem_of_slice_5 (e : list Z) (cnt x : Z) :
  -5 ≤ cnt →
  x ∈ Py.slice e 5 (5 + cnt) ↔ x ∈ fields_between e 6 (5 + cnt).
Proof.
  intros Hcnt. rewrite elem_of_fields_between.
  destruct (Z.le_gt_cases 0 cnt) as [Hpos|Hneg].
  - rewrite PyFacts.slice_from by lia. change (Z.to_nat 5) with 5%nat.
    rewrite list_elem_of_lookup. split.
    + intros [j Hj]. apply lookup_take_Some in Hj as [Hj Hlt].
      rewrite lookup_drop in Hj. exists (5 + j)%nat. split; [done|lia].
    + intros [i [Hi Hp]]. exists (i - 5)%nat.
      rewrite lookup_take_lt by lia. rewrite lookup_drop.
      by replace (5 + (i - 5))%nat with i by lia.
  - rewrite PyFacts.slice_empty by lia. split; [by inversion 1|].
    intros [i [_ Hi]]. lia.
Qed.

Lemma elem_of_material_nodes (elements : list (list Z)) (matnum x : Z) :
  Forall (fun el => ∀ cnt, el !! 4%nat = Some cnt → -5 ≤ cnt) elements →
  x ∈ material_nodes elements matnum
  ↔ ∃ el cnt,
      el ∈ elements ∧ el !! 1%nat = Some matnum ∧ el !! 4%nat = Some cnt
      ∧ x ∈ fields_between el 6 (5 + cnt).
Proof.
  intros Hcnt. unfold material_nodes. rewrite elem_of_union_list. split.
  - intros [X [HX Hx]]. apply list_elem_of_fmap in HX as [el [-> Hel]].
    apply list_elem_of_filter in Hel as [Hmat Hel].
    destruct (el !! 4%nat) as [cnt|] eqn:H4;
      [|by apply not_elem_of_empty in Hx].
    exists el, cnt. repeat split; try done.
    apply elem_of_list_to_set in Hx. apply elem_of_slice_5; [|done].
    eapply Forall_forall in Hcnt; eauto.
  - intros [el [cnt [Hel [Hmat [H4 Hx]]]]].
    eexists. split.
    + apply list_elem_of_fmap. exists el. split; [done|].
      by apply list_elem_of_filter.
    + simpl. rewrite H4. apply elem_of_list_to_set. apply elem_of_slice_5; [|done].
      eapply Forall_forall in Hcnt; eauto.
Qed.

(** What [write_nodes] does on points with three coordinates and records
    with their five leading fields. *)
Lemma write_nodes_deck name points elements materials edge_boundaries :
  Forall (fun p => length p = 3%nat) points →
  Forall (fun el => 5 ≤ length el)%nat elements →
  ∃ records msets esets,
    write_nodes name points elements materials edge_boundaries
    = Run (nodes_file name)
        (header (nodes_file name)
           ++ Py.nl "*NODE,NSET=Nall" :: records
           ++ concat msets ++ concat esets)
        (Ok tt)
    ∧ length records = length points
    ∧ Forall2 (fun m blk => nset_block m.2 (material_nodes elements m.1) blk)
              materials msets
    ∧ Forall2 (fun ks blk => nset_block ("edge" +:+ Py.str ks.1) ks.2 blk)
              edge_boundaries esets.
Proof.
  intros Hp Hel.
  destruct (write_nodes_points name points elements materials edge_boundaries
              Hp) as [records [Hrun [Hlen _]]].
  destruct (node_sets_ok elements materials edge_boundaries Hel)
    as [msets [esets [Hsets [Hm He]]]].
  exists records, msets, esets. rewrite Hrun, Hsets. done.
Qed.

(** C2, with the restriction to node counts of at least -5 (so to every
    count that is not negative) that [write_nodes_negative_count] forces.
    On points with three coordinates and records with their five leading
    fields, the node deck holds, after the coordinates, one node set per
    material, in the order of the materials: the line
    [*NSET,NSET=N<name>], then, in ascending order and 16 to a line, exactly
    the ids found in the fields 6 to [5 + node count] of the records whose
    second field is the material id. *)
Theorem write_nodes_material_sets name points elements materials
    edge_boundaries :
  Forall (fun p => length p = 3%nat) points →
  Forall (fun el => 5 ≤ length el)%nat elements →
  Forall (fun el => ∀ cnt, el !! 4%nat = Some cnt → -5 ≤ cnt) elements →
  ∃ records msets esets,
    write_nodes name points elements materials edge_boundaries
    = Run (nodes_file name)
        (header (nodes_file name)
           ++ Py.nl "*NODE,NSET=Nall" :: records
           ++ concat msets ++ concat esets)
        (Ok tt)
    ∧ length records = length points
    ∧ Forall2 (fun m blk => ∃ ids cs,
         blk = Py.nl ("*NSET,NSET=N" +:+ m.2)
               :: ((fun sub =>
                      Py.nl ("  " +:+ Py.join ", " (Py.str <$> sub))) <$> cs)
         ∧ wrapped 16 ids cs
         ∧ StronglySorted Z.lt ids
         ∧ ∀ x, x ∈ ids
                ↔ ∃ el cnt,
                    el ∈ elements ∧ el !! 1%nat = Some m.1
                    ∧ el !! 4%nat = Some cnt
                    ∧ x ∈ fields_between el 6 (5 + cnt))
       materials msets.
Proof.
  intros Hp Hel Hcnt.
  destruct (write_nodes_deck name points elements materials edge_boundaries
              Hp Hel) as [records [msets [esets [Hrun [Hlen [Hm _]]]]]].
  exists records, msets, esets. split; [done|]. split; [done|].
  eapply Forall2_impl; [exact Hm|].
  intros [matnum matname] blk [ids [cs [-> [Hw [Hsorted Hmem]]]]]. simpl.
  exists ids, cs. split; [done|]. split; [done|]. split; [done|].
  intros x. rewrite Hmem. by apply elem_of_material_nodes.
Qed.

(** ** Strings *)

Module StrFacts.

Lemma app_nil_r (s : string) : s +:+ "" = s.
Proof. induction s as [|c s IH]; [done|]. by rewrite <- IH at 2. Qed.

Lemma app_assoc (s t u : string) : (s +:+ t) +:+ u = s +:+ t +:+ u.
Proof.
  induction s as [|c s IH]; [done|].
  change (String c (s +:+ t) +:+ u = String c (s +:+ t +:+ u)).
  change (String c ((s +:+ t) +:+ u) = String c (s +:+ t +:+ u)).
  by rewrite IH.
Qed.

Lemma app_not_nil (s : string) (c : ascii) : s +:+ String c "" ≠ "".
Proof. by destruct s. Qed.

Lemma prefix_spec (p s : string) :
  String.prefix p s = true ↔ ∃ y, s = p +:+ y.
Proof.
  revert s. induction p as [|c p IH]; intros s.
  - split; [by exists s|]. by destruct s.
  - destruct s as [|d s]; simpl.
    + split; [done|]. by intros [y Hy].
    + destruct (ascii_dec c d) as [->|Hne].
      * rewrite IH. split; intros [y Hy]; exists y.
        -- by rewrite Hy.
        -- by injection Hy.
      * split; [done|]. intros [y Hy]. by injection Hy as -> _.
Qed.

Lemma rev_app_app_r (s a b : string) :
  String.rev_app s (a +:+ b) = String.rev_app s a +:+ b.
Proof. revert a. induction s as [|c s IH]; intros a; [done|]. apply (IH (String c a)). Qed.

Lemma rev_app_app_l (s t a : string) :
  String.rev_app (s +:+ t) a = String.rev_app t (String.rev_app s a).
Proof. revert a. induction s as [|c s IH]; intros a; [done|]. apply IH. Qed.

Lemma rev_app (s t : string) :
  String.rev (s +:+ t) = String.rev t +:+ String.rev s.
Proof.
  unfold String.rev. rewrite rev_app_app_l.
  by rewrite <- rev_app_app_r.
Qed.

Lemma rev_app_rev_app (s a b : string) :
  String.rev_app (String.rev_app s a) b = String.rev_app a (s +:+ b).
Proof.
  revert a b. induction s as [|c s IH]; intros a b; [done|].
  simpl. by rewrite IH.
Qed.

Lemma rev_involutive (s : string) : String.rev (String.rev s) = s.
Proof. unfold String.rev. rewrite rev_app_rev_app. simpl. apply app_nil_r. Qed.

(** [s.endswith(p)] holds exactly when [s] is some string followed by
    [p]. *)
Lemma endswith_spec (s p : string) :
  Py.endswith s p = true ↔ ∃ x, s = x +:+ p.
Proof.
  unfold Py.endswith. rewrite prefix_spec. split.
  - intros [y Hy]. exists (String.rev y).
    by rewrite <- (rev_involutive s), Hy, rev_app, rev_involutive.
  - intros [x ->]. exists (String.rev x). apply rev_app.
Qed.

Lemma lstrip_first (s : string) c t :
  Py.lstrip s = String c t → Py.isspace c = false.
Proof.
  induction s as [|a s IH]; [done|]. simpl.
  destruct (Py.isspace a) eqn:Ha; [done|]. by intros [= <- _].
Qed.

Lemma rstrip_first (s : string) c t :
  Py.rstrip s = String c t → ∃ t', s = String c t'.
Proof.
  destruct s as [|a s]; [done|]. simpl.
  destruct (Py.rstrip s); [destruct (Py.isspace a)|]; intros [=]; subst; eauto.
Qed.

Lemma rstrip_last (s : string) c t :
  Py.rstrip s = t +:+ String c "" → Py.isspace c = false.
Proof.
  revert t. induction s as [|a s IH]; intros t; simpl.
  - intros H. symmetry in H. by apply app_not_nil in H.
  - destruct (Py.rstrip s) as [|b r] eqn:Hr.
    + destruct (Py.isspace a) eqn:Ha.
      * intros H. symmetry in H. by apply app_not_nil in H.
      * destruct t as [|x t]; [by intros [= <-]|].
        intros [= _ H]. symmetry in H. by apply app_not_nil in H.
    + destruct t as [|x t]; [done|].
      intros [= _ H]. by apply (IH t).
Qed.

Lemma strip_trimmed (s : string) : trimmed (Py.strip s).
Proof.
  intros c t. unfold Py.strip. split.
  - intros H. apply rstrip_first in H as [t' H]. by apply lstrip_first in H.
  - apply rstrip_last.
Qed.

End StrFacts.

(** ** [read_mesh]: the lines *)

Lemma elem_of_mesh_lines (mesh ln : string) :
  ln ∈ mesh_lines mesh
  ↔ ln ∈ Py.strip <$> Py.readlines mesh ∧ Py.startswith ln "#" = false.
Proof. unfold mesh_lines. rewrite list_elem_of_filter. tauto. Qed.

(** C5, without the removal of empty lines that [mesh_lines_keeps_empty]
    refutes.  The lines that [read_mesh] looks its sections up in are the
    lines of the file, stripped, without those that start with [#], in the
    order of the file: each is stripped and does not start with [#]; no
    other line is removed, so an empty line stays; and [read_mesh] depends
    on the file through these lines only. *)
Theorem mesh_lines_stripped_no_comments (mesh : string) :
  mesh_lines mesh
  = filter (fun ln => Py.startswith ln "#" = false)
           (Py.strip <$> Py.readlines mesh)
  ∧ Forall (fun ln => trimmed ln ∧ Py.startswith ln "#" = false)
           (mesh_lines mesh)
  ∧ (∀ ln, ln ∈ Py.strip <$> Py.readlines mesh →
           Py.startswith ln "#" = false → ln ∈ mesh_lines mesh)
  ∧ ("" ∈ Py.strip <$> Py.readlines mesh → "" ∈ mesh_lines mesh)
  ∧ (∀ mesh', mesh_lines mesh' = mesh_lines mesh →
              read_mesh mesh' = read_mesh mesh).
Proof.
  split; [done|]. split; [|split; [|split]].
  - apply Forall_forall. intros ln [Hin Hc]%elem_of_mesh_lines.
    split; [|done]. apply list_elem_of_fmap in Hin as [raw [-> _]].
    apply StrFacts.strip_trimmed.
  - intros ln Hin Hc. by apply elem_of_mesh_lines.
  - intros Hin. by apply elem_of_mesh_lines.
  - intros mesh' Heq. unfold read_mesh. by rewrite Heq.
Qed.

(** ** The names of the decks *)

(** C10.  [write_nodes] opens the name it is given when that name ends in
    [.inp], and the name followed by [.inp] when it does not, and writes the
    name of the file it opened in the header; [write_elements] opens the
    name it is given, whatever it ends in, and writes that name in the
    header. *)
Theorem output_file_names name points elements materials edge_boundaries :
  file (write_nodes name points elements materials edge_boundaries)
  = (if Py.endswith name ".inp" then name else name +:+ ".inp")
  ∧ ((∃ stem, name = stem +:+ ".inp") →
     file (write_nodes name points elements materials edge_boundaries)
     = name)
  ∧ ((¬ ∃ stem, name = stem +:+ ".inp") →
     file (write_nodes name points elements materials edge_boundaries)
     = name +:+ ".inp")
  ∧ written (write_nodes name points elements materials edge_boundaries)
      !! 1%nat
    = Some (Py.nl ("** " +:+
         file (write_nodes name points elements materials edge_boundaries)))
  ∧ file (write_elements name elements materials) = name
  ∧ written (write_elements name elements materials) !! 1%nat
    = Some (Py.nl ("** " +:+ name)).
Proof.
  split; [done|]. split; [|split; [|split; [|split; [done|]]]].
  - intros H%StrFacts.endswith_spec. unfold write_nodes, with_open. simpl.
    by rewrite H.
  - intros H. unfold write_nodes, with_open. simpl.
    destruct (Py.endswith name ".inp") eqn:E; [|done].
    by apply StrFacts.endswith_spec in E.
  - unfold write_nodes, with_open. cbn [file written].
    by rewrite !write_bind.
  - unfold write_elements, with_open. cbn [file written].
    by rewrite !write_bind.
Qed.

(** ** [read_mesh]: the sections *)

Lemma bind_assoc {A B C} (m : result A) (f : A → result B)
    (g : B → result C) :
  (m ≫= f) ≫= g = m ≫= (fun x => f x ≫= g).
Proof. by destruct m. Qed.

(** [read_mesh] reads the four sections one after the other. *)
Lemma read_mesh_stages (mesh : string) :
  read_mesh mesh
  = (pts ← section_lines (mesh_lines mesh) "points";
     points ← traverse (fun ln => traverse Py.float (Py.split ln)) pts;
     els ← section_lines (mesh_lines mesh) "surfaceelements";
     elements ← traverse (fun ln => traverse Py.int (Py.split ln)) els;
     mats ← section_lines (mesh_lines mesh) "materials";
     materials ← traverse (fun m => m0 ← Py.index m 0;
                                    matnum ← Py.int m0;
                                    m1 ← Py.index m 1;
                                    Ok (matnum, m1)) (Py.split <$> mats);
     eds ← section_lines (mesh_lines mesh) "edgesegmentsgi2";
     edgeboundaries ← foldM add_edge [] (Py.split <$> eds);
     Ok (points, elements, materials, edgeboundaries)).
Proof.
  unfold read_mesh, section_lines. cbv zeta.
  destruct (Py.list_index (mesh_lines mesh) "points") as [e|i1]; [done|].
  rewrite !bind_assoc. cbn [mbind result_bind].
  destruct (Py.index (mesh_lines mesh) (i1 + 2 - 1)) as [e|ln1]; [done|].
  rewrite !bind_assoc. cbn [mbind result_bind].
  destruct (Py.int ln1) as [e|n1]; [done|].
  cbn [mbind result_bind Ok].
  destruct (traverse _ (Py.slice (mesh_lines mesh) (i1 + 2) _))
    as [e|points]; [done|].
  cbn [mbind result_bind].
  destruct (Py.list_index (mesh_lines mesh) "surfaceelements") as [e|i2];
    [done|].
  rewrite !bind_assoc. cbn [mbind result_bind].
  destruct (Py.index (mesh_lines mesh) (i2 + 2 - 1)) as [e|ln2]; [done|].
  rewrite !bind_assoc. cbn [mbind result_bind].
  destruct (Py.int ln2) as [e|n2]; [done|].
  cbn [mbind result_bind Ok].
  destruct (traverse _ (Py.slice (mesh_lines mesh) (i2 + 2) _))
    as [e|elements]; [done|].
  cbn [mbind result_bind].
  destruct (Py.list_index (mesh_lines mesh) "materials") as [e|i3]; [done|].
  rewrite !bind_assoc. cbn [mbind result_bind].
  destruct (Py.index (mesh_lines mesh) (i3 + 2 - 1)) as [e|ln3]; [done|].
  rewrite !bind_assoc. cbn [mbind result_bind].
  destruct (Py.int ln3) as [e|n3]; [done|].
  cbn [mbind result_bind Ok].
  destruct (traverse _ (Py.split <$> _)) as [e|materials]; [done|].
  cbn [mbind result_bind].
  destruct (Py.list_index (mesh_lines mesh) "edgesegmentsgi2") as [e|i4];
    [done|].
  rewrite !bind_assoc. cbn [mbind result_bind].
  destruct (Py.index (mesh_lines mesh) (i4 + 2 - 1)) as [e|ln4]; [done|].
  rewrite !bind_assoc. cbn [mbind result_bind].
  destruct (Py.int ln4) as [e|n4]; [done|].
  done.
Qed.

Lemma section_lines_missing (lines : list string) (keyword : string) :
  keyword ∉ lines →
  section_lines lines keyword = raise (ValueError (NotInList keyword)).
Proof.
  intros Hmiss. unfold section_lines, Py.list_index.
  destruct (list_find _ lines) as [[i y]|] eqn:Hfind; [|done].
  apply list_find_Some in Hfind as [Hi [-> _]].
  destruct Hmiss. by eapply list_elem_of_lookup_2.
Qed.

(** A section is found at the first line equal to its keyword, whatever
    comes before and after. *)
Lemma section_lines_block (lines : list string) (keyword : string) data :
  block lines keyword data → section_lines lines keyword = Ok data.
Proof.
  intros [pre [cnt [post [-> [Hpre Hcnt]]]]].
  unfold section_lines, Py.list_index.
  assert (list_find (fun y => y = keyword)
            (pre ++ keyword :: cnt :: data ++ post)
          = Some (length pre, keyword)) as ->.
  { apply list_find_Some. split; [|split; [done|]].
    - by rewrite lookup_app_r, Nat.sub_diag by lia.
    - intros j y Hj Hlt ->. apply Hpre.
      rewrite lookup_app_l in Hj by done. by eapply list_elem_of_lookup_2. }
  cbn [mbind result_bind Ok]. cbv zeta.
  rewrite PyFacts.index_lookup by lia.
  replace (Z.to_nat (Z.of_nat (length pre) + 2 - 1)) with (length pre + 1)%nat
    by lia.
  rewrite lookup_app_r by lia.
  replace (length pre + 1 - length pre)%nat with 1%nat by lia.
  change ((keyword :: cnt :: data ++ post) !! 1%nat) with (Some cnt).
  cbn [mbind result_bind Ok]. rewrite Hcnt.
  cbn [mbind result_bind Ok]. unfold Py.len.
  rewrite PyFacts.slice_from by lia.
  replace (Z.to_nat (Z.of_nat (length pre) + 2)) with (length pre + 2)%nat
    by lia.
  rewrite Nat2Z.id, drop_app_add'; [|done].
  change (drop 2 (keyword :: cnt :: data ++ post)) with (data ++ post).
  by rewrite take_app_length.
Qed.

(** C6, without the order and the single occurrence that
    [read_mesh_any_order] refutes.  A file with a keyword missing makes
    [read_mesh] raise in every case, and the exception is the failed lookup
    ([ValueError]) of that keyword unless reading an earlier section has
    already raised.  Each section is read at the first line equal to its
    keyword, independently of the three others, so the result depends on
    the data of the four sections only, not on their order or on what
    follows them. *)
Theorem read_mesh_sections (mesh : string) :
  (∀ keyword, keyword ∈ keywords → keyword ∉ mesh_lines mesh →
     is_ok (read_mesh mesh) = false)
  ∧ ("points" ∉ mesh_lines mesh →
     read_mesh mesh = raise (ValueError (NotInList "points")))
  ∧ (∀ pts els mats eds,
       block (mesh_lines mesh) "points" pts →
       block (mesh_lines mesh) "surfaceelements" els →
       block (mesh_lines mesh) "materials" mats →
       block (mesh_lines mesh) "edgesegmentsgi2" eds →
       read_mesh mesh = parse_mesh pts els mats eds)
  ∧ (∀ pts points,
       section_lines (mesh_lines mesh) "points" = Ok pts →
       traverse (fun ln => traverse Py.float (Py.split ln)) pts = Ok points →
       "surfaceelements" ∉ mesh_lines mesh →
       read_mesh mesh = raise (ValueError (NotInList "surfaceelements")))
  ∧ (∀ pts points els elements,
       section_lines (mesh_lines mesh) "points" = Ok pts →
       traverse (fun ln => traverse Py.float (Py.split ln)) pts = Ok points →
       section_lines (mesh_lines mesh) "surfaceelements" = Ok els →
       traverse (fun ln => traverse Py.int (Py.split ln)) els = Ok elements →
       "materials" ∉ mesh_lines mesh →
       read_mesh mesh = raise (ValueError (NotInList "materials")))
  ∧ (∀ pts points els elements mats materials,
       section_lines (mesh_lines mesh) "points" = Ok pts →
       traverse (fun ln => traverse Py.float (Py.split ln)) pts = Ok points →
       section_lines (mesh_lines mesh) "surfaceelements" = Ok els →
       traverse (fun ln => traverse Py.int (Py.split ln)) els = Ok elements →
       section_lines (mesh_lines mesh) "materials" = Ok mats →
       traverse (fun m => m0 ← Py.index m 0;
                          matnum ← Py.int m0;
                          m1 ← Py.index m 1;
                          Ok (matnum, m1)) (Py.split <$> mats)
       = Ok materials →
       "edgesegmentsgi2" ∉ mesh_lines mesh →
       read_mesh mesh = raise (ValueError (NotInList "edgesegmentsgi2"))).
Proof.
  split; [|split; [|split; [|split; [|split]]]].
  - intros keyword Hkw Hmiss. rewrite read_mesh_stages.
    apply section_lines_missing in Hmiss.
    unfold keywords in Hkw. 
    repeat (apply elem_of_cons in Hkw as [->|Hkw]); [..|by inversion Hkw];
      repeat first
        [ rewrite Hmiss; done
        | match goal with
          | |- context [mbind _ ?m] =>
              lazymatch m with
              | section_lines _ _ => destruct m as [?|?]; [done|]
              | traverse _ _ => destruct m as [?|?]; [done|]
              end; cbn [mbind result_bind]
          end ].
  - intros Hmiss. rewrite read_mesh_stages.
    by rewrite (section_lines_missing _ _ Hmiss).
  - intros pts els mats eds H1 H2 H3 H4. rewrite read_mesh_stages.
    rewrite (section_lines_block _ _ _ H1), (section_lines_block _ _ _ H2),
      (section_lines_block _ _ _ H3), (section_lines_block _ _ _ H4).
    unfold parse_mesh. cbn [mbind result_bind Ok].
    destruct (traverse _ pts); [done|]. cbn [mbind result_bind].
    destruct (traverse _ els); [done|]. cbn [mbind result_bind].
    by destruct (traverse _ (Py.split <$> mats)).
  - intros pts points Hpts Hpoints Hmiss. rewrite read_mesh_stages.
    rewrite Hpts, ok_bind, Hpoints, ok_bind.
    by rewrite (section_lines_missing _ _ Hmiss).
  - intros pts points els elements Hpts Hpoints Hels Helements Hmiss.
    rewrite read_mesh_stages.
    rewrite Hpts, ok_bind, Hpoints, ok_bind, Hels, ok_bind, Helements,
      ok_bind.
    by rewrite (section_lines_missing _ _ Hmiss).
  - intros pts points els elements mats materials Hpts Hpoints Hels
      Helements Hmats Hmaterials Hmiss.
    rewrite read_mesh_stages.
    rewrite Hpts, ok_bind, Hpoints, ok_bind, Hels, ok_bind, Helements,
      ok_bind, Hmats, ok_bind, Hmaterials, ok_bind.
    by rewrite (section_lines_missing _ _ Hmiss).
Qed.

(** ** The edge boundaries *)

(** [d[key].add(x)] keeps the keys apart, adds [x] to the set of [key] and
    leaves the other sets alone. *)
Lemma defaultdict_add_keys (d : list (Z * gset Z)) (key x : Z) :
  NoDup d.*1 →
  NoDup (Py.defaultdict_add d key x).*1
  ∧ ∀ t, t ∈ (Py.defaultdict_add d key x).*1 ↔ t = key ∨ t ∈ d.*1.
Proof.
  induction d as [|[k s] d IH]; intros Hnd.
  - split; [apply NoDup_singleton|]. intros t. simpl.
    rewrite list_elem_of_singleton. split; [by left|].
    intros [->|H]; [done|by inversion H].
  - apply NoDup_cons in Hnd as [Hk Hnd]. destruct (IH Hnd) as [IH1 IH2].
    cbn [Py.defaultdict_add]. destruct (decide (k = key)) as [->|Hne].
    + split; [by apply NoDup_cons|]. intros t. simpl.
      rewrite elem_of_cons. tauto.
    + split.
      * simpl. apply NoDup_cons. split; [|done].
        rewrite IH2. simpl in Hk. intros [?|?]; done.
      * intros t. simpl. rewrite !elem_of_cons, IH2. tauto.
Qed.

Lemma defaultdict_add_sets (d : list (Z * gset Z)) (key x t : Z) s :
  NoDup d.*1 →
  (t, s) ∈ Py.defaultdict_add d key x
  ↔ (t ≠ key ∧ (t, s) ∈ d)
    ∨ (t = key ∧ ∃ s0, s = s0 ∪ {[ x ]}
                       ∧ ((key, s0) ∈ d ∨ ((key ∉ d.*1) ∧ s0 = ∅))).
Proof.
  induction d as [|[k s1] d IH]; intros Hnd.
  - simpl. rewrite list_elem_of_singleton. split.
    + intros [= -> ->]. right. split; [done|]. exists ∅.
      split; [by rewrite (left_id_L ∅ (∪))|]. right. split; [|done].
      by inversion 1.
    + intros [[_ H]|[-> [s0 [-> [H|[_ ->]]]]]]; [by inversion H..|].
      by rewrite (left_id_L ∅ (∪)).
  - apply NoDup_cons in Hnd as [Hk Hnd]. specialize (IH Hnd).
    cbn [Py.defaultdict_add]. destruct (decide (k = key)) as [->|Hne].
    + rewrite !elem_of_cons. split.
      * intros [[= -> ->]|Hin].
        -- right. split; [done|]. exists s1. split; [done|]. left. by left.
        -- left. split; [|by right]. intros ->. apply Hk.
           apply list_elem_of_fmap. by exists (key, s).
      * intros [[Hne [[= ? ?]|Hin]]|[-> [s0 [-> [Hin|[Hnot _]]]]]];
          [done|by right| |].
        -- apply elem_of_cons in Hin as [[= ->]|Hin]; [by left|].
           destruct Hk. apply list_elem_of_fmap. by exists (key, s0).
        -- destruct Hnot. simpl. by left.
    + rewrite !elem_of_cons, IH. split.
      * intros [[= -> ->]|[[? ?]|[-> [s0 [-> [Hin|[Hnot ->]]]]]]].
        -- left. split; [done|]. by left.
        -- left. split; [done|]. by right.
        -- right. split; [done|]. exists s0. split; [done|]. left. by right.
        -- right. split; [done|]. exists ∅. split; [done|]. right.
           split; [|done]. simpl. rewrite not_elem_of_cons. done.
      * intros [[Hne' [[= -> ->]|Hin]]|[-> [s0 [-> [Hin|[Hnot ->]]]]]].
        -- by left.
        -- right. left. done.
        -- apply elem_of_cons in Hin as [[= ? ?]|Hin]; [done|].
           right. right. split; [done|]. exists s0. split; [done|]. by left.
        -- right. right. split; [done|]. exists ∅. split; [done|]. right.
           split; [|done]. simpl in Hnot. rewrite not_elem_of_cons in Hnot.
           tauto.
Qed.


Lemma add_edge_step (d : list (Z * gset Z)) (e : list string) d' :
  add_edge d e = Ok d' →
  ∃ tag,
    edge_tag e = Ok tag
    ∧ ((tag ≤ 100 ∧ d' = d)
       ∨ (100 < tag
          ∧ ∃ a b,
              edge_nodes e = Ok (a, b)
              ∧ d' = Py.defaultdict_add (Py.defaultdict_add d tag a) tag b)).
Proof.
  unfold add_edge, edge_tag, edge_nodes.
  destruct (Py.index e 0) as [?|e0]; [done|]. cbn [mbind result_bind].
  destruct (Py.int e0) as [?|tag]; [done|]. cbn [mbind result_bind].
  intros H. exists tag. split; [done|].
  destruct (Z.ltb_spec 100 tag) as [Hgt|Hle].
  - right. split; [done|].
    destruct (Py.index e 2) as [?|e2]; [done|]. cbn [mbind result_bind] in *.
    destruct (Py.int e2) as [?|a]; [done|]. cbn [mbind result_bind] in *.
    destruct (Py.index e 3) as [?|e3]; [done|]. cbn [mbind result_bind] in *.
    destruct (Py.int e3) as [?|b]; [done|]. cbn [mbind result_bind] in *.
    exists a, b. split; [done|]. by injection H.
  - left. split; [done|]. by injection H.
Qed.

Lemma edge_refers_snoc (edges : list (list string)) e (tag x : Z) :
  edge_refers (edges ++ [e]) tag x
  ↔ edge_refers edges tag x
    ∨ (edge_tag e = Ok tag
       ∧ ∃ a b, edge_nodes e = Ok (a, b) ∧ (x = a ∨ x = b)).
Proof.
  unfold edge_refers. split.
  - intros [e' [a [b [Hin [Ht [Hn Hx]]]]]].
    apply elem_of_app in Hin as [Hin|Hin%list_elem_of_singleton].
    + left. by exists e', a, b.
    + subst e'. right. split; [done|]. by exists a, b.
  - intros [[e' [a [b [Hin [Ht [Hn Hx]]]]]]|[Ht [a [b [Hn Hx]]]]].
    + exists e', a, b. split; [|done]. apply elem_of_app. by left.
    + exists e, a, b. split; [|done]. apply elem_of_app. right. by left.
Qed.

(** One more edge record keeps the dictionary right. *)
Lemma edges_held_step (edges : list (list string)) d e d' :
  edges_held edges d → add_edge d e = Ok d' → edges_held (edges ++ [e]) d'.
Proof.
  intros [Hnd [Hkeys [Hsets Hrecs]]] Hadd.
  apply add_edge_step in Hadd as [tag [Htag Hcases]].
  assert (∀ e', e' ∈ edges ++ [e] →
            ∃ tag', edge_tag e' = Ok tag'
                    ∧ (100 < tag' → ∃ a b, edge_nodes e' = Ok (a, b)))
    as Hrecs'.
  { intros e' [Hin|Hin%list_elem_of_singleton]%elem_of_app; [by apply Hrecs|].
    subst e'. exists tag. split; [done|]. intros Hgt.
    destruct Hcases as [[? _]|[_ [a [b [Hn _]]]]]; [lia|]. by exists a, b. }
  destruct Hcases as [[Hle ->]|[Hgt [a [b [Hnodes ->]]]]].
  - split; [done|]. split; [|split; [|done]].
    + intros t. rewrite Hkeys. split.
      * intros [? [e' [? ?]]]. split; [done|]. exists e'. split; [|done].
        apply elem_of_app. by left.
      * intros [? [e' [[Hin|Hin%list_elem_of_singleton]%elem_of_app Ht]]].
        -- split; [done|]. by exists e'.
        -- subst e'. rewrite Htag in Ht. injection Ht as ->. lia.
    + intros t s Hin x. rewrite (Hsets t s Hin), edge_refers_snoc.
      split; [by left|]. intros [?|[Ht _]]; [done|].
      rewrite Htag in Ht. injection Ht as ->.
      assert (t ∈ d.*1) as Hk.
      { apply list_elem_of_fmap. by exists (t, s). }
      apply Hkeys in Hk as [? _]. lia.
  - destruct (defaultdict_add_keys d tag a Hnd) as [Hnd1 Hkeys1].
    destruct (defaultdict_add_keys _ tag b Hnd1) as [Hnd2 Hkeys2].
    split; [done|]. split; [|split; [|done]].
    + intros t. rewrite Hkeys2, Hkeys1, Hkeys. split.
      * intros [->|[->|[? [e' [? ?]]]]].
        -- split; [done|]. exists e. split; [|done]. apply elem_of_app.
           right. by left.
        -- split; [done|]. exists e. split; [|done]. apply elem_of_app.
           right. by left.
        -- split; [done|]. exists e'. split; [|done]. apply elem_of_app.
           by left.
      * intros [? [e' [[Hin|Hin%list_elem_of_singleton]%elem_of_app Ht]]].
        -- right. right. split; [done|]. by exists e'.
        -- subst e'. rewrite Htag in Ht. injection Ht as ->. by left.
    + assert (∀ s0 x, (tag, s0) ∈ d ∨ ((tag ∉ d.*1) ∧ s0 = ∅) →
                x ∈ s0 ↔ edge_refers edges tag x) as Hold.
      { intros s0 x [Hin|[Hnot ->]]; [by apply Hsets|].
        split; [by intros ?%not_elem_of_empty|].
        intros [e' [_ [_ [Hin [Ht _]]]]]. destruct Hnot. apply Hkeys.
        split; [done|]. by exists e'. }
      intros t s Hin x. rewrite edge_refers_snoc.
      apply defaultdict_add_sets in Hin as
        [[Hne Hin]|[-> [s1 [-> [Hin|[Hnot _]]]]]]; [| | |done].
      * apply defaultdict_add_sets in Hin as [[_ Hin]|[? _]]; [|done|done].
        rewrite (Hsets t s Hin). split; [by left|].
        intros [?|[Ht _]]; [done|]. rewrite Htag in Ht. by injection Ht.
      * apply defaultdict_add_sets in Hin as [[? _]|[_ [s0 [-> Hs0]]]];
          [done| |done].
        rewrite !elem_of_union, !elem_of_singleton, (Hold s0 x Hs0).
        split.
        -- intros [[?| ->]| ->]; [by left|right..];
             (split; [done|]); exists a, b; split; auto.
        -- intros [?|[_ [a' [b' [Hn Hx]]]]]; [by left; left|].
           rewrite Hnodes in Hn. injection Hn as <- <-.
           destruct Hx as [->| ->]; auto.
      * destruct Hnot. apply Hkeys1. by left.
Qed.

Lemma edges_held_fold (edges done : list (list string)) d d' :
  edges_held done d → foldM add_edge d edges = Ok d' →
  edges_held (done ++ edges) d'.
Proof.
  revert done d. induction edges as [|e edges IH]; intros done d Hd Hfold.
  - simpl in Hfold. injection Hfold as <-. by rewrite app_nil_r.
  - cbn [foldM] in Hfold.
    destruct (add_edge d e) as [?|d1] eqn:Hadd; [done|].
    cbn [mbind result_bind] in Hfold.
    rewrite cons_middle, app_assoc. apply (IH _ d1); [|done].
    by apply (edges_held_step _ d).
Qed.

Lemma edges_held_nil : edges_held [] [].
Proof.
  split; [constructor|]. split; [|split].
  - intros tag. split; [by inversion 1|]. intros [_ [e [He _]]]. by inversion He.
  - intros tag s H. by inversion H.
  - intros e H. by inversion H.
Qed.

(** C4.  When [read_mesh] returns, its edge boundaries are those of the
    records of the section [edgesegmentsgi2]: every record has a tag (its
    first token) and, when the tag is over 100, two node references (its
    third and fourth tokens); the keys are distinct and are exactly the
    tags over 100 that a record carries, so a tag of 100 or less gives no
    set; the set of a key holds exactly the node references of the records
    with this tag.  On points with three coordinates and records with their
    five leading fields, [write_nodes] ends the node deck with one set
    [Nedge<tag>] per key, in the order of the dictionary, with the members
    of its set in ascending order, 16 to a line. *)
Theorem edge_boundaries_over_100 mesh points elements materials
    edgeboundaries :
  read_mesh mesh = Ok (points, elements, materials, edgeboundaries) →
  ∃ recs,
    section_lines (mesh_lines mesh) "edgesegmentsgi2" = Ok recs
    ∧ (∀ e, e ∈ Py.split <$> recs →
         ∃ tag, edge_tag e = Ok tag
                ∧ (100 < tag → ∃ a b, edge_nodes e = Ok (a, b)))
    ∧ NoDup edgeboundaries.*1
    ∧ (∀ tag, tag ∈ edgeboundaries.*1
              ↔ 100 < tag
                ∧ ∃ e, e ∈ Py.split <$> recs ∧ edge_tag e = Ok tag)
    ∧ (∀ tag s, (tag, s) ∈ edgeboundaries →
         ∀ x, x ∈ s
              ↔ ∃ e a b,
                  e ∈ Py.split <$> recs ∧ edge_tag e = Ok tag
                  ∧ edge_nodes e = Ok (a, b) ∧ (x = a ∨ x = b))
    ∧ (∀ name,
         Forall (fun p => length p = 3%nat) points →
         Forall (fun el => 5 ≤ length el)%nat elements →
         ∃ before esets,
           write_nodes name points elements materials edgeboundaries
           = Run (nodes_file name) (before ++ concat esets) (Ok tt)
           ∧ Forall2 (fun ks blk => ∃ ids cs,
                blk = Py.nl ("*NSET,NSET=Nedge" +:+ Py.str ks.1)
                      :: ((fun sub =>
                             Py.nl ("  " +:+ Py.join ", " (Py.str <$> sub)))
                            <$> cs)
                ∧ wrapped 16 ids cs
                ∧ StronglySorted Z.lt ids
                ∧ ∀ x, x ∈ ids ↔ x ∈ ks.2)
              edgeboundaries esets).
Proof.
  rewrite read_mesh_stages.
  destruct (section_lines _ "points") as [?|pts]; [done|].
  cbn [mbind result_bind].
  destruct (traverse _ pts) as [?|points']; [done|]. cbn [mbind result_bind].
  destruct (section_lines _ "surfaceelements") as [?|els]; [done|].
  cbn [mbind result_bind].
  destruct (traverse _ els) as [?|elements']; [done|].
  cbn [mbind result_bind].
  destruct (section_lines _ "materials") as [?|mats]; [done|].
  cbn [mbind result_bind].
  destruct (traverse _ (Py.split <$> mats)) as [?|materials']; [done|].
  cbn [mbind result_bind].
  destruct (section_lines _ "edgesegmentsgi2") as [?|recs]; [done|].
  cbn [mbind result_bind].
  destruct (foldM add_edge [] (Py.split <$> recs)) as [?|eb] eqn:Hfold;
    [done|].
  cbn [mbind result_bind]. intros [= -> -> -> ->].
  exists recs. split; [done|].
  destruct (edges_held_fold _ [] [] _ edges_held_nil Hfold)
    as [Hnd [Hkeys [Hsets Hrecs]]].
  rewrite app_nil_l in *.
  split; [done|]. split; [done|]. split; [done|]. split; [done|].
  intros name Hp Hel.
  destruct (write_nodes_deck name points elements materials edgeboundaries
              Hp Hel) as [records [msets [esets [Hrun [_ [_ He]]]]]].
  exists (header (nodes_file name)
            ++ Py.nl "*NODE,NSET=Nall" :: records ++ concat msets), esets.
  split.
  - rewrite Hrun. f_equal.
    by rewrite <- app_assoc, <- app_comm_cons, <- app_assoc.
  - eapply Forall2_impl; [exact He|].
    intros [k s] blk [ids [cs [-> H]]]. by exists ids, cs.
Qed.

(** ** The whole run *)

Lemma for_fails {A} (l : list A) (body : A → io unit) x :
  x ∈ l → is_ok (body x).2 = false → is_ok (for_ l body).2 = false.
Proof.
  induction 1 as [x l|x y l Hin IH]; intros Hx; rewrite for_cons.
  - destruct (body x) as [w [e|[]]]; [done|done].
  - destruct (body y) as [w [e|[]]]; [done|].
    rewrite (bind_written _ _ w tt) by done. by apply IH.
Qed.

Lemma bind_fails {A B} (m : io A) (f : A → io B) :
  is_ok m.2 = false → is_ok (m ≫= f).2 = false.
Proof. by destruct m as [w [e|a]]. Qed.

Lemma foldM_fails {A S} (f : S → A → result S) (l : list A) x s :
  x ∈ l → (∀ s', is_ok (f s' x) = false) → is_ok (foldM f s l) = false.
Proof.
  intros Hin Hx. revert s. induction Hin as [x l|x y l Hin IH]; intros s;
    cbn [foldM].
  - specialize (Hx s). by destruct (f s x).
  - destruct (f s y) as [?|s1]; [done|]. cbn [mbind result_bind].
    by apply IH.
Qed.

(** [write_nodes] raises on a point that does not have three
    coordinates. *)
Lemma write_nodes_unpack name points elements materials edge_boundaries p :
  p ∈ points → length p ≠ 3%nat →
  ∃ got,
    got ≠ 3%nat ∧
    outcome (write_nodes name points elements materials edge_boundaries)
    = raise (ValueError (Unpack 3 got)).
Proof.
  intros Hin Hp.
  destruct (points_loop_raises points 1 p Hin Hp) as [w [got [Hgot Hloop]]].
  exists got. split; [done|].
  unfold write_nodes, with_open. cbn [outcome]. rewrite !write_bind.
  cbn [snd]. by erewrite bind_raised.
Qed.

(** [write_elements] raises on a record it cannot handle. *)
Lemma write_elements_fails name elements materials el :
  el ∈ elements → ¬ element_ok el →
  is_ok (outcome (write_elements name elements materials)) = false.
Proof.
  intros Hin Hbad. unfold write_elements, with_open. cbn [outcome].
  rewrite !write_bind. cbn [snd]. apply bind_fails.
  assert (∃ n, (n, el) ∈ Py.enumerate elements 1) as [n Hn].
  { apply list_elem_of_lookup in Hin as [i Hi]. exists (1 + Z.of_nat i).
    apply PyFacts.elem_of_enumerate. by exists i. }
  apply (for_fails _ _ (n, el) Hn). cbv beta iota.
  destruct (decide (5 ≤ length el)%nat) as [Hlen|Hlen].
  - destruct el as [|f0 [|mat [|f2 [|f3 [|cnt rest]]]]]; simpl in Hlen;
      try lia.
    rewrite PyFacts.index_lookup by lia.
    change (_ !! Z.to_nat 4) with (Some cnt).
    cbv beta iota. rewrite lift_ok_bind. cbv zeta.
    destruct (Z.eqb_spec cnt 6) as [->|Hne].
    + rewrite (PyFacts.slice_from _ 5 6) by lia.
      change (take _ (drop _ _)) with (take 6 rest).
      destruct rest as [|a [|b [|c [|d [|e [|f rest]]]]]]; try done.
      destruct Hbad. split; [simpl; lia|]. intros _. simpl. lia.
    + destruct Hbad. split; [simpl; lia|]. intros [= ->]. done.
  - rewrite PyFacts.index_lookup by lia.
    rewrite (lookup_ge_None_2 el (Z.to_nat 4)) by lia. done.
Qed.

Lemma main_three fs argv0 argv1 argv2 :
  main fs [argv0; argv1; argv2]
  = match read_mesh (fs argv0) with
    | inl e => ([], inl e)
    | inr (points, elements, materials, edge_boundaries) =>
        let nodes :=
          write_nodes argv1 points elements materials edge_boundaries in
        match outcome nodes with
        | inl e => ([nodes], inl e)
        | inr _ =>
            let elems := write_elements argv2 elements materials in
            ([nodes; elems], outcome elems)
        end
    end.
Proof. reflexivity. Qed.

(** What [read_mesh] returns was read from the four sections. *)
Lemma read_mesh_tables mesh points elements materials edgeboundaries :
  read_mesh mesh = Ok (points, elements, materials, edgeboundaries) →
  ∃ pts els mats eds,
    section_lines (mesh_lines mesh) "points" = Ok pts
    ∧ traverse (fun ln => traverse Py.float (Py.split ln)) pts = Ok points
    ∧ section_lines (mesh_lines mesh) "surfaceelements" = Ok els
    ∧ traverse (fun ln => traverse Py.int (Py.split ln)) els = Ok elements
    ∧ section_lines (mesh_lines mesh) "materials" = Ok mats
    ∧ traverse (fun m => m0 ← Py.index m 0;
                         matnum ← Py.int m0;
                         m1 ← Py.index m 1;
                         Ok (matnum, m1)) (Py.split <$> mats) = Ok materials
    ∧ section_lines (mesh_lines mesh) "edgesegmentsgi2" = Ok eds
    ∧ foldM add_edge [] (Py.split <$> eds) = Ok edgeboundaries.
Proof.
  rewrite read_mesh_stages.
  destruct (section_lines _ "points") as [?|pts]; [done|].
  cbn [mbind result_bind].
  destruct (traverse _ pts) as [?|points'] eqn:H1; [done|]. cbn [mbind result_bind].
  destruct (section_lines _ "surfaceelements") as [?|els]; [done|].
  cbn [mbind result_bind].
  destruct (traverse _ els) as [?|elements'] eqn:H2; [done|].
  cbn [mbind result_bind].
  destruct (section_lines _ "materials") as [?|mats]; [done|].
  cbn [mbind result_bind].
  destruct (traverse _ (Py.split <$> mats)) as [?|materials'] eqn:H3;
    [done|].
  cbn [mbind result_bind].
  destruct (section_lines _ "edgesegmentsgi2") as [?|eds]; [done|].
  cbn [mbind result_bind].
  destruct (foldM add_edge [] (Py.split <$> eds)) as [?|eb] eqn:H4; [done|].
  cbn [mbind result_bind]. intros [= -> -> -> ->].
  exists pts, els, mats, eds. repeat split; done.
Qed.

Lemma traverse_elem_of {A B} (f : A → result B) l l' x :
  traverse f l = Ok l' → x ∈ l → ∃ y, y ∈ l' ∧ f x = Ok y.
Proof.
  intros H%traverse_ok Hin.
  apply list_elem_of_lookup in Hin as [i Hi].
  destruct (Forall2_lookup_l _ _ _ _ _ H Hi) as [y [Hy Hxy]].
  exists y. split; [|done]. by eapply list_elem_of_lookup_2.
Qed.

Lemma traverse_length {A B} (f : A → result B) l l' :
  traverse f l = Ok l' → length l' = length l.
Proof. intros H%traverse_ok. symmetry. by eapply Forall2_length. Qed.

Lemma traverse_lookup {A B} (f : A → result B) l l' i x :
  traverse f l = Ok l' → l !! i = Some x → ∃ y, l' !! i = Some y ∧ f x = Ok y.
Proof.
  intros H%traverse_ok Hi.
  destruct (Forall2_lookup_l _ _ _ _ _ H Hi) as [y [Hy Hxy]]. by exists y.
Qed.

(** C7, without the element lines that [short_element_line_accepted]
    shows to be accepted.  The run ends with an exception when the mesh has
    a points line that does not hold three values, an element line with
    fewer than five fields, an element line whose fifth field is 6 with
    fewer than six node ids after it, a materials line with fewer than two
    tokens, an empty edge line, or an edge line with a tag over 100 and
    fewer than four tokens.  For a points line the exception is the
    [ValueError] of the unpacking in [write_nodes]: the node deck is opened,
    the element deck is not. *)
Theorem wrong_token_count fs argv0 argv1 argv2 :
  (∀ recs ln,
     section_lines (mesh_lines (fs argv0)) "points" = Ok recs →
     ln ∈ recs → length (Py.split ln) ≠ 3%nat →
     is_ok (main fs [argv0; argv1; argv2]).2 = false)
  ∧ (∀ points elements materials edgeboundaries p,
       read_mesh (fs argv0)
       = Ok (points, elements, materials, edgeboundaries) →
       p ∈ points → length p ≠ 3%nat →
       ∃ got,
         got ≠ 3%nat ∧
         main fs [argv0; argv1; argv2]
         = ([write_nodes argv1 points elements materials edgeboundaries],
            raise (ValueError (Unpack 3 got))))
  ∧ (∀ recs ln,
       section_lines (mesh_lines (fs argv0)) "surfaceelements" = Ok recs →
       ln ∈ recs → (length (Py.split ln) < 5)%nat →
       is_ok (main fs [argv0; argv1; argv2]).2 = false)
  ∧ (∀ recs ln tok,
       section_lines (mesh_lines (fs argv0)) "surfaceelements" = Ok recs →
       ln ∈ recs → Py.split ln !! 4%nat = Some tok → Py.int tok = Ok 6 →
       (length (Py.split ln) < 11)%nat →
       is_ok (main fs [argv0; argv1; argv2]).2 = false)
  ∧ (∀ recs ln,
       section_lines (mesh_lines (fs argv0)) "materials" = Ok recs →
       ln ∈ recs → (length (Py.split ln) < 2)%nat →
       is_ok (main fs [argv0; argv1; argv2]).2 = false)
  ∧ (∀ recs ln,
       section_lines (mesh_lines (fs argv0)) "edgesegmentsgi2" = Ok recs →
       ln ∈ recs → Py.split ln = [] →
       is_ok (main fs [argv0; argv1; argv2]).2 = false)
  ∧ (∀ recs ln tag,
       section_lines (mesh_lines (fs argv0)) "edgesegmentsgi2" = Ok recs →
       ln ∈ recs → edge_tag (Py.split ln) = Ok tag → 100 < tag →
       (length (Py.split ln) < 4)%nat →
       is_ok (main fs [argv0; argv1; argv2]).2 = false).
Proof.
  assert (∀ points elements materials edgeboundaries p,
       read_mesh (fs argv0)
       = Ok (points, elements, materials, edgeboundaries) →
       p ∈ points → length p ≠ 3%nat →
       ∃ got,
         got ≠ 3%nat ∧
         main fs [argv0; argv1; argv2]
         = ([write_nodes argv1 points elements materials edgeboundaries],
            raise (ValueError (Unpack 3 got)))) as Hunpack.
  { intros points elements materials eb p Hread Hin Hp.
    destruct (write_nodes_unpack argv1 points elements materials eb p Hin Hp)
      as [got [Hgot Hout]].
    exists got. split; [done|]. rewrite main_three. unfold Ok in Hread.
    rewrite Hread. cbv zeta. by rewrite Hout. }
  assert (∀ points elements materials eb el,
       read_mesh (fs argv0) = Ok (points, elements, materials, eb) →
       el ∈ elements → ¬ element_ok el →
       is_ok (main fs [argv0; argv1; argv2]).2 = false) as Hbad.
  { intros points elements materials eb el Hread Hin Hel.
    rewrite main_three. unfold Ok in Hread. rewrite Hread. cbv zeta.
    destruct (outcome (write_nodes _ _ _ _ _)); [done|].
    cbn [snd]. by eapply write_elements_fails. }
  assert (∀ e, read_mesh (fs argv0) = inl e →
               is_ok (main fs [argv0; argv1; argv2]).2 = false) as Hfail.
  { intros e Hread. rewrite main_three. by rewrite Hread. }
  split; [|split; [exact Hunpack|split; [|split; [|split; [|split]]]]].
  - intros recs ln Hsec Hin Hlen.
    destruct (read_mesh (fs argv0)) as [e|[[[points elements] materials] eb]]
      eqn:Hread; [by eapply Hfail|].
    destruct (read_mesh_tables _ _ _ _ _ Hread)
      as (pts & els & mats & eds & H1 & H2 & _).
    rewrite Hsec in H1. injection H1 as <-.
    destruct (traverse_elem_of _ _ _ _ H2 Hin) as [p [Hp Hparse]].
    apply traverse_length in Hparse.
    destruct (Hunpack points elements materials eb p eq_refl Hp)
      as [got [_ ->]]; [lia|done].
  - intros recs ln Hsec Hin Hlen.
    destruct (read_mesh (fs argv0)) as [e|[[[points elements] materials] eb]]
      eqn:Hread; [by eapply Hfail|].
    destruct (read_mesh_tables _ _ _ _ _ Hread)
      as (pts & els & mats & eds & _ & _ & H1 & H2 & _).
    rewrite Hsec in H1. injection H1 as <-.
    destruct (traverse_elem_of _ _ _ _ H2 Hin) as [el [Hel Hparse]].
    apply traverse_length in Hparse.
    apply (Hbad points elements materials eb el eq_refl Hel).
    intros [? _]. lia.
  - intros recs ln tok Hsec Hin Htok Hint Hlen.
    destruct (read_mesh (fs argv0)) as [e|[[[points elements] materials] eb]]
      eqn:Hread; [by eapply Hfail|].
    destruct (read_mesh_tables _ _ _ _ _ Hread)
      as (pts & els & mats & eds & _ & _ & H1 & H2 & _).
    rewrite Hsec in H1. injection H1 as <-.
    destruct (traverse_elem_of _ _ _ _ H2 Hin) as [el [Hel Hparse]].
    destruct (traverse_lookup _ _ _ _ _ Hparse Htok) as [cnt [Hcnt Hint']].
    rewrite Hint in Hint'. injection Hint' as <-.
    apply traverse_length in Hparse.
    apply (Hbad points elements materials eb el eq_refl Hel).
    intros [_ H6]. specialize (H6 Hcnt). lia.
  - intros recs ln Hsec Hin Hlen.
    destruct (read_mesh (fs argv0)) as [e|[[[points elements] materials] eb]]
      eqn:Hread; [by eapply Hfail|].
    destruct (read_mesh_tables _ _ _ _ _ Hread)
      as (pts & els & mats & eds & _ & _ & _ & _ & H1 & H2 & _).
    rewrite Hsec in H1. injection H1 as <-.
    assert (Py.split ln ∈ Py.split <$> recs) as Hin'.
    { apply list_elem_of_fmap. by exists ln. }
    destruct (traverse_elem_of _ _ _ _ H2 Hin') as [m [_ Hparse]].
    destruct (Py.split ln) as [|m0 [|m1 toks]]; simpl in Hlen; [done| |lia].
    rewrite (PyFacts.index_lookup _ 0) in Hparse by lia.
    change ([m0] !! Z.to_nat 0) with (Some m0) in Hparse.
    cbn [mbind result_bind Ok] in Hparse.
    destruct (Py.int m0); [done|]. done.
  - intros recs ln Hsec Hin Hempty.
    destruct (read_mesh (fs argv0)) as [e|[[[points elements] materials] eb]]
      eqn:Hread; [by eapply Hfail|].
    destruct (read_mesh_tables _ _ _ _ _ Hread)
      as (pts & els & mats & eds & _ & _ & _ & _ & _ & _ & H1 & H2).
    rewrite Hsec in H1. injection H1 as <-.
    destruct (edges_held_fold _ [] [] _ edges_held_nil H2)
      as [_ [_ [_ Hrecs]]].
    destruct (Hrecs (Py.split ln)) as [tag [Htag _]].
    { rewrite app_nil_l. apply list_elem_of_fmap. by exists ln. }
    by rewrite Hempty in Htag.
  - intros recs ln tag Hsec Hin Htag Hgt Hlen.
    destruct (read_mesh (fs argv0)) as [e|[[[points elements] materials] eb]]
      eqn:Hread; [by eapply Hfail|].
    destruct (read_mesh_tables _ _ _ _ _ Hread)
      as (pts & els & mats & eds & _ & _ & _ & _ & _ & _ & H1 & H2).
    rewrite Hsec in H1. injection H1 as <-.
    destruct (edges_held_fold _ [] [] _ edges_held_nil H2)
      as [_ [_ [_ Hrecs]]].
    destruct (Hrecs (Py.split ln)) as [tag' [Htag' Hnodes]].
    { rewrite app_nil_l. apply list_elem_of_fmap. by exists ln. }
    rewrite Htag in Htag'. injection Htag' as <-.
    destruct (Hnodes Hgt) as [a [b Hab]]. unfold edge_nodes in Hab.
    destruct (Py.index (Py.split ln) 2) as [?|e2]; [done|].
    cbn [mbind result_bind] in Hab.
    destruct (Py.int e2) as [?|a']; [done|]. cbn [mbind result_bind] in Hab.
    rewrite (PyFacts.index_lookup _ 3) in Hab by lia.
    rewrite (lookup_ge_None_2 _ (Z.to_nat 3)) in Hab by lia. done.
Qed.

(** ** Examples *)

(** The demonstration mesh is read into the demonstration tables. *)
Lemma read_demo_mesh :
  read_mesh demo_mesh
  = Ok (demo_points, demo_elements, demo_materials, demo_edge_boundaries).
Proof. vm_compute. reflexivity. Qed.

Lemma demo_points_ok : Forall (fun p => length p = 3%nat) demo_points.
Proof. repeat constructor. Defined.

Lemma demo_elements_ok : Forall element_ok demo_elements.
Proof.
  apply Forall_cons_2; [|apply Forall_cons_2; [|apply Forall_nil_2]].
  - split; [simpl; lia|]. intros [=].
  - split; [simpl; lia|]. intros _. simpl. lia.
Defined.

Lemma demo_elements_fields :
  Forall (fun el => 5 ≤ length el)%nat demo_elements.
Proof. repeat constructor; simpl; lia. Defined.

Lemma demo_elements_counts :
  Forall (fun el => ∀ cnt, el !! 4%nat = Some cnt → -5 ≤ cnt) demo_elements.
Proof. repeat constructor; intros cnt [= <-]; lia. Defined.

(** C1 at the demonstration mesh: the second record, with six nodes, gives
    the one line of the element block. *)
Lemma write_elements_connectivity_witness :
  Forall element_ok demo_elements
  ∧ ∃ sets,
      write_elements "els.inp" demo_elements demo_materials
      = Run "els.inp"
          (header "els.inp"
             ++ Py.nl "*ELEMENT, TYPE=S6, ELSET=Eall"
             :: [Py.nl "2, 1, 2, 3, 6, 4, 5"]
             ++ concat sets)
          (Ok tt)
      ∧ Forall2 (fun m blk => elset_block m.2 (elnums demo_elements m.1) blk)
                demo_materials sets.
Proof.
  split; [exact demo_elements_ok|].
  destruct (write_elements_connectivity "els.inp" demo_elements
              demo_materials demo_elements_ok) as [sets [Hrun [Hsets _]]].
  exists sets. split; [exact Hrun | exact Hsets].
Defined.

(** C3 at the demonstration mesh. *)
Lemma write_elements_material_sets_witness :
  Forall element_ok demo_elements
  ∧ ∃ block sets,
      write_elements "els.inp" demo_elements demo_materials
      = Run "els.inp"
          (header "els.inp" ++ Py.nl "*ELEMENT, TYPE=S6, ELSET=Eall"
             :: block ++ concat sets)
          (Ok tt)
      ∧ Forall2 (fun m blk => ∃ nums cs,
           blk = Py.nl ("*ELSET,ELSET=E" +:+ m.2)
                 :: ((fun sub =>
                        Py.nl (Py.join ", " (Py.str <$> sub) +:+ ","))
                       <$> cs)
           ∧ wrapped 16 nums cs
           ∧ StronglySorted Z.lt nums
           ∧ ∀ n, n ∈ nums
                  ↔ ∃ (i : nat) el,
                      n = Z.of_nat i + 1 ∧ demo_elements !! i = Some el
                      ∧ el !! 1%nat = Some m.1)
         demo_materials sets.
Proof.
  split; [exact demo_elements_ok|].
  exact (write_elements_material_sets "els.inp" demo_elements demo_materials
           demo_elements_ok).
Defined.

(** C2 refuted as stated: the record [1 1 0 0 -6 7 8] has the node count
    -6, so its fields 6 to [5 + node count] are none, yet [write_nodes]
    puts 7 in the set of its material, because the end of the slice
    [e[5:5+e[4]]] is then counted from the end of the record. *)
Lemma write_nodes_negative_count :
  traverse Py.int (Py.split "1 1 0 0 -6 7 8") = Ok [1; 1; 0; 0; -6; 7; 8]
  ∧ write_nodes "nodes.inp" [] [[1; 1; 0; 0; -6; 7; 8]] [(1, "steel")] []
    = Run "nodes.inp"
        (header "nodes.inp"
           ++ [Py.nl "*NODE,NSET=Nall"; Py.nl "*NSET,NSET=Nsteel";
               Py.nl "  7"])
        (Ok tt)
  ∧ fields_between [1; 1; 0; 0; -6; 7; 8] 6 (5 + -6) = [].
Proof. vm_compute. repeat split. Qed.

(** C2 at the demonstration mesh. *)
Lemma write_nodes_material_sets_witness :
  Forall (fun p => length p = 3%nat) demo_points
  ∧ Forall (fun el => 5 ≤ length el)%nat demo_elements
  ∧ Forall (fun el => ∀ cnt, el !! 4%nat = Some cnt → -5 ≤ cnt)
           demo_elements
  ∧ ∃ records msets esets,
      write_nodes "nodes" demo_points demo_elements demo_materials
        demo_edge_boundaries
      = Run (nodes_file "nodes")
          (header (nodes_file "nodes")
             ++ Py.nl "*NODE,NSET=Nall" :: records
             ++ concat msets ++ concat esets)
          (Ok tt)
      ∧ length records = length demo_points
      ∧ Forall2 (fun m blk => ∃ ids cs,
           blk = Py.nl ("*NSET,NSET=N" +:+ m.2)
                 :: ((fun sub =>
                        Py.nl ("  " +:+ Py.join ", " (Py.str <$> sub)))
                       <$> cs)
           ∧ wrapped 16 ids cs
           ∧ StronglySorted Z.lt ids
           ∧ ∀ x, x ∈ ids
                  ↔ ∃ el cnt,
                      el ∈ demo_elements ∧ el !! 1%nat = Some m.1
                      ∧ el !! 4%nat = Some cnt
                      ∧ x ∈ fields_between el 6 (5 + cnt))
         demo_materials msets.
Proof.
  split; [exact demo_points_ok|]. split; [exact demo_elements_fields|].
  split; [exact demo_elements_counts|].
  exact (write_nodes_material_sets "nodes" demo_points demo_elements
           demo_materials demo_edge_boundaries demo_points_ok
           demo_elements_fields demo_elements_counts).
Defined.

(** C4 at the demonstration mesh. *)
Lemma edge_boundaries_over_100_witness :
  read_mesh demo_mesh
  = Ok (demo_points, demo_elements, demo_materials, demo_edge_boundaries)
  ∧ ∃ recs,
      section_lines (mesh_lines demo_mesh) "edgesegmentsgi2" = Ok recs
      ∧ NoDup demo_edge_boundaries.*1
      ∧ (∀ tag, tag ∈ demo_edge_boundaries.*1
                ↔ 100 < tag
                  ∧ ∃ e, e ∈ Py.split <$> recs ∧ edge_tag e = Ok tag)
      ∧ (∀ tag s, (tag, s) ∈ demo_edge_boundaries →
           ∀ x, x ∈ s
                ↔ ∃ e a b,
                    e ∈ Py.split <$> recs ∧ edge_tag e = Ok tag
                    ∧ edge_nodes e = Ok (a, b) ∧ (x = a ∨ x = b)).
Proof.
  split; [exact read_demo_mesh|].
  destruct (edge_boundaries_over_100 demo_mesh demo_points demo_elements
              demo_materials demo_edge_boundaries read_demo_mesh)
    as [recs [Hsec [_ [Hnd [Hkeys [Hsets _]]]]]].
  exists recs. split; [exact Hsec|]. split; [exact Hnd|].
  split; [exact Hkeys | exact Hsets].
Defined.

(** C5 refuted as stated: an empty line of the file stays among the lines
    that the sections are looked up in. *)
Lemma mesh_lines_keeps_empty :
  mesh_lines "points

# no point
0
" = ["points"; ""; "0"].
Proof. vm_compute. reflexivity. Qed.

(** C6 refuted as stated: with the four sections in the opposite order and
    the keyword [points] twice, [read_mesh] returns what it returns for the
    demonstration mesh. *)
Lemma read_mesh_any_order :
  is_ok (read_mesh shuffled_mesh) = true
  ∧ read_mesh shuffled_mesh = read_mesh demo_mesh.
Proof. vm_compute. split; reflexivity. Qed.

(** C7 refuted as stated: an element line that announces three node ids and
    holds two is accepted, and both decks are written. *)
Lemma short_element_line_accepted :
  main (fun _ => short_element_mesh) ["a.mesh"; "nodes.inp"; "els.inp"]
  = ([Run "nodes.inp"
        (header "nodes.inp"
           ++ [Py.nl "*NODE,NSET=Nall"; Py.nl "1, 0.00, 0.00, 0.00";
               Py.nl "*NSET,NSET=Nsteel"; Py.nl "  1, 2"])
        (Ok tt);
      Run "els.inp"
        (header "els.inp"
           ++ [Py.nl "*ELEMENT, TYPE=S6, ELSET=Eall";
               Py.nl "*ELSET,ELSET=Esteel"; Py.nl "1,"])
        (Ok tt)],
     Ok tt).
Proof. vm_compute. reflexivity. Qed.

(** C9 refuted as stated: the coordinate [inf], which [float] reads, is
    written as [inf], without decimal digits. *)
Lemma write_nodes_infinite_coordinate :
  traverse Py.float (Py.split "inf 0 0")
  = Ok [S754_infinity false; S754_zero false; S754_zero false]
  ∧ write_nodes "nodes.inp"
      [[S754_infinity false; S754_zero false; S754_zero false]] [] [] []
    = Run "nodes.inp"
        (header "nodes.inp"
           ++ [Py.nl "*NODE,NSET=Nall"; Py.nl "1, inf, 0.00, 0.00"])
        (Ok tt)
  ∧ has_two_decimals (Py.format_2f (S754_infinity false)) = false.
Proof. vm_compute. repeat split. Qed.

(** C9 at the demonstration mesh. *)
Lemma write_nodes_coordinates_witness :
  Forall (fun p => length p = 3%nat) demo_points
  ∧ ∃ records rest,
      written (write_nodes "nodes" demo_points demo_elements demo_materials
                 demo_edge_boundaries)
      = header (nodes_file "nodes")
          ++ Py.nl "*NODE,NSET=Nall" :: records ++ rest
      ∧ length records = length demo_points
      ∧ (∀ (i : nat) x y z,
           demo_points !! i = Some [x; y; z] →
           records !! i
           = Some (Py.nl (Py.str (Z.of_nat i + 1) +:+ ", "
                          +:+ Py.format_2f x +:+ ", " +:+ Py.format_2f y
                          +:+ ", " +:+ Py.format_2f z)))
      ∧ (rest = []
         ∨ ∃ label rest', rest = Py.nl ("*NSET,NSET=N" +:+ label) :: rest')
      ∧ (∀ x, is_finite x = true →
              has_two_decimals (Py.format_2f x) = true).
Proof.
  split; [exact demo_points_ok|].
  exact (write_nodes_coordinates "nodes" demo_points demo_elements
           demo_materials demo_edge_boundaries demo_points_ok).
Defined.

(** C5 at a file with an empty line and a comment. *)
Lemma mesh_lines_stripped_no_comments_witness :
  "" ∈ Py.strip <$> Py.readlines "points

# no point
0
"
  ∧ "" ∈ mesh_lines "points

# no point
0
".
Proof.
  assert ("" ∈ Py.strip <$> Py.readlines "points

# no point
0
") as Hin.
  { vm_compute. right. left. }
  split; [exact Hin|].
  exact (proj1 (proj2 (proj2 (proj2 (mesh_lines_stripped_no_comments _))))
           Hin).
Defined.

(** C6 at the mesh with its sections in the opposite order, at a file
    without the keyword [points], and at a file that ends after its points
    section. *)
Lemma read_mesh_sections_witness :
  block (mesh_lines shuffled_mesh) "points" ["0 0 0"; "1 0 0"; "0 1 0"]
  ∧ block (mesh_lines shuffled_mesh) "surfaceelements"
      ["1 1 0 0 3 1 2 3"; "2 1 0 0 6 1 2 3 4 5 6"]
  ∧ block (mesh_lines shuffled_mesh) "materials" ["1 steel"]
  ∧ block (mesh_lines shuffled_mesh) "edgesegmentsgi2"
      ["101 0 1 2"; "5 0 2 3"; "101 0 2 3"]
  ∧ read_mesh shuffled_mesh
    = parse_mesh ["0 0 0"; "1 0 0"; "0 1 0"]
        ["1 1 0 0 3 1 2 3"; "2 1 0 0 6 1 2 3 4 5 6"] ["1 steel"]
        ["101 0 1 2"; "5 0 2 3"; "101 0 2 3"]
  ∧ ("points" ∉ mesh_lines "materials")
  ∧ read_mesh "materials" = raise (ValueError (NotInList "points"))
  ∧ section_lines (mesh_lines (Py.nl "points" +:+ Py.nl "0")) "points"
    = Ok []
  ∧ ("surfaceelements" ∉ mesh_lines (Py.nl "points" +:+ Py.nl "0"))
  ∧ read_mesh (Py.nl "points" +:+ Py.nl "0")
    = raise (ValueError (NotInList "surfaceelements")).
Proof.
  assert (block (mesh_lines shuffled_mesh) "points"
            ["0 0 0"; "1 0 0"; "0 1 0"]) as H1.
  { exists ["edgesegmentsgi2"; "3"; "101 0 1 2"; "5 0 2 3"; "101 0 2 3";
            "materials"; "1"; "1 steel"; "surfaceelements"; "2";
            "1 1 0 0 3 1 2 3"; "2 1 0 0 6 1 2 3 4 5 6"], "3", ["points"].
    split; [by vm_compute|]. split; [|by vm_compute].
    rewrite !not_elem_of_cons. repeat split; try discriminate.
    apply not_elem_of_nil. }
  assert (block (mesh_lines shuffled_mesh) "surfaceelements"
            ["1 1 0 0 3 1 2 3"; "2 1 0 0 6 1 2 3 4 5 6"]) as H2.
  { exists ["edgesegmentsgi2"; "3"; "101 0 1 2"; "5 0 2 3"; "101 0 2 3";
            "materials"; "1"; "1 steel"], "2",
           ["points"; "3"; "0 0 0"; "1 0 0"; "0 1 0"; "points"].
    split; [by vm_compute|]. split; [|by vm_compute].
    rewrite !not_elem_of_cons. repeat split; try discriminate.
    apply not_elem_of_nil. }
  assert (block (mesh_lines shuffled_mesh) "materials" ["1 steel"]) as H3.
  { exists ["edgesegmentsgi2"; "3"; "101 0 1 2"; "5 0 2 3"; "101 0 2 3"],
           "1",
           ["surfaceelements"; "2"; "1 1 0 0 3 1 2 3";
            "2 1 0 0 6 1 2 3 4 5 6"; "points"; "3"; "0 0 0"; "1 0 0";
            "0 1 0"; "points"].
    split; [by vm_compute|]. split; [|by vm_compute].
    rewrite !not_elem_of_cons. repeat split; try discriminate.
    apply not_elem_of_nil. }
  assert (block (mesh_lines shuffled_mesh) "edgesegmentsgi2"
            ["101 0 1 2"; "5 0 2 3"; "101 0 2 3"]) as H4.
  { exists [], "3",
           ["materials"; "1"; "1 steel"; "surfaceelements"; "2";
            "1 1 0 0 3 1 2 3"; "2 1 0 0 6 1 2 3 4 5 6"; "points"; "3";
            "0 0 0"; "1 0 0"; "0 1 0"; "points"].
    split; [by vm_compute|]. split; [apply not_elem_of_nil|by vm_compute]. }
  assert ("points" ∉ mesh_lines "materials") as H5.
  { replace (mesh_lines "materials") with ["materials"] by (by vm_compute).
    rewrite not_elem_of_cons. split; [discriminate|].
    apply not_elem_of_nil. }
  assert (section_lines (mesh_lines (Py.nl "points" +:+ Py.nl "0")) "points"
          = Ok []) as H6 by (vm_compute; reflexivity).
  assert ("surfaceelements" ∉ mesh_lines (Py.nl "points" +:+ Py.nl "0"))
    as H7.
  { replace (mesh_lines (Py.nl "points" +:+ Py.nl "0")) with ["points"; "0"]
      by (by vm_compute).
    rewrite !not_elem_of_cons. repeat split; try discriminate.
    apply not_elem_of_nil. }
  split; [exact H1|]. split; [exact H2|]. split; [exact H3|].
  split; [exact H4|]. split; [|split; [exact H5|split]].
  - exact (proj1 (proj2 (proj2 (read_mesh_sections shuffled_mesh))) _ _ _ _
             H1 H2 H3 H4).
  - exact (proj1 (proj2 (read_mesh_sections "materials")) H5).
  - split; [exact H6|]. split; [exact H7|].
    exact (proj1 (proj2 (proj2 (proj2
             (read_mesh_sections (Py.nl "points" +:+ Py.nl "0")))))
             [] [] H6 eq_refl H7).
Defined.

(** C7 at a mesh whose second points line holds two values. *)
Lemma wrong_token_count_witness :
  section_lines (mesh_lines short_point_mesh) "points" = Ok ["0 0 0"; "1 0"]
  ∧ "1 0" ∈ ["0 0 0"; "1 0"]
  ∧ length (Py.split "1 0") ≠ 3%nat
  ∧ is_ok (main (fun _ => short_point_mesh)
             ["a.mesh"; "nodes.inp"; "els.inp"]).2 = false.
Proof.
  assert (section_lines (mesh_lines short_point_mesh) "points"
          = Ok ["0 0 0"; "1 0"]) as Hsec by (by vm_compute).
  assert ("1 0" ∈ ["0 0 0"; "1 0"]) as Hin by (right; left).
  assert (length (Py.split "1 0") ≠ 3%nat) as Hlen by (vm_compute; lia).
  split; [exact Hsec|]. split; [exact Hin|]. split; [exact Hlen|].
  exact (proj1 (wrong_token_count (fun _ => short_point_mesh) "a.mesh"
                  "nodes.inp" "els.inp") _ _ Hsec Hin Hlen).
Defined.

(** C10 at a name that ends in [.inp] and at one that does not. *)
Lemma output_file_names_witness :
  (∃ stem, "deck.inp" = stem +:+ ".inp")
  ∧ file (write_nodes "deck.inp" demo_points demo_elements demo_materials
            demo_edge_boundaries) = "deck.inp"
  ∧ (¬ ∃ stem, "deck" = stem +:+ ".inp")
  ∧ file (write_nodes "deck" demo_points demo_elements demo_materials
            demo_edge_boundaries) = "deck" +:+ ".inp"
  ∧ file (write_elements "deck" demo_elements demo_materials) = "deck".
Proof.
  assert (∃ stem, "deck.inp" = stem +:+ ".inp") as Hyes by (by exists "deck").
  assert (¬ ∃ stem, "deck" = stem +:+ ".inp") as Hno.
  { intros H%StrFacts.endswith_spec. vm_compute in H. discriminate. }
  split; [exact Hyes|]. split; [|split; [exact Hno|split]].
  - exact (proj1 (proj2 (output_file_names "deck.inp" demo_points
                           demo_elements demo_materials
                           demo_edge_boundaries)) Hyes).
  - exact (proj1 (proj2 (proj2 (output_file_names "deck" demo_points
                                  demo_elements demo_materials
                                  demo_edge_boundaries))) Hno).
  - exact (proj1 (proj2 (proj2 (proj2 (proj2
             (output_file_names "deck" demo_points demo_elements
                demo_materials demo_edge_boundaries)))))).
Defined.
(** ** Further properties of [chunks] *)

(** X1. [chunks] for any count: a count below 1 raises [ValueError]; for a
    count of at least 1 the chunks give back the sequence in order, there
    are [ceil(len / count)] of them, none is empty or longer than [count],
    and all but the last hold exactly [count] items. *)
Theorem chunks_any_count {A} (sequence : list A) (count : Z) :
  (count < 1 → chunks sequence count = raise (ValueError BadCount))
  ∧ (1 ≤ count →
     ∃ cs,
       chunks sequence count = Ok cs
       ∧ concat cs = sequence
       ∧ Py.len cs = (Py.len sequence + count - 1) / count
       ∧ ∀ (j : nat) ch,
           cs !! j = Some ch →
           0 < Py.len ch ≤ count
           ∧ ((S j < length cs)%nat → Py.len ch = count)).
Proof.
  split.
  - intros Hc. unfold chunks. by destruct (Z.ltb_spec count 1); [|lia].
  - intros Hc. destruct (chunks_wrapped sequence count Hc) as [cs [Hcs Hw]].
    exists cs. split; [done|].
    pose proof (wrapped_length _ _ _ Hw) as Hlen.
    destruct Hw as [Hcat Hall]. split; [done|]. unfold Py.len. split.
    + assert (count * (Z.of_nat (length cs) - 1) < Z.of_nat (length sequence)
              ≤ count * Z.of_nat (length cs)) as Hceil.
      { destruct Hlen as [[? ?]|[-> ->]]; simpl; nia. }
      apply (Z.div_unique _ count _
        (Z.of_nat (length sequence) + count - 1
         - count * Z.of_nat (length cs))); lia.
    + intros j ch Hj. destruct (Hall j ch Hj) as [? Hfull]. split; [lia|].
      intros Hnext. rewrite (Hfull Hnext). lia.
Qed.
(** ** How [write_elements] ends *)

Lemma Forall_or_first {A} (P : A → Prop) `{∀ x, Decision (P x)}
    (l : list A) :
  Forall P l
  ∨ ∃ l1 x l2, l = l1 ++ x :: l2 ∧ Forall P l1 ∧ ¬ P x.
Proof.
  induction l as [|x l IH]; [by left|].
  destruct (decide (P x)) as [Hx|Hx].
  - destruct IH as [IH|(l1 & y & l2 & -> & H1 & Hy)].
    + left. by constructor.
    + right. exists (x :: l1), y, l2. split; [done|].
      split; [by constructor|done].
  - right. by exists [], x, l.
Qed.

Lemma enumerate_app {A} (l1 l2 : list A) (start : Z) :
  Py.enumerate (l1 ++ l2) start
  = Py.enumerate l1 start ++ Py.enumerate l2 (start + Py.len l1).
Proof.
  revert start. induction l1 as [|x l1 IH]; intros start; simpl.
  - unfold Py.len. simpl. by rewrite Z.add_0_r.
  - rewrite IH. do 3 f_equal. unfold Py.len. simpl length. lia.
Qed.

(** The body of the first loop of [write_elements] on a record that is not
    [element_ok]: nothing is written and [IndexError] is raised. *)
Lemma connectivity_body_raises (n : Z) (el : list Z) :
  ¬ element_ok el →
  (cnt ← lift (Py.index el 4);
   let nodes := Py.slice el 5 (5 + cnt) in
   if cnt =? 6 then
     n0 ← lift (Py.index nodes 0);
     n1 ← lift (Py.index nodes 1);
     n2 ← lift (Py.index nodes 2);
     n5 ← lift (Py.index nodes 5);
     n3 ← lift (Py.index nodes 3);
     n4 ← lift (Py.index nodes 4);
     let nodes := [n; n0; n1; n2; n5; n3; n4] in
     write (Py.nl (Py.join ", " (Py.str <$> nodes)))
   else mret tt) = ([], raise IndexError).
Proof.
  intros Hbad.
  destruct (decide (5 ≤ length el)%nat) as [Hlen|Hlen].
  - destruct el as [|f0 [|mat [|f2 [|f3 [|cnt rest]]]]]; simpl in Hlen;
      try lia.
    rewrite PyFacts.index_lookup by lia.
    change (_ !! Z.to_nat 4) with (Some cnt).
    cbv beta iota. rewrite lift_ok_bind. cbv zeta.
    destruct (Z.eqb_spec cnt 6) as [->|Hne].
    + rewrite (PyFacts.slice_from _ 5 6) by lia.
      change (take _ (drop _ _)) with (take 6 rest).
      destruct rest as [|a [|b [|c [|d [|e [|f rest]]]]]]; try done.
      destruct Hbad. split; [simpl; lia|]. intros _. simpl. lia.
    + destruct Hbad. split; [simpl; lia|]. intros [= ->]. done.
  - rewrite PyFacts.index_lookup by lia.
    rewrite (lookup_ge_None_2 el (Z.to_nat 4)) by lia. done.
Qed.

Lemma elements_loop_first_bad (good : list (list Z)) bad rest :
  Forall element_ok good → ¬ element_ok bad →
  for_ (Py.enumerate (good ++ bad :: rest) 1) (fun '(n, e) =>
    cnt ← lift (Py.index e 4);
    let nodes := Py.slice e 5 (5 + cnt) in
    if cnt =? 6 then
      n0 ← lift (Py.index nodes 0);
      n1 ← lift (Py.index nodes 1);
      n2 ← lift (Py.index nodes 2);
      n5 ← lift (Py.index nodes 5);
      n3 ← lift (Py.index nodes 3);
      n4 ← lift (Py.index nodes 4);
      let nodes := [n; n0; n1; n2; n5; n3; n4] in
      write (Py.nl (Py.join ", " (Py.str <$> nodes)))
    else mret tt)
  = (concat ((fun ne => connectivity ne.1 ne.2) <$> Py.enumerate good 1),
     raise IndexError).
Proof.
  intros Hgood Hbad. rewrite enumerate_app. cbn [Py.enumerate].
  erewrite (for_raised _ _ _ _ (fun ne => connectivity ne.1 ne.2) []).
  - by rewrite app_nil_r.
  - intros [n el] Hin. apply connectivity_body.
    apply PyFacts.elem_of_enumerate in Hin as [i [_ Hi]].
    eapply Forall_lookup_1; eauto.
  - by apply connectivity_body_raises.
Qed.

(** X2. [write_elements] ends normally exactly when every record is
    [element_ok] (five leading fields and, when the fifth is 6, six node ids
    after them); otherwise it raises [IndexError], and nothing else. *)
Theorem write_elements_outcome name elements materials :
  (outcome (write_elements name elements materials) = Ok tt
   ↔ Forall element_ok elements)
  ∧ (¬ Forall element_ok elements →
     outcome (write_elements name elements materials) = raise IndexError).
Proof.
  assert (¬ Forall element_ok elements →
          outcome (write_elements name elements materials)
          = raise IndexError) as Hraise.
  { intros Hnot.
    destruct (Forall_or_first
      (fun el => (5 ≤ length el)%nat
                 ∧ (el !! 4%nat = Some 6 → (11 ≤ length el)%nat)) elements)
      as [Hall|(good & bad & rest & -> & Hgood & Hbad)]; [done|].
    unfold write_elements, with_open. rewrite !write_bind. cbn [outcome snd].
    by erewrite bind_raised; [|by apply elements_loop_first_bad]. }
  split; [split|done].
  - intros Hok.
    destruct (Forall_or_first
      (fun el => (5 ≤ length el)%nat
                 ∧ (el !! 4%nat = Some 6 → (11 ≤ length el)%nat)) elements)
      as [Hall|(good & bad & rest & -> & Hgood & Hbad)]; [done|].
    unfold write_elements, with_open in Hok.
    rewrite !write_bind in Hok. cbn [outcome snd] in Hok.
    by erewrite bind_raised in Hok; [|by apply elements_loop_first_bad].
  - intros Hall.
    by destruct (write_elements_deck name elements materials Hall)
      as [sets [-> _]].
Qed.

(** X3. What [write_elements] leaves behind when it fails: the header, the
    [*ELEMENT] line and the connectivity records of the records before the
    first one that is not [element_ok], and nothing after them, so no set of
    any material; the exception is [IndexError]. *)
Theorem write_elements_stops name good bad rest materials :
  Forall element_ok good → ¬ element_ok bad →
  write_elements name (good ++ bad :: rest) materials
  = Run name
      (header name
         ++ Py.nl "*ELEMENT, TYPE=S6, ELSET=Eall"
         :: concat ((fun ne => connectivity ne.1 ne.2)
                      <$> Py.enumerate good 1))
      (raise IndexError).
Proof.
  intros Hgood Hbad.
  unfold write_elements, with_open. rewrite !write_bind. cbn [fst snd].
  erewrite bind_raised; [|by apply elements_loop_first_bad]. done.
Qed.
(** ** How [write_nodes] ends *)

Lemma for_app_ok {A} (l1 l2 : list A) (body : A → io unit) w1 :
  for_ l1 body = (w1, Ok tt) →
  for_ (l1 ++ l2) body = (w1 ++ (for_ l2 body).1, (for_ l2 body).2).
Proof.
  revert w1. induction l1 as [|x l1 IH]; intros w1 H1.
  - simpl in H1. injection H1 as <-. simpl. by destruct (for_ l2 body).
  - simpl app. rewrite for_cons in *.
    destruct (body x) as [wa [e|[]]] eqn:Hx.
    { by rewrite (bind_raised _ _ wa e) in H1. }
    destruct (for_ l1 body) as [wb [e|[]]] eqn:Hl1.
    { by rewrite (seq_ok _ _ wa tt wb (inl e)) in H1. }
    rewrite (seq_ok _ _ wa tt wb (Ok tt)) in H1 by done.
    injection H1 as <-.
    rewrite (seq_ok _ _ wa tt (wb ++ (for_ l2 body).1) (for_ l2 body).2);
      [by rewrite app_assoc|done|by apply IH].
Qed.

(** X4. What [write_nodes] leaves behind when a point does not have three
    coordinates: the header, the [*NODE] line and the records of the points
    before the first such point, numbered from 1; no node set is written,
    and the exception is the [ValueError] of the unpacking, with the number
    of coordinates found. *)
Theorem write_nodes_stops name good bad rest elements materials
    edge_boundaries :
  Forall (fun p => length p = 3%nat) good → length bad ≠ 3%nat →
  ∃ records,
    write_nodes name (good ++ bad :: rest) elements materials edge_boundaries
    = Run (nodes_file name)
        (header (nodes_file name) ++ Py.nl "*NODE,NSET=Nall" :: records)
        (raise (ValueError (Unpack 3 (length bad))))
    ∧ length records = length good
    ∧ ∀ (i : nat) x y z,
        good !! i = Some [x; y; z] →
        records !! i = Some (node_record (Z.of_nat i + 1) x y z).
Proof.
  intros Hgood Hbad.
  destruct (points_loop good 1 Hgood) as [records [Hloop [Hlen Hrec]]].
  exists records. split; [|split; [done|]].
  - unfold write_nodes, with_open. fold (nodes_file name).
    rewrite !write_bind. cbn [fst snd].
    rewrite enumerate_app.
    erewrite bind_raised.
    2:{ rewrite (for_app_ok _ _ _ records Hloop). cbn [Py.enumerate].
        rewrite for_cons.
        erewrite (bind_raised _ _ [] (ValueError (Unpack 3 (length bad)))).
        - cbn [fst snd]. by rewrite app_nil_r.
        - by destruct bad as [|x [|y [|z [|]]]]. }
    done.
  - intros i x y z Hi. rewrite (Hrec i x y z Hi). do 2 f_equal. lia.
Qed.
(** ** When [main] succeeds *)

Lemma main_more fs argv0 argv1 argv2 rest :
  main fs (argv0 :: argv1 :: argv2 :: rest) = main fs [argv0; argv1; argv2].
Proof.
  unfold main.
  assert ((Py.len (argv0 :: argv1 :: argv2 :: rest) <? 3) = false) as ->.
  { apply Z.ltb_ge. unfold Py.len. simpl length. lia. }
  rewrite !PyFacts.index_lookup by lia. done.
Qed.

(** X6. [main] ends normally exactly when [read_mesh] returns its tables,
    every point has three coordinates and every element record is
    [element_ok]; it has then written the node deck and the element deck,
    in this order, both to the end. *)
Theorem main_succeeds fs argv0 argv1 argv2 rest :
  ((main fs (argv0 :: argv1 :: argv2 :: rest)).2 = Ok tt
   ↔ ∃ points elements materials edgeboundaries,
       read_mesh (fs argv0)
       = Ok (points, elements, materials, edgeboundaries)
       ∧ Forall (fun p => length p = 3%nat) points
       ∧ Forall element_ok elements)
  ∧ (∀ points elements materials edgeboundaries,
       read_mesh (fs argv0)
       = Ok (points, elements, materials, edgeboundaries) →
       Forall (fun p => length p = 3%nat) points →
       Forall element_ok elements →
       (main fs (argv0 :: argv1 :: argv2 :: rest)).1
       = [write_nodes argv1 points elements materials edgeboundaries;
          write_elements argv2 elements materials]
       ∧ outcome (write_nodes argv1 points elements materials edgeboundaries)
         = Ok tt
       ∧ outcome (write_elements argv2 elements materials) = Ok tt).
Proof.
  rewrite main_more, main_three.
  assert (∀ points elements materials edgeboundaries,
    Forall (fun p => length p = 3%nat) points →
    Forall element_ok elements →
    outcome (write_nodes argv1 points elements materials edgeboundaries)
    = Ok tt
    ∧ outcome (write_elements argv2 elements materials) = Ok tt) as Hwrite.
  { intros points elements materials edgeboundaries Hp He. split.
    - destruct (write_nodes_deck argv1 points elements materials
                  edgeboundaries Hp) as (? & ? & ? & -> & _); [|done].
      eapply Forall_impl; [exact He|]. by intros el [? _].
    - by destruct (write_elements_deck argv2 elements materials He)
        as [? [-> _]]. }
  split; [split|].
  - intros Hok.
    destruct (read_mesh (fs argv0))
      as [e|[[[points elements] materials] edgeboundaries]]; [done|].
    exists points, elements, materials, edgeboundaries. split; [done|].
    cbv zeta in Hok.
    destruct (Forall_or_first (fun p => length p = 3%nat) points)
      as [Hp|(good & bad & rest' & -> & _ & Hbad)].
    + split; [done|].
      destruct (outcome (write_nodes argv1 points elements materials
                           edgeboundaries)) as [e|[]]; [done|].
      cbn [snd] in Hok.
      destruct (Forall_or_first
        (fun el => (5 ≤ length el)%nat
                   ∧ (el !! 4%nat = Some 6 → (11 ≤ length el)%nat)) elements)
        as [Hall|(good & bad & rest' & -> & _ & Hbad)]; [done|].
      pose proof (write_elements_fails argv2 (good ++ bad :: rest') materials
                    bad) as Hfail.
      rewrite Hok in Hfail. discriminate Hfail; [|done].
      apply elem_of_app. right. left.
    + destruct (write_nodes_unpack argv1 (good ++ bad :: rest') elements
                  materials edgeboundaries bad) as [got [_ Hraise]];
        [apply elem_of_app; right; left|done|].
      by rewrite Hraise in Hok.
  - intros (points & elements & materials & edgeboundaries & -> & Hp & He).
    destruct (Hwrite points elements materials edgeboundaries Hp He)
      as [Hn Hw].
    unfold Ok. cbv beta iota zeta. rewrite Hn. by unfold Ok.
  - intros points elements materials edgeboundaries -> Hp He.
    destruct (Hwrite points elements materials edgeboundaries Hp He)
      as [Hn Hw].
    split; [|done]. unfold Ok. cbv beta iota zeta. rewrite Hn. by unfold Ok.
Qed.
(** ** The exceptions of the program *)

Lemma bind_raises {A B} (m : result A) (f : A → result B) e :
  m ≫= f = raise e → m = raise e ∨ ∃ a, m = Ok a ∧ f a = raise e.
Proof.
  destruct m as [e'|a]; intros H; [left; by injection H as <-|].
  right. exists a. split; [done|exact H].
Qed.

Lemma traverse_raises_at {A B} (f : A → result B) l e :
  traverse f l = raise e → ∃ x, x ∈ l ∧ f x = raise e.
Proof.
  induction l as [|x l IH]; [done|]. cbn [traverse]. intros H.
  apply bind_raises in H as [H|[y [_ H]]].
  - exists x. split; [left|done].
  - apply bind_raises in H as [H|[ys [_ H]]]; [|done].
    destruct (IH H) as [x' [? ?]]. exists x'. split; [by right|done].
Qed.

Lemma foldM_raises_at {A S} (f : S → A → result S) l s e :
  foldM f s l = raise e → ∃ s' x, x ∈ l ∧ f s' x = raise e.
Proof.
  revert s. induction l as [|x l IH]; intros s; [done|]. cbn [foldM].
  intros H. apply bind_raises in H as [H|[s' [_ H]]].
  - exists s, x. split; [left|done].
  - destruct (IH s' H) as (s'' & x' & ? & ?). exists s'', x'.
    split; [by right|done].
Qed.

Lemma for_raises_at {A} (l : list A) (body : A → io unit) e :
  (for_ l body).2 = raise e → ∃ x, x ∈ l ∧ (body x).2 = raise e.
Proof.
  induction l as [|x l IH]; [done|]. rewrite for_cons. intros H.
  destruct (body x) as [w [e'|[]]] eqn:Hx.
  - rewrite (bind_raised _ _ w e') in H by done. exists x.
    split; [left|]. by rewrite Hx.
  - rewrite (bind_written _ _ w tt) in H by done.
    destruct (IH H) as [x' [? ?]]. exists x'. split; [by right|done].
Qed.

Lemma index_raises {A} (l : list A) i e :
  Py.index l i = raise e → e = IndexError.
Proof.
  destruct (PyFacts.index_ok_or_index_error l i) as [[x ->]| ->]; [done|].
  by intros [= <-].
Qed.

Lemma int_raises s e : Py.int s = raise e → e = ValueError (InvalidInt s).
Proof.
  unfold Py.int.
  destruct (match Py.strip_number s with
            | String "-" t => Z.opp <$> Py.int_digits 0 false t
            | String "+" t => Py.int_digits 0 false t
            | t => Py.int_digits 0 false t
            end); [done|]. by intros [= <-].
Qed.

Lemma float_raises s e :
  Py.float s = raise e → e = ValueError (InvalidFloat s).
Proof.
  unfold Py.float. destruct (Py.sign (Py.strip_number s)) as [neg t].
  destruct (_ || _); [done|]. destruct (_ =? _)%string; [done|].
  destruct (Py.floatnumber t) as [[m e10]|]; [done|]. by intros [= <-].
Qed.

Lemma section_lines_raises lines keyword e :
  section_lines lines keyword = raise e →
  e = IndexError ∨ e = ValueError (NotInList keyword)
  ∨ ∃ s, e = ValueError (InvalidInt s).
Proof.
  unfold section_lines. intros H.
  apply bind_raises in H as [H|[i [_ H]]].
  { unfold Py.list_index in H.
    destruct (list_find _ lines) as [[? ?]|]; [done|].
    injection H as <-. by right; left. }
  cbv zeta in H. apply bind_raises in H as [H|[ln [_ H]]].
  { left. by eapply index_raises. }
  apply bind_raises in H as [H|[num [_ H]]]; [|done].
  right; right. exists ln. by eapply int_raises.
Qed.

Lemma add_edge_raises d rec e :
  add_edge d rec = raise e →
  e = IndexError ∨ ∃ s, e = ValueError (InvalidInt s).
Proof.
  unfold add_edge. intros H.
  apply bind_raises in H as [H|[e0 [_ H]]];
    [left; by eapply index_raises|].
  apply bind_raises in H as [H|[key [_ H]]];
    [right; eexists; by eapply int_raises|].
  destruct (100 <? key); [|done].
  apply bind_raises in H as [H|[e2 [_ H]]];
    [left; by eapply index_raises|].
  apply bind_raises in H as [H|[a [_ H]]];
    [right; eexists; by eapply int_raises|].
  cbv zeta in H.
  apply bind_raises in H as [H|[e3 [_ H]]];
    [left; by eapply index_raises|].
  apply bind_raises in H as [H|[b [_ H]]];
    [right; eexists; by eapply int_raises|done].
Qed.

Lemma read_mesh_raises mesh e : read_mesh mesh = raise e → read_error e.
Proof.
  rewrite read_mesh_stages. unfold read_error. intros H.
  assert (∀ keyword, keyword ∈ keywords →
    section_lines (mesh_lines mesh) keyword = raise e →
    e = IndexError
    ∨ (∃ keyword, keyword ∈ keywords ∧ e = ValueError (NotInList keyword))
    ∨ (∃ s, e = ValueError (InvalidInt s))
    ∨ (∃ s, e = ValueError (InvalidFloat s))) as Hsec.
  { intros keyword Hin [->|[->|[s ->]]]%section_lines_raises.
    - by left.
    - right; left. by exists keyword.
    - right; right; left. by exists s. }
  apply bind_raises in H as [H|[pts [_ H]]].
  { apply (Hsec "points"); [|done]. unfold keywords. set_solver. }
  apply bind_raises in H as [H|[points [_ H]]].
  { apply traverse_raises_at in H as [ln [_ H]].
    apply traverse_raises_at in H as [tok [_ H]].
    right; right; right. exists tok. by eapply float_raises. }
  apply bind_raises in H as [H|[els [_ H]]].
  { apply (Hsec "surfaceelements"); [|done]. unfold keywords. set_solver. }
  apply bind_raises in H as [H|[elements [_ H]]].
  { apply traverse_raises_at in H as [ln [_ H]].
    apply traverse_raises_at in H as [tok [_ H]].
    right; right; left. exists tok. by eapply int_raises. }
  apply bind_raises in H as [H|[mats [_ H]]].
  { apply (Hsec "materials"); [|done]. unfold keywords. set_solver. }
  apply bind_raises in H as [H|[materials [_ H]]].
  { apply traverse_raises_at in H as [m [_ H]].
    apply bind_raises in H as [H|[m0 [_ H]]];
      [left; by eapply index_raises|].
    apply bind_raises in H as [H|[matnum [_ H]]];
      [right; right; left; eexists; by eapply int_raises|].
    apply bind_raises in H as [H|[m1 [_ H]]];
      [left; by eapply index_raises|done]. }
  apply bind_raises in H as [H|[eds [_ H]]].
  { apply (Hsec "edgesegmentsgi2"); [|done]. unfold keywords. set_solver. }
  apply bind_raises in H as [H|[edgeboundaries [_ H]]]; [|done].
  apply foldM_raises_at in H as (d & rec & _ & H).
  apply add_edge_raises in H as [->|[s ->]]; [by left|].
  right; right; left. by exists s.
Qed.
Lemma io_bind_raises {A B} (m : io A) (f : A → io B) e :
  (m ≫= f).2 = raise e →
  m.2 = raise e ∨ ∃ a, m.2 = Ok a ∧ (f a).2 = raise e.
Proof.
  destruct m as [w [e'|a]]; intros H.
  - left. rewrite (bind_raised _ _ w e') in H by done.
    simpl in H. by injection H as <-.
  - right. exists a. split; [done|].
    by rewrite (bind_written _ _ w a) in H.
Qed.

Lemma with_material_raises elements matnum e :
  with_material elements matnum = raise e → e = IndexError.
Proof.
  induction elements as [|el elements IH]; [done|]. cbn [with_material].
  intros H. apply bind_raises in H as [H|[el1 [_ H]]];
    [by eapply index_raises|].
  apply bind_raises in H as [H|[sel [_ H]]]; [by apply IH|done].
Qed.

Lemma elnums_from_raises elements start matnum e :
  elnums_from elements start matnum = raise e → e = IndexError.
Proof.
  revert start. induction elements as [|el elements IH]; intros start;
    [done|].
  cbn [elnums_from]. intros H.
  apply bind_raises in H as [H|[el1 [_ H]]]; [by eapply index_raises|].
  apply bind_raises in H as [H|[sel [_ H]]]; [by eapply IH|done].
Qed.

Lemma set_lines_raise (subs : list (list Z)) (line : list Z → string) e :
  (for_ subs (fun sub => write (line sub))).2 = raise e → False.
Proof. intros Hr. by apply for_raises_at in Hr as [sub [_ H]]. Qed.

Lemma node_sets_raises elements materials edge_boundaries e :
  (node_sets elements materials edge_boundaries).2 = raise e →
  e = IndexError.
Proof.
  unfold node_sets. intros H.
  apply io_bind_raises in H as [H|[[] [_ H]]].
  - apply for_raises_at in H as [[matnum matname] [_ H]].
    apply io_bind_raises in H as [H|[sel [_ H]]];
      [exact (with_material_raises _ _ _ H)|].
    apply io_bind_raises in H as [H|[nset [_ H]]].
    { apply foldM_raises_at in H as (s & el & _ & H).
      unfold update_nset in H.
      apply bind_raises in H as [H|[e4 [_ H]]]; [|done].
      exact (index_raises _ _ _ H). }
    apply io_bind_raises in H as [H|[[] [_ H]]]; [done|].
    apply io_bind_raises in H as [H|[subs [_ H]]]; [done|].
    by apply set_lines_raise in H.
  - apply for_raises_at in H as [[k s] [_ H]]. cbv zeta in H.
    apply io_bind_raises in H as [H|[[] [_ H]]]; [done|].
    apply io_bind_raises in H as [H|[subs [_ H]]]; [done|].
    by apply set_lines_raise in H.
Qed.

Lemma write_nodes_raises name points elements materials edge_boundaries e :
  outcome (write_nodes name points elements materials edge_boundaries)
  = raise e →
  e = IndexError ∨ ∃ got, got ≠ 3%nat ∧ e = ValueError (Unpack 3 got).
Proof.
  intros H.
  destruct (Forall_or_first (fun p => length p = 3%nat) points)
    as [Hp|(good & bad & rest & -> & _ & Hbad)].
  - destruct (write_nodes_points name points elements materials
                edge_boundaries Hp) as [records [Hrun _]].
    rewrite Hrun in H. left. by eapply node_sets_raises.
  - destruct (write_nodes_unpack name (good ++ bad :: rest) elements
                materials edge_boundaries bad) as [got [Hgot Hraise]];
      [apply elem_of_app; right; left|done|].
    rewrite Hraise in H. injection H as <-. right. by exists got.
Qed.

Lemma write_elements_raises name elements materials e :
  outcome (write_elements name elements materials) = raise e →
  e = IndexError.
Proof.
  unfold write_elements, with_open. rewrite !write_bind. cbn [outcome snd].
  intros H. apply io_bind_raises in H as [H|[[] [_ H]]].
  - apply for_raises_at in H as [[n el] [_ H]].
    apply io_bind_raises in H as [H|[cnt [_ H]]];
      [exact (index_raises _ _ _ H)|].
    cbv zeta in H. destruct (cnt =? 6); [|done].
    repeat (apply io_bind_raises in H as [H|[? [_ H]]];
            [exact (index_raises _ _ _ H)|]).
    done.
  - apply for_raises_at in H as [[matnum matname] [_ H]].
    apply io_bind_raises in H as [H|[[] [_ H]]]; [done|].
    apply io_bind_raises in H as [H|[nums [_ H]]];
      [exact (elnums_from_raises _ _ _ _ H)|].
    apply io_bind_raises in H as [H|[subs [_ H]]]; [done|].
    by apply set_lines_raise in H.
Qed.

(** X7. The exceptions of the program.  [read_mesh] raises nothing but a
    [read_error]: [IndexError], or the [ValueError] of a missing keyword, of
    [int] or of [float].  [main] ends with [SystemExit(1)] only when it is
    given fewer than three arguments; otherwise an error of [read_mesh]
    leaves no deck behind, the node deck fails only with [IndexError] or the
    [ValueError] of unpacking a point that does not have three coordinates,
    and the element deck only with [IndexError].  The [ValueError] of
    [chunks] never comes out. *)
Theorem main_exceptions (fs : string → string) :
  (∀ mesh e, read_mesh mesh = raise e → read_error e)
  ∧ (∀ argv runs e,
       main fs argv = (runs, raise e) →
       ((length argv < 3)%nat ∧ e = SystemExit 1 ∧ runs = [])
       ∨ ((3 ≤ length argv)%nat
          ∧ ((read_error e ∧ runs = [])
             ∨ (length runs = 1%nat
                ∧ (e = IndexError
                   ∨ ∃ got, got ≠ 3%nat ∧ e = ValueError (Unpack 3 got)))
             ∨ (length runs = 2%nat ∧ e = IndexError))))
  ∧ (∀ argv, (main fs argv).2 ≠ raise (ValueError BadCount)).
Proof.
  assert (∀ argv runs e,
    main fs argv = (runs, raise e) →
    ((length argv < 3)%nat ∧ e = SystemExit 1 ∧ runs = [])
    ∨ ((3 ≤ length argv)%nat
       ∧ ((read_error e ∧ runs = [])
          ∨ (length runs = 1%nat
             ∧ (e = IndexError
                ∨ ∃ got, got ≠ 3%nat ∧ e = ValueError (Unpack 3 got)))
          ∨ (length runs = 2%nat ∧ e = IndexError)))) as Hmain.
  { intros argv runs e H.
    destruct (decide (length argv < 3)%nat) as [Hlen|Hlen].
    - left. split; [done|]. unfold main in H.
      assert ((Py.len argv <? 3) = true) as Hlt
        by (apply Z.ltb_lt; unfold Py.len; lia).
      rewrite Hlt in H. by injection H as <- <-.
    - right. split; [lia|].
      destruct argv as [|argv0 [|argv1 [|argv2 rest]]]; simpl in Hlen;
        try lia.
      rewrite main_more, main_three in H.
      destruct (read_mesh (fs argv0))
        as [e'|[[[points elements] materials] edgeboundaries]] eqn:Hread.
      { injection H as <- <-. left. split; [|done].
        by eapply read_mesh_raises. }
      cbv zeta in H.
      destruct (outcome (write_nodes argv1 points elements materials
                           edgeboundaries)) as [e'|[]] eqn:Hnodes.
      { injection H as <- <-. right; left. split; [done|].
        by eapply write_nodes_raises. }
      injection H as <- H. right; right. split; [done|].
      exact (write_elements_raises _ _ _ _ H). }
  split; [exact read_mesh_raises|]. split; [exact Hmain|].
  intros argv H.
  destruct (main fs argv) as [runs r] eqn:Hrun. simpl in H. subst r.
  destruct (Hmain argv runs _ Hrun)
    as [(_ & ? & _)|[_ [[He _]|[[_ [?|[? [_ ?]]]]|[_ ?]]]]]; try done.
  by destruct He as [?|[[? [_ ?]]|[[? ?]|[? ?]]]].
Qed.
(** ** The count line of a section *)

Lemma list_index_first (pre post : list string) (keyword : string) :
  keyword ∉ pre →
  Py.list_index (pre ++ keyword :: post) keyword = Ok (Py.len pre).
Proof.
  intros Hpre. unfold Py.list_index.
  assert (list_find (fun y => y = keyword) (pre ++ keyword :: post)
          = Some (length pre, keyword)) as ->; [|done].
  apply list_find_Some. split; [|split; [done|]].
  - by rewrite lookup_app_r, Nat.sub_diag by lia.
  - intros j y Hj Hlt ->. apply Hpre.
    rewrite lookup_app_l in Hj by done. by eapply list_elem_of_lookup_2.
Qed.

Lemma section_lines_counted (pre rest : list string) (keyword cnt : string) :
  keyword ∉ pre →
  section_lines (pre ++ keyword :: cnt :: rest) keyword
  = (num ← Py.int cnt;
     Ok (Py.slice (pre ++ keyword :: cnt :: rest)
                  (Py.len pre + 2) (Py.len pre + 2 + num))).
Proof.
  intros Hpre. unfold section_lines.
  rewrite (list_index_first pre (cnt :: rest) keyword Hpre).
  rewrite ok_bind. cbv zeta. unfold Py.len.
  rewrite PyFacts.index_lookup by lia.
  replace (Z.to_nat (Z.of_nat (length pre) + 2 - 1)) with (length pre + 1)%nat
    by lia.
  rewrite lookup_app_r by lia.
  replace (length pre + 1 - length pre)%nat with 1%nat by lia.
  change ((keyword :: cnt :: rest) !! 1%nat) with (Some cnt).
  cbv beta iota. by rewrite ok_bind.
Qed.

Lemma slice_section (pre rest : list string) (keyword cnt : string) (n : Z) :
  Py.slice (pre ++ keyword :: cnt :: rest)
           (Py.len pre + 2) (Py.len pre + 2 + n)
  = if 0 <=? Py.len pre + 2 + n then take (Z.to_nat n) rest
    else take (Z.to_nat (Py.len pre + 2 + Py.len rest + n)) rest.
Proof.
  unfold Py.slice, Py.bound, Py.len. rewrite length_app. simpl length.
  destruct (Z.ltb_spec (Z.of_nat (length pre) + 2) 0); [lia|].
  rewrite (Z.min_l (Z.of_nat (length pre) + 2)) by lia.
  replace (Z.to_nat (Z.of_nat (length pre) + 2)) with (length pre + 2)%nat
    by lia.
  rewrite drop_app_add'; [|done].
  change (drop 2 (keyword :: cnt :: rest)) with rest.
  destruct (Z.ltb_spec (Z.of_nat (length pre) + 2 + n) 0);
    destruct (Z.leb_spec 0 (Z.of_nat (length pre) + 2 + n)); try lia.
  - f_equal. lia.
  - destruct (decide (n ≤ Z.of_nat (length rest))).
    + f_equal. lia.
    + rewrite !take_ge; [done|lia|lia].
Qed.

(** X8. How [read_mesh] uses the count line of a section.  After the first
    line equal to the keyword, the next line is read with [int]; a count
    [n >= 0] selects the next [n] lines, or all the lines that are left when
    there are fewer, without an error; a negative count is not refused
    either: it selects nothing, unless it reaches back before the start of
    the file, where it selects lines up to a position counted from the end;
    a line that [int] does not accept raises the [ValueError] of [int]; and
    a keyword on the last line raises [IndexError]. *)
Theorem section_lines_count (pre rest : list string) (keyword cnt : string) :
  keyword ∉ pre →
  (∀ n, Py.int cnt = Ok n → 0 ≤ n →
     section_lines (pre ++ keyword :: cnt :: rest) keyword
     = Ok (take (Z.to_nat n) rest))
  ∧ (∀ n, Py.int cnt = Ok n → - (Py.len pre + 2) ≤ n < 0 →
       section_lines (pre ++ keyword :: cnt :: rest) keyword = Ok [])
  ∧ (∀ n, Py.int cnt = Ok n → n < - (Py.len pre + 2) →
       section_lines (pre ++ keyword :: cnt :: rest) keyword
       = Ok (take (Z.to_nat (Py.len pre + 2 + Py.len rest + n)) rest))
  ∧ (is_ok (Py.int cnt) = false →
     section_lines (pre ++ keyword :: cnt :: rest) keyword
     = raise (ValueError (InvalidInt cnt)))
  ∧ section_lines (pre ++ [keyword]) keyword = raise IndexError.
Proof.
  intros Hpre. repeat split.
  - intros n Hn Hpos. rewrite section_lines_counted, Hn, ok_bind by done.
    rewrite slice_section.
    by destruct (Z.leb_spec 0 (Py.len pre + 2 + n)); [|unfold Py.len in *; lia].
  - intros n Hn Hneg. rewrite section_lines_counted, Hn, ok_bind by done.
    rewrite slice_section.
    destruct (Z.leb_spec 0 (Py.len pre + 2 + n)); [|lia].
    by replace (Z.to_nat n) with 0%nat by lia.
  - intros n Hn Hneg. rewrite section_lines_counted, Hn, ok_bind by done.
    rewrite slice_section.
    by destruct (Z.leb_spec 0 (Py.len pre + 2 + n)); [lia|].
  - intros Hbad. rewrite section_lines_counted by done.
    destruct (Py.int cnt) as [e|n] eqn:Hint; [|done].
    by rewrite (int_raises cnt e Hint).
  - unfold section_lines.
    rewrite (list_index_first pre [] keyword Hpre), ok_bind. cbv zeta.
    unfold Py.len. rewrite PyFacts.index_lookup by lia.
    rewrite lookup_ge_None_2; [done|]. rewrite length_app. simpl. lia.
Qed.
(** ** The materials table *)

Lemma split_tokens (s w : string) :
  w ∈ Py.split s →
  w ≠ "" ∧ ∀ c, c ∈ list_ascii_of_string w → Py.isspace c = false.
Proof.
  revert w. induction s as [|c s IH]; intros w Hw; [by inversion Hw|].
  cbn [Py.split] in Hw. destruct (Py.isspace c) eqn:Hc; [by apply IH|].
  assert (∀ w, w ∈ String c "" :: Py.split s →
               w ≠ "" ∧ ∀ c, c ∈ list_ascii_of_string w →
                             Py.isspace c = false) as Hone.
  { intros w' [->|Hw']%elem_of_cons; [|by apply IH].
    split; [done|]. simpl. by intros c' ->%list_elem_of_singleton. }
  destruct s as [|d s']; [by apply Hone|].
  destruct (Py.split (String d s')) as [|w' ws] eqn:Hsplit; [by apply Hone|].
  destruct (Py.isspace d); [by apply Hone|].
  apply elem_of_cons in Hw as [->|Hw].
  - destruct (IH w') as [_ Hw']; [left|]. split; [done|].
    simpl. intros c' [->|Hc']%elem_of_cons; [done|by apply Hw'].
  - apply IH. by right.
Qed.

(** X9. The materials table of [read_mesh]: one entry for each line of the
    materials section, in order; its number is [int] of the first token of
    the line and its name is the second token, whatever follows; so a name
    is never empty and holds no white space. *)
Theorem materials_table mesh points elements materials edgeboundaries :
  read_mesh mesh = Ok (points, elements, materials, edgeboundaries) →
  ∃ recs,
    section_lines (mesh_lines mesh) "materials" = Ok recs
    ∧ Forall2 (fun ln m => ∃ tok rest,
                 Py.split ln = tok :: m.2 :: rest ∧ Py.int tok = Ok m.1)
              recs materials
    ∧ Forall (fun m => m.2 ≠ ""
                       ∧ ∀ c, c ∈ list_ascii_of_string m.2 →
                              Py.isspace c = false) materials.
Proof.
  intros Hread.
  destruct (read_mesh_tables _ _ _ _ _ Hread)
    as (pts & els & mats & eds & _ & _ & _ & _ & Hmats & Htab & _ & _).
  exists mats. split; [done|].
  apply traverse_ok, Forall2_fmap_l in Htab.
  assert (Forall2 (fun ln m => ∃ tok rest,
                     Py.split ln = tok :: m.2 :: rest ∧ Py.int tok = Ok m.1)
                  mats materials) as Hrows.
  { eapply Forall2_impl; [exact Htab|]. intros ln [matnum matname] Hm.
    unfold compose in Hm. cbv beta in Hm.
    destruct (Py.split ln) as [|tok [|name rest]];
      [by change (Py.index [] 0) with (@raise string IndexError) in Hm| |].
    - change (Py.index [tok] 0) with (Ok tok) in Hm. rewrite ok_bind in Hm.
      by destruct (Py.int tok).
    - change (Py.index (tok :: name :: rest) 0) with (Ok tok) in Hm.
      rewrite ok_bind in Hm. destruct (Py.int tok) as [e|n] eqn:Hint; [done|].
      change (inr n) with (Ok n) in Hm. rewrite ok_bind in Hm.
      rewrite PyFacts.index_lookup in Hm by lia.
      change ((tok :: name :: rest) !! Z.to_nat 1) with (Some name) in Hm.
      cbv beta iota in Hm. rewrite ok_bind in Hm. injection Hm as -> ->. by exists tok, rest. }
  split; [done|].
  apply Forall_forall. intros m Hm.
  apply list_elem_of_lookup in Hm as [i Hi].
  destruct (Forall2_lookup_r _ _ _ _ _ Hrows Hi)
    as (ln & _ & tok & rest & Hsplit & _).
  apply (split_tokens ln). rewrite Hsplit. right; left.
Qed.
(** ** The order of the edge node sets *)

Lemma first_seen_ext (s1 s2 l : list Z) :
  (∀ x, x ∈ s1 ↔ x ∈ s2) → first_seen s1 l = first_seen s2 l.
Proof.
  revert s1 s2. induction l as [|x l IH]; intros s1 s2 Hs; [done|].
  cbn [first_seen].
  destruct (decide (x ∈ s1)) as [H1|H1], (decide (x ∈ s2)) as [H2|H2];
    try (by apply Hs in H1); try (by apply Hs in H2).
  - by apply IH.
  - f_equal. apply IH. intros y. rewrite !elem_of_cons. by rewrite Hs.
Qed.

Lemma defaultdict_add_order (d : list (Z * gset Z)) (key x : Z) :
  (Py.defaultdict_add d key x).*1
  = if decide (key ∈ d.*1) then d.*1 else d.*1 ++ [key].
Proof.
  induction d as [|[k s] d IH]; [done|]. cbn [Py.defaultdict_add].
  destruct (decide (k = key)) as [->|Hne].
  - cbn [fmap list_fmap fst]. rewrite decide_True; [done|left].
  - cbn [fmap list_fmap fst]. fold (fmap (M:=list) (@fst Z (gset Z))).
    rewrite IH.
    destruct (decide (key ∈ d.*1)) as [Hin|Hin].
    + rewrite decide_True; [done|by right].
    + rewrite decide_False; [done|].
      intros [?|?]%elem_of_cons; [by subst|done].
Qed.

Lemma edge_keys_fold (edges : list (list string)) d d' :
  foldM add_edge d edges = Ok d' →
  ∃ tags,
    traverse edge_tag edges = Ok tags
    ∧ d'.*1 = d.*1 ++ first_seen d.*1 (filter (fun tag => 100 < tag) tags).
Proof.
  revert d. induction edges as [|e edges IH]; intros d Hfold.
  - injection Hfold as <-. exists []. by rewrite app_nil_r.
  - cbn [foldM] in Hfold.
    destruct (add_edge d e) as [err|d1] eqn:Hadd; [done|].
    change (inr d1 ≫= foldM add_edge) with (foldM add_edge d1) in Hfold.
    destruct (IH d1 Hfold) as [tags [Htags Hkeys]].
    destruct (add_edge_step d e d1 Hadd)
      as [tag [Htag [[Hle ->]|[Hgt (a & b & _ & ->)]]]].
    + exists (tag :: tags). split.
      { cbn [traverse]. by rewrite Htag, ok_bind, Htags, ok_bind. }
      rewrite filter_cons_False by lia. done.
    + exists (tag :: tags). split.
      { cbn [traverse]. by rewrite Htag, ok_bind, Htags, ok_bind. }
      rewrite filter_cons_True by lia. cbn [first_seen].
      rewrite Hkeys. rewrite !defaultdict_add_order.
      destruct (decide (tag ∈ d.*1)) as [Hin|Hin].
      * by rewrite decide_True.
      * rewrite decide_True by (apply elem_of_app; right; left).
        rewrite <- app_assoc. simpl. do 2 f_equal.
        apply first_seen_ext. intros x.
        rewrite elem_of_app, !elem_of_cons, elem_of_nil. tauto.
Qed.

(** X10. The order of the edge node sets.  The keys of the dictionary that
    [read_mesh] returns are the tags over 100 of the edge records, each of
    them once, in the order in which they first occur in the file; and the
    node deck ends with one set for each of them, in this order. *)
Theorem edge_keys_in_file_order mesh points elements materials
    edgeboundaries :
  read_mesh mesh = Ok (points, elements, materials, edgeboundaries) →
  ∃ recs tags,
    section_lines (mesh_lines mesh) "edgesegmentsgi2" = Ok recs
    ∧ traverse edge_tag (Py.split <$> recs) = Ok tags
    ∧ edgeboundaries.*1
      = first_seen [] (filter (fun tag => 100 < tag) tags)
    ∧ (∀ name,
         Forall (fun p => length p = 3%nat) points →
         Forall (fun el => 5 ≤ length el)%nat elements →
         ∃ before esets,
           write_nodes name points elements materials edgeboundaries
           = Run (nodes_file name) (before ++ concat esets) (Ok tt)
           ∧ Forall2 (fun tag blk => ∃ members,
                        blk = Py.nl ("*NSET,NSET=Nedge" +:+ Py.str tag)
                              :: members)
                     (first_seen [] (filter (fun tag => 100 < tag) tags))
                     esets).
Proof.
  intros Hread.
  destruct (read_mesh_tables _ _ _ _ _ Hread)
    as (pts & els & mats & eds & _ & _ & _ & _ & _ & _ & Heds & Hfold).
  destruct (edge_keys_fold _ _ _ Hfold) as [tags [Htags Hkeys]].
  exists eds, tags. split; [done|]. split; [done|]. split; [done|].
  intros name Hp He.
  destruct (write_nodes_deck name points elements materials edgeboundaries
              Hp He) as (records & msets & esets & Hrun & _ & _ & Hsets).
  exists (header (nodes_file name)
            ++ Py.nl "*NODE,NSET=Nall" :: records ++ concat msets), esets.
  split.
  - rewrite Hrun. f_equal. rewrite <- !app_assoc. simpl.
    by rewrite <- app_assoc.
  - simpl in Hkeys. rewrite <- Hkeys. apply Forall2_fmap_l.
    eapply Forall2_impl; [exact Hsets|].
    intros [k s] blk (ids & cs & -> & _). simpl.
    exists (nset_line <$> cs). by rewrite <- StrFacts.app_assoc.
Qed.
(** ** A material that no element refers to *)

Lemma filter_none {A} (P : A → Prop) `{∀ x, Decision (P x)} (l : list A) :
  (∀ x, x ∈ l → ¬ P x) → filter P l = [].
Proof.
  induction l as [|x l IH]; intros Hl; [done|].
  rewrite filter_cons_False by (apply Hl; left).
  apply IH. intros y Hy. apply Hl. by right.
Qed.

Lemma wrapped_nil {A} (c : nat) (cs : list (list A)) :
  (0 < c)%nat → wrapped c [] cs → cs = [].
Proof.
  intros Hc Hw.
  destruct (wrapped_length c [] cs Hw) as [[_ Hlen]|[-> _]]; [|done].
  simpl in Hlen. destruct cs; [done|simpl in Hlen; lia].
Qed.

(** X11. A material that no element record refers to still gets its two
    sets, and they are empty: in the node deck and in the element deck the
    block of such a material is its label line alone. *)
Theorem unused_material_sets name name' points elements materials
    edge_boundaries :
  Forall (fun p => length p = 3%nat) points →
  Forall element_ok elements →
  ∃ records msets esets connectivities elsets,
    write_nodes name points elements materials edge_boundaries
    = Run (nodes_file name)
        (header (nodes_file name)
           ++ Py.nl "*NODE,NSET=Nall" :: records
           ++ concat msets ++ concat esets)
        (Ok tt)
    ∧ length records = length points
    ∧ write_elements name' elements materials
      = Run name'
          (header name'
             ++ Py.nl "*ELEMENT, TYPE=S6, ELSET=Eall"
             :: connectivities ++ concat elsets)
          (Ok tt)
    ∧ Forall2 (fun m blk =>
         (∀ el, el ∈ elements → el !! 1%nat ≠ Some m.1) →
         blk = [Py.nl ("*NSET,NSET=N" +:+ m.2)]) materials msets
    ∧ Forall2 (fun m blk =>
         (∀ el, el ∈ elements → el !! 1%nat ≠ Some m.1) →
         blk = [Py.nl ("*ELSET,ELSET=E" +:+ m.2)]) materials elsets.
Proof.
  intros Hp He.
  destruct (write_nodes_deck name points elements materials edge_boundaries
              Hp) as (records & msets & esets & Hrun & Hlen & Hm & _).
  { eapply Forall_impl; [exact He|]. by intros el [? _]. }
  destruct (write_elements_deck name' elements materials He)
    as (elsets & Hrun' & Hel).
  exists records, msets, esets,
    (concat ((fun ne => connectivity ne.1 ne.2) <$> Py.enumerate elements 1)),
    elsets.
  split; [done|]. split; [done|]. split; [done|]. split.
  - eapply Forall2_impl; [exact Hm|].
    intros m blk (ids & cs & -> & Hw & _ & Hids) Hunused.
    assert (ids = []) as ->.
    { destruct ids as [|x ids]; [done|].
      assert (x ∈ material_nodes elements m.1) as Hx by (apply Hids; left).
      unfold material_nodes in Hx.
      rewrite (filter_none _ elements) in Hx by done.
      change (x ∈ (∅ : gset Z)) in Hx. by apply not_elem_of_empty in Hx. }
    by rewrite (wrapped_nil 16 cs) by (done || lia).
  - eapply Forall2_impl; [exact Hel|].
    intros m blk (cs & -> & Hw) Hunused.
    unfold elnums in Hw. rewrite filter_none in Hw.
    + by rewrite (wrapped_nil 16 cs) by (done || lia).
    + intros [n el] Hin. simpl.
      apply PyFacts.elem_of_enumerate in Hin as [i [_ Hi]].
      apply Hunused. by eapply list_elem_of_lookup_2.
Qed.
(** ** Comment lines and line ends *)

Lemma readlines_eq (c : ascii) (s : string) :
  Py.readlines (String c s)
  = if (c =? Py.LF)%char then String Py.LF "" :: Py.readlines s
    else if (c =? Py.CR)%char then
      match s with
      | String d _ =>
          if (d =? Py.LF)%char then Py.readlines s
          else String Py.LF "" :: Py.readlines s
      | EmptyString => [String Py.LF ""]
      end
    else match Py.readlines s with
         | [] => [String c ""]
         | ln :: lns => String c ln :: lns
         end.
Proof. done. Qed.

Lemma readlines_cons (c : ascii) (s : string) :
  Py.readlines (String c s) ≠ [].
Proof.
  revert c. induction s as [|d s IH]; intros c; rewrite readlines_eq.
  - destruct (c =? Py.LF)%char; [done|]. by destruct (c =? Py.CR)%char.
  - destruct (c =? Py.LF)%char; [done|].
    destruct (c =? Py.CR)%char.
    + destruct (d =? Py.LF)%char; [apply IH|done].
    + by destruct (Py.readlines (String d s)).
Qed.

Lemma readlines_line_app (x rest : string) :
  Py.readlines (x +:+ String Py.LF rest)
  = Py.readlines (x +:+ String Py.LF "") ++ Py.readlines rest.
Proof.
  induction x as [|c x IH]; [done|].
  change (String c x +:+ String Py.LF rest)
    with (String c (x +:+ String Py.LF rest)).
  change (String c x +:+ String Py.LF "")
    with (String c (x +:+ String Py.LF "")).
  rewrite !readlines_eq.
  destruct (c =? Py.LF)%char; [by rewrite IH|].
  destruct (c =? Py.CR)%char.
  - destruct x as [|d x]; [done|].
    change (String d x +:+ String Py.LF rest)
      with (String d (x +:+ String Py.LF rest)) in *.
    change (String d x +:+ String Py.LF "")
      with (String d (x +:+ String Py.LF "")) in *.
    cbv iota. destruct (d =? Py.LF)%char; by rewrite IH.
  - rewrite IH.
    destruct (Py.readlines (x +:+ String Py.LF "")) as [|ln lns] eqn:Hx;
      [|done].
    destruct x; by apply readlines_cons in Hx.
Qed.

Lemma readlines_one_line (ln rest : string) :
  (∀ c, c ∈ list_ascii_of_string ln → c ≠ Py.LF ∧ c ≠ Py.CR) →
  Py.readlines (ln +:+ String Py.LF rest)
  = (ln +:+ String Py.LF "") :: Py.readlines rest.
Proof.
  induction ln as [|c ln IH]; intros Hln; [done|].
  change (String c ln +:+ String Py.LF rest)
    with (String c (ln +:+ String Py.LF rest)).
  rewrite readlines_eq.
  destruct (Hln c) as [Hlf Hcr]; [left|].
  apply Ascii.eqb_neq in Hlf, Hcr. rewrite Hlf, Hcr.
  rewrite IH; [done|]. intros c' Hc'. apply Hln. by right.
Qed.

Lemma rstrip_line (s : string) :
  Py.rstrip (s +:+ String Py.LF "") = Py.rstrip s.
Proof.
  induction s as [|c s IH]; [done|].
  change (String c s +:+ String Py.LF "")
    with (String c (s +:+ String Py.LF "")).
  cbn [Py.rstrip]. by rewrite IH.
Qed.

Lemma strip_line (s : string) :
  Py.strip (s +:+ String Py.LF "") = Py.strip s.
Proof.
  unfold Py.strip. induction s as [|c s IH]; [done|].
  change (String c s +:+ String Py.LF "")
    with (String c (s +:+ String Py.LF "")).
  cbn [Py.lstrip]. destruct (Py.isspace c); [done|].
  apply (rstrip_line (String c s)).
Qed.

(** X12. A comment line can stand anywhere in the mesh file.  A line whose
    first character after leading white space is [#], put between two lines
    of the file or before the first (also between a keyword and its count,
    or among the data lines, where it is not counted), changes neither the
    lines that [read_mesh] works on nor what it returns. *)
Theorem comment_line_anywhere (before comment after : string) :
  before = "" ∨ Py.endswith before (String Py.LF "") = true →
  (∀ c, c ∈ list_ascii_of_string comment → c ≠ Py.LF ∧ c ≠ Py.CR) →
  Py.startswith (Py.strip comment) "#" = true →
  mesh_lines (before +:+ comment +:+ String Py.LF after)
  = mesh_lines (before +:+ after)
  ∧ read_mesh (before +:+ comment +:+ String Py.LF after)
    = read_mesh (before +:+ after).
Proof.
  intros Hbefore Hline Hcomment.
  assert (mesh_lines (before +:+ comment +:+ String Py.LF after)
          = mesh_lines (before +:+ after)) as Hlines.
  { unfold mesh_lines.
    assert (∀ rest, Py.readlines (before +:+ rest)
                    = Py.readlines before ++ Py.readlines rest) as Happ.
    { intros rest. destruct Hbefore as [->|Hend]; [done|].
      apply StrFacts.endswith_spec in Hend as [x ->].
      rewrite StrFacts.app_assoc. apply readlines_line_app. }
    rewrite !Happ, readlines_one_line by done.
    rewrite !fmap_app, fmap_cons, !filter_app, filter_cons_False; [done|].
    rewrite strip_line, Hcomment. done. }
  split; [done|]. unfold read_mesh. by rewrite Hlines.
Qed.

Lemma readlines_crlf (s : string) :
  (∀ c, c ∈ list_ascii_of_string s → c ≠ Py.CR) →
  Py.readlines (crlf s) = Py.readlines s.
Proof.
  induction s as [|c s IH]; intros Hs; [done|].
  assert (Py.readlines (crlf s) = Py.readlines s) as IH'.
  { apply IH. intros c' Hc'. apply Hs. by right. }
  cbn [crlf]. rewrite (readlines_eq c s).
  destruct (c =? Py.LF)%char eqn:Hlf.
  - rewrite readlines_eq. change (Py.CR =? Py.LF)%char with false.
    change (Py.CR =? Py.CR)%char with true. cbv iota.
    rewrite readlines_eq. change (Py.LF =? Py.LF)%char with true.
    cbv iota. by rewrite IH'.
  - rewrite readlines_eq, Hlf.
    assert ((c =? Py.CR)%char = false) as ->
      by (apply Ascii.eqb_neq, Hs; left).
    by rewrite IH'.
Qed.

(** X13. Line ends.  A mesh file whose lines end in carriage return, line
    feed is read as the same file with plain line feeds: the same lines,
    the same tables or the same exception. *)
Theorem crlf_mesh (mesh : string) :
  (∀ c, c ∈ list_ascii_of_string mesh → c ≠ Py.CR) →
  Py.readlines (crlf mesh) = Py.readlines mesh
  ∧ mesh_lines (crlf mesh) = mesh_lines mesh
  ∧ read_mesh (crlf mesh) = read_mesh mesh.
Proof.
  intros Hmesh. pose proof (readlines_crlf mesh Hmesh) as Hlines.
  unfold read_mesh, mesh_lines. by rewrite Hlines.
Qed.
(** ** Numbers written and read back *)

Lemma uint_value_pos (d : Decimal.uint) (p : positive) :
  uint_value (Z.pos p) d = Z.pos (Pos.of_uint_acc d p).
Proof.
  revert p. induction d; intros p; cbn [uint_value Pos.of_uint_acc];
    [done|..]; rewrite <- IHd; f_equal;
    rewrite ?Pos2Z.inj_add, Pos2Z.inj_mul; lia.
Qed.

Lemma uint_value_0 (d : Decimal.uint) :
  uint_value 0 d = Z.of_N (Pos.of_uint d).
Proof.
  induction d; cbn [uint_value Pos.of_uint]; [done|done|..];
    apply (uint_value_pos d).
Qed.


Lemma int_digits_digit (c : ascii) (d acc : Z) (after : bool) (s : string) :
  Py.digit c = Some d →
  Py.int_digits acc after (String c s) = Py.int_digits (10 * acc + d) true s.
Proof. intros Hc. cbn [Py.int_digits]. by rewrite Hc. Qed.

Ltac digit_value :=
  match goal with
  | |- context [Z.of_N (N_of_ascii ?c) - 48] =>
      let v := eval vm_compute in (Z.of_N (N_of_ascii c) - 48) in
      change (Z.of_N (N_of_ascii c) - 48) with v
  end.


Lemma int_digits_uint (d : Decimal.uint) (acc : Z) (after : bool) :
  d ≠ Decimal.Nil ∨ after = true →
  Py.int_digits acc after (NilEmpty.string_of_uint d)
  = Some (uint_value acc d).
Proof.
  revert acc after. induction d; intros acc after Hd;
    cbn [NilEmpty.string_of_uint uint_value];
    [by destruct Hd as [?| ->]|..];
    (erewrite int_digits_digit by reflexivity;
     rewrite IHd by (by right); digit_value; do 2 f_equal; lia).
Qed.

(** [str] of a number that is not negative is the digits of that number. *)
Lemma str_uint (n : Z) :
  0 ≤ n →
  ∃ d, d ≠ Decimal.Nil
       ∧ Py.str n = NilEmpty.string_of_uint d ∧ uint_value 0 d = n.
Proof.
  intros Hn. destruct n as [|p|p]; [| |lia].
  - by exists (Decimal.D0 Decimal.Nil).
  - exists (Pos.to_uint p).
    pose proof (DecimalPos.Unsigned.to_uint_nonnil p) as Hnil.
    split; [done|]. split.
    + unfold Py.str. simpl. unfold NilZero.string_of_uint.
      by destruct (Pos.to_uint p).
    + by rewrite uint_value_0, DecimalPos.Unsigned.of_to.
Qed.

Lemma digit_not_space (c : ascii) :
  isdigit c = true → Py.isspace_number c = false.
Proof.
  destruct c as [[] [] [] [] [] [] [] []]; intros H;
    first [reflexivity | by vm_compute in H].
Qed.

Lemma lstrip_id (c : ascii) (s : string) :
  Py.isspace_number c = false →
  Py.lstrip_number (String c s) = String c s.
Proof. intros Hc. cbn [Py.lstrip_number]. by rewrite Hc. Qed.

Lemma rstrip_id (s : string) :
  Forall (fun c => Py.isspace_number c = false) (list_ascii_of_string s) →
  Py.rstrip_number s = s.
Proof.
  induction s as [|c s IH]; intros Hs; [done|].
  inversion Hs as [|? ? Hc Hs']; subst. cbn [Py.rstrip_number].
  rewrite IH by done. destruct s; [by rewrite Hc|done].
Qed.

(** A text without white space is what [int] and [float] find in it. *)
Lemma strip_id (s : string) :
  Forall (fun c => Py.isspace_number c = false) (list_ascii_of_string s) →
  Py.strip_number s = s.
Proof.
  intros Hs. unfold Py.strip_number. destruct s as [|c s]; [done|].
  inversion Hs; subst. rewrite lstrip_id by done. by apply rstrip_id.
Qed.

Lemma uint_not_space (d : Decimal.uint) :
  Forall (fun c => Py.isspace_number c = false)
         (list_ascii_of_string (NilEmpty.string_of_uint d)).
Proof.
  eapply Forall_impl; [apply uint_digits|]. apply digit_not_space.
Qed.

(** X14. Every integer written with [str] is read back by [int] as the
    same integer: the node, element and set numbers of the decks are read
    by [int] as the numbers that were written. *)
Theorem int_of_str (n : Z) : Py.int (Py.str n) = Ok n.
Proof.
  destruct (decide (0 ≤ n)) as [Hn|Hn].
  - destruct (str_uint n Hn) as (d & Hnil & Hstr & Hval).
    unfold Py.int. rewrite Hstr, strip_id by apply uint_not_space.
    pose proof (int_digits_uint d 0 false (or_introl Hnil)) as Hdigits.
    rewrite Hval in Hdigits.
    pose proof (uint_digits d) as Hd.
    destruct (NilEmpty.string_of_uint d) as [|c ds] eqn:Hs.
    + by destruct d.
    + inversion Hd as [|? ? Hc _]; subst.
      destruct c as [[] [] [] [] [] [] [] []];
        first [by vm_compute in Hc | by rewrite Hdigits].
  - destruct n as [|p|p]; [lia|lia|].
    pose proof (DecimalPos.Unsigned.to_uint_nonnil p) as Hnil.
    assert (Py.str (Z.neg p)
            = String "-" (NilEmpty.string_of_uint (Pos.to_uint p))) as ->.
    { unfold Py.str. simpl. unfold NilZero.string_of_uint.
      by destruct (Pos.to_uint p). }
    unfold Py.int. rewrite strip_id.
    2:{ constructor; [done|apply uint_not_space]. }
    rewrite int_digits_uint by by left.
    by rewrite uint_value_0, DecimalPos.Unsigned.of_to.
Qed.
(** ** Coordinates with two decimals *)










(** ** Examples of the further properties *)

(** X3 at a deck of two records, the second too short. *)
Lemma write_elements_stops_witness :
  Forall element_ok [[2; 1; 0; 0; 6; 1; 2; 3; 4; 5; 6]]
  ∧ ¬ element_ok [1; 1]
  ∧ write_elements "els.inp" [[2; 1; 0; 0; 6; 1; 2; 3; 4; 5; 6]; [1; 1]]
      demo_materials
    = Run "els.inp"
        (header "els.inp"
           ++ [Py.nl "*ELEMENT, TYPE=S6, ELSET=Eall";
               Py.nl "1, 1, 2, 3, 6, 4, 5"])
        (raise IndexError).
Proof.
  assert (Forall element_ok [[2; 1; 0; 0; 6; 1; 2; 3; 4; 5; 6]]) as Hgood.
  { apply Forall_cons_2; [|apply Forall_nil_2].
    split; [simpl; lia|]. intros _. simpl. lia. }
  assert (¬ element_ok [1; 1]) as Hbad.
  { intros [Hlen _]. simpl in Hlen. lia. }
  split; [exact Hgood|]. split; [exact Hbad|].
  exact (write_elements_stops "els.inp" _ _ [] demo_materials Hgood Hbad).
Defined.

(** X4 at two points, the second with two coordinates. *)
Lemma write_nodes_stops_witness :
  Forall (fun p => length p = 3%nat)
         [[S754_zero false; S754_zero false; S754_zero false]]
  ∧ length [S754_zero false; S754_zero false] ≠ 3%nat
  ∧ ∃ records,
      write_nodes "nodes"
        ([[S754_zero false; S754_zero false; S754_zero false]]
           ++ [S754_zero false; S754_zero false] :: [])
        demo_elements demo_materials demo_edge_boundaries
      = Run (nodes_file "nodes")
          (header (nodes_file "nodes") ++ Py.nl "*NODE,NSET=Nall" :: records)
          (raise (ValueError (Unpack 3 2)))
      ∧ length records = 1%nat.
Proof.
  assert (Forall (fun p => length p = 3%nat)
            [[S754_zero false; S754_zero false; S754_zero false]]) as Hgood
    by (repeat constructor).
  assert (length [S754_zero false; S754_zero false] ≠ 3%nat) as Hbad
    by (simpl; lia).
  split; [exact Hgood|]. split; [exact Hbad|].
  destruct (write_nodes_stops "nodes" _ _ [] demo_elements demo_materials
              demo_edge_boundaries Hgood Hbad) as [records [Hrun [Hlen _]]].
  exists records. split; [exact Hrun|exact Hlen].
Defined.

(** X8 at a points section that announces five lines and holds two. *)
Lemma section_lines_count_witness :
  ("points" ∉ ["dimension"; "2"])
  ∧ section_lines (["dimension"; "2"] ++ ["points"; "5"; "0 0 0"; "1 0 0"])
      "points"
    = Ok ["0 0 0"; "1 0 0"].
Proof.
  assert ("points" ∉ ["dimension"; "2"]) as Hpre.
  { rewrite !not_elem_of_cons. repeat split; try done. apply not_elem_of_nil. }
  split; [exact Hpre|].
  destruct (section_lines_count ["dimension"; "2"] ["0 0 0"; "1 0 0"]
              "points" "5" Hpre) as [Hcount _].
  apply (Hcount 5); [vm_compute; reflexivity|lia].
Defined.

(** X9 at the demonstration mesh. *)
Lemma materials_table_witness :
  read_mesh demo_mesh
  = Ok (demo_points, demo_elements, demo_materials, demo_edge_boundaries)
  ∧ ∃ recs,
      section_lines (mesh_lines demo_mesh) "materials" = Ok recs
      ∧ Forall2 (fun ln m => ∃ tok rest,
                   Py.split ln = tok :: m.2 :: rest ∧ Py.int tok = Ok m.1)
                recs demo_materials
      ∧ Forall (fun m => m.2 ≠ ""
                         ∧ ∀ c, c ∈ list_ascii_of_string m.2 →
                                Py.isspace c = false) demo_materials.
Proof.
  split; [exact read_demo_mesh|].
  exact (materials_table demo_mesh _ _ _ _ read_demo_mesh).
Defined.

(** X10 at the demonstration mesh. *)
Lemma edge_keys_in_file_order_witness :
  read_mesh demo_mesh
  = Ok (demo_points, demo_elements, demo_materials, demo_edge_boundaries)
  ∧ ∃ recs tags,
      section_lines (mesh_lines demo_mesh) "edgesegmentsgi2" = Ok recs
      ∧ traverse edge_tag (Py.split <$> recs) = Ok tags
      ∧ demo_edge_boundaries.*1
        = first_seen [] (filter (fun tag => 100 < tag) tags).
Proof.
  split; [exact read_demo_mesh|].
  destruct (edge_keys_in_file_order demo_mesh _ _ _ _ read_demo_mesh)
    as (recs & tags & Hrecs & Htags & Hkeys & _).
  exists recs, tags. split; [exact Hrecs|]. split; [exact Htags|exact Hkeys].
Defined.

(** X11 at the demonstration tables, with a second material that no
    record refers to. *)
Lemma unused_material_sets_witness :
  Forall (fun p => length p = 3%nat) demo_points
  ∧ Forall element_ok demo_elements
  ∧ ∃ records msets esets connectivities elsets,
      write_nodes "nodes" demo_points demo_elements
        [(1, "steel"); (2, "wood")] demo_edge_boundaries
      = Run (nodes_file "nodes")
          (header (nodes_file "nodes")
             ++ Py.nl "*NODE,NSET=Nall" :: records
             ++ concat msets ++ concat esets)
          (Ok tt)
      ∧ write_elements "els.inp" demo_elements [(1, "steel"); (2, "wood")]
        = Run "els.inp"
            (header "els.inp"
               ++ Py.nl "*ELEMENT, TYPE=S6, ELSET=Eall"
               :: connectivities ++ concat elsets)
            (Ok tt)
      ∧ msets !! 1%nat = Some [Py.nl "*NSET,NSET=Nwood"]
      ∧ elsets !! 1%nat = Some [Py.nl "*ELSET,ELSET=Ewood"].
Proof.
  split; [exact demo_points_ok|]. split; [exact demo_elements_ok|].
  destruct (unused_material_sets "nodes" "els.inp" demo_points demo_elements
              [(1, "steel"); (2, "wood")] demo_edge_boundaries
              demo_points_ok demo_elements_ok)
    as (records & msets & esets & conn & elsets & Hn & _ & He & Hm & Hel).
  exists records, msets, esets, conn, elsets.
  split; [exact Hn|]. split; [exact He|].
  assert (∀ el, el ∈ demo_elements → el !! 1%nat ≠ Some 2) as Hunused.
  { intros el Hin. unfold demo_elements in Hin.
    apply elem_of_cons in Hin as [->|Hin]; [discriminate|].
    apply elem_of_cons in Hin as [->|Hin]; [discriminate|].
    by apply elem_of_nil in Hin. }
  split.
  - destruct (Forall2_lookup_l _ _ _ 1%nat (2, "wood") Hm eq_refl)
      as (blk & Hblk & Hlabel).
    rewrite Hblk. f_equal. exact (Hlabel Hunused).
  - destruct (Forall2_lookup_l _ _ _ 1%nat (2, "wood") Hel eq_refl)
      as (blk & Hblk & Hlabel).
    rewrite Hblk. f_equal. exact (Hlabel Hunused).
Defined.

(** X12 at a comment between the keyword [points] and its count. *)
Lemma comment_line_anywhere_witness :
  Py.endswith (Py.nl "points") (String Py.LF "") = true
  ∧ Py.startswith (Py.strip " # n") "#" = true
  ∧ mesh_lines (Py.nl "points" +:+ " # n" +:+ String Py.LF (Py.nl "0"))
    = mesh_lines (Py.nl "points" +:+ Py.nl "0").
Proof.
  assert (Py.endswith (Py.nl "points") (String Py.LF "") = true) as Hend
    by (vm_compute; reflexivity).
  assert (Py.startswith (Py.strip " # n") "#" = true) as Hcomment
    by (vm_compute; reflexivity).
  assert (∀ c, c ∈ list_ascii_of_string " # n" → c ≠ Py.LF ∧ c ≠ Py.CR)
    as Hline.
  { intros c Hc. simpl in Hc.
    repeat (apply elem_of_cons in Hc as [->|Hc]; [by split|]).
    by apply elem_of_nil in Hc. }
  split; [exact Hend|]. split; [exact Hcomment|].
  exact (proj1 (comment_line_anywhere (Py.nl "points") " # n" (Py.nl "0")
                  (or_intror Hend) Hline Hcomment)).
Defined.

(** X13 at a file of two lines. *)
Lemma crlf_mesh_witness :
  crlf (Py.nl "points" +:+ Py.nl "0")
  = "points" +:+ String Py.CR (String Py.LF ("0" +:+ String Py.CR
                                               (String Py.LF "")))
  ∧ read_mesh (crlf (Py.nl "points" +:+ Py.nl "0"))
    = read_mesh (Py.nl "points" +:+ Py.nl "0").
Proof.
  split; [vm_compute; reflexivity|].
  apply (crlf_mesh (Py.nl "points" +:+ Py.nl "0")).
  intros c Hc. vm_compute in Hc.
  repeat (apply elem_of_cons in Hc as [->|Hc]; [done|]).
  by apply elem_of_nil in Hc.
Defined.

